(** * Speech coach: the streaming audio analysis pipeline

    A shallow embedding of [src/audio/audio_manager.py] (the capture buffer
    and its slicing loop) and [src/analysis/speech_analyzer.py] (transcription,
    the feature extractors, score aggregation and alerting), followed by the
    properties of the specification, each settled on these definitions.

    Numbers.  Python [int] is [Z].  Python [float] is IEEE binary64 and is
    modelled bit for bit by the primitive type [float]: [+], [-], [*], [/],
    [sqrt] and the comparisons are the hardware operations Python uses.
    [int(x)] is truncation toward zero ([py_int]); an [int] meeting a [float]
    is first converted ([Z2F]).  Exceptions are values of [result].

    External collaborators.  The speech-to-text process, the pitch tracker
    and the spectral feature library are not code of the repository: they are
    fields of [externals].  NumPy's reductions are written as left-to-right
    binary64 folds; NumPy sums single precision arrays pairwise, so the two
    agree whenever the partial sums are exact (in particular on silence). *)

From Stdlib Require Import ZArith List Lia Bool String Ascii Floats Uint63.
Import ListNotations.

#[local] Set Warnings "-inexact-float".
#[local] Open Scope bool_scope.
#[local] Open Scope Z_scope.

(** ** Python values *)

(** The outcome of an expression that may raise: [Raise msg] carries [str(e)]. *)
Inductive result (A : Type) : Type :=
| Ok (a : A)
| Raise (msg : string).
Arguments Ok {A} a.
Arguments Raise {A} msg.

Definition bind {A B : Type} (r : result A) (k : A -> result B) : result B :=
  match r with
  | Ok a => k a
  | Raise msg => Raise msg
  end.

Notation "x <- r ;; k" := (bind r (fun x => k))
  (at level 61, r at next level, right associativity).

(** [float(z)]: the binary64 nearest to [z], ties to even. *)
Definition Z2F (z : Z) : float := SF2Prim (binary_normalize prec emax z 0 false).

(** [int(x)] for a float [x]: truncation toward zero; NaN and the infinities
    raise [ValueError] and [OverflowError]. *)
Definition py_int (x : float) : result Z :=
  match Prim2SF x with
  | S754_zero _ => Ok 0
  | S754_finite s m e =>
      let a := Z.shiftl (Zpos m) e in Ok (if s then - a else a)
  | S754_infinity _ => Raise "cannot convert float infinity to integer"
  | S754_nan => Raise "cannot convert float NaN to integer"
  end.

(** [x / y] on Python floats raises [ZeroDivisionError] on a zero divisor. *)
Definition py_truediv (x y : float) : result float :=
  if PrimFloat.is_zero y then Raise "float division by zero" else Ok (x / y)%float.

(** [a / b] on Python ints (true division). *)
Definition py_truediv_int (a b : Z) : result float :=
  if b =? 0 then Raise "division by zero" else Ok (Z2F a / Z2F b)%float.

(** The builtin [min(x, y)] keeps its first argument unless the second is
    strictly smaller. *)
Definition py_min (x y : float) : float := if (y <? x)%float then y else x.

(** [len(l)] as a Python int. *)
Definition len {A : Type} (l : list A) : Z := Z.of_nat (List.length l).

(** A slice bound [i] of a sequence of length [n]: negative bounds count from
    the end, and every bound is clamped into [0, n]. *)
Definition slice_bound (n i : Z) : nat :=
  Z.to_nat (if i <? 0 then Z.max 0 (n + i) else Z.min i n).

(** [l[:stop]] *)
Definition slice_to {A : Type} (l : list A) (stop : Z) : list A :=
  firstn (slice_bound (len l) stop) l.

(** [l[start:]] *)
Definition slice_from {A : Type} (l : list A) (start : Z) : list A :=
  skipn (slice_bound (len l) start) l.

(** The last [k] elements of [l]. *)
Definition lastn {A : Type} (k : nat) (l : list A) : list A :=
  skipn (List.length l - k) l.

(** ** NumPy reductions over a one-dimensional array of doubles *)

Definition np_sum (a : list float) : float :=
  fold_left (fun acc x => (acc + x)%float) a 0%float.

(** Division by [len(a)]: the mean of an empty array is NaN. *)
Definition np_mean (a : list float) : float := (np_sum a / Z2F (len a))%float.

Definition np_square (a : list float) : list float :=
  map (fun x => (x * x)%float) a.

Definition np_var (a : list float) : float :=
  let m := np_mean a in
  np_mean (np_square (map (fun x => (x - m)%float) a)).

Definition np_std (a : list float) : float := PrimFloat.sqrt (np_var a).

Definition np_max (a : list float) : float :=
  match a with
  | [] => nan
  | x :: rest => fold_left (fun acc y => if (acc <? y)%float then y else acc) rest x
  end.

Definition np_min (a : list float) : float :=
  match a with
  | [] => nan
  | x :: rest => fold_left (fun acc y => if (y <? acc)%float then y else acc) rest x
  end.

(** ** [AudioManager]: the capture buffer and the slicing loop *)

Module AudioManager.

(** The settings the slicing loop reads.  ([audio_buffer], the attribute the
    two threads share, is the [buffer] of [loop_state] below.) *)
Record t : Type := {
  sample_rate : Z;
  analysis_chunk_duration : float;
  overlap_duration : float
}.

(** [__init__]: 16 kHz, three second chunks, half a second of overlap. *)
Definition init : t := {|
  sample_rate := 16000;
  analysis_chunk_duration := 3%float;
  overlap_duration := 0.5%float
|}.

(** [_audio_callback]: the capture thread appends the delivered frames
    (signed 16-bit samples, kept as [Z]). *)
Definition _audio_callback (buffer : list Z) (in_data : list Z) : list Z :=
  buffer ++ in_data.

(** The three sample counts [_process_audio_buffer] computes before its loop. *)
Record chunking : Type := {
  analysis_chunk_samples : Z;
  overlap_samples : Z;
  step_samples : Z
}.

Definition chunking_of (self : t) : result chunking :=
  w <- py_int (analysis_chunk_duration self * Z2F (sample_rate self))%float ;;
  o <- py_int (overlap_duration self * Z2F (sample_rate self))%float ;;
  Ok {| analysis_chunk_samples := w;
        overlap_samples := o;
        step_samples := w - o |}.

(** What the loop works on: the shared buffer [self.audio_buffer], the time
    of the last emission, and the chunks sent so far through the
    [audio_data_ready] signal. *)
Record loop_state : Type := {
  buffer : list Z;
  last_emit_time : float;
  emitted : list (list Z)
}.

(** [start_recording] clears the buffer and the loop starts with
    [last_emit_time = 0]. *)
Definition loop_start : loop_state :=
  {| buffer := []; last_emit_time := 0%float; emitted := [] |}.

(** One pass of the [while self.is_recording] body.  The buffer length is
    read in a first critical section and the slice is taken in a second
    one; [arrived] is what the capture callback appended in between.
    [current_time] is the reading of [time.time()].  The second component
    is the chunk sliced in this pass, if any. *)
Definition iteration (c : chunking) (arrived : list Z) (current_time : float)
    (st : loop_state) : loop_state * option (list Z) :=
  let buffer_length := len (buffer st) in
  let buf := _audio_callback (buffer st) arrived in
  if analysis_chunk_samples c <=? buffer_length then
    let chunk := slice_to buf (analysis_chunk_samples c) in
    let buf' := slice_from buf (step_samples c) in
    if (0.1 <=? current_time - last_emit_time st)%float then
      ({| buffer := buf';
          last_emit_time := current_time;
          emitted := emitted st ++ [chunk] |}, Some chunk)
    else
      ({| buffer := buf';
          last_emit_time := last_emit_time st;
          emitted := emitted st |}, Some chunk)
  else
    ({| buffer := buf;
        last_emit_time := last_emit_time st;
        emitted := emitted st |}, None).

(** What happens to the buffer while recording: the capture callback
    delivers frames, or the analysis thread runs one pass of its loop. *)
Inductive event : Type :=
| Callback (in_data : list Z)
| Pass (arrived : list Z) (current_time : float).

Definition step (c : chunking) (e : event) (st : loop_state)
    : loop_state * option (list Z) :=
  match e with
  | Callback in_data =>
      ({| buffer := _audio_callback (buffer st) in_data;
          last_emit_time := last_emit_time st;
          emitted := emitted st |}, None)
  | Pass arrived current_time => iteration c arrived current_time st
  end.

(** A run: the final state and the chunks sliced, oldest first. *)
Fixpoint run (c : chunking) (es : list event) (st : loop_state)
    : loop_state * list (list Z) :=
  match es with
  | [] => (st, [])
  | e :: rest =>
      let '(st1, w) := step c e st in
      let '(st2, ws) := run c rest st1 in
      (st2, match w with Some chunk => chunk :: ws | None => ws end)
  end.

(** Every sample an event delivers, in order of arrival. *)
Definition delivered (e : event) : list Z :=
  match e with
  | Callback in_data => in_data
  | Pass arrived _ => arrived
  end.

End AudioManager.

(** ** Strings: the pieces of [str] and [re] the analyzer uses *)

(** [\w] on ASCII text: letters, digits and the underscore. *)
Definition is_word_char (c : ascii) : bool :=
  let n := nat_of_ascii c in
  ((48 <=? n) && (n <=? 57) || (65 <=? n) && (n <=? 90)
   || (97 <=? n) && (n <=? 122) || (n =? 95))%nat.

Definition lower_char (c : ascii) : ascii :=
  let n := nat_of_ascii c in
  if ((65 <=? n) && (n <=? 90))%nat then ascii_of_nat (n + 32) else c.

(** [s.lower()] *)
Fixpoint lower (s : string) : string :=
  match s with
  | EmptyString => EmptyString
  | String c rest => String (lower_char c) (lower rest)
  end.

(** [re.findall(r'\b\w+\b', s)]: the maximal runs of word characters, left
    to right.  [cur] is the run being read. *)
Fixpoint findall_words_from (cur : string) (s : string) : list string :=
  match s with
  | EmptyString =>
      match cur with
      | EmptyString => []
      | _ => [cur]
      end
  | String c rest =>
      if is_word_char c then findall_words_from (cur ++ String c EmptyString)%string rest
      else
        match cur with
        | EmptyString => findall_words_from EmptyString rest
        | _ => cur :: findall_words_from EmptyString rest
        end
  end.

Definition findall_words (s : string) : list string :=
  findall_words_from EmptyString s.

(** Whitespace as [str.strip] sees it on ASCII text. *)
Definition is_space (c : ascii) : bool :=
  let n := nat_of_ascii c in
  ((9 <=? n) && (n <=? 13) || (28 <=? n) && (n <=? 32))%nat.

Fixpoint lstrip (s : string) : string :=
  match s with
  | EmptyString => EmptyString
  | String c rest => if is_space c then lstrip rest else s
  end.

Fixpoint string_rev (s : string) : string :=
  match s with
  | EmptyString => EmptyString
  | String c rest => (string_rev rest ++ String c EmptyString)%string
  end.

(** [s.strip()] *)
Definition strip (s : string) : string :=
  string_rev (lstrip (string_rev (lstrip s))).

(** [s.split('\n')]; [cur] is the line being read. *)
Fixpoint split_lines_from (cur : string) (s : string) : list string :=
  match s with
  | EmptyString => [cur]
  | String c rest =>
      if (nat_of_ascii c =? 10)%nat then cur :: split_lines_from EmptyString rest
      else split_lines_from (cur ++ String c EmptyString)%string rest
  end.

Definition split_lines (s : string) : list string :=
  split_lines_from EmptyString s.

(** Truthiness of an attribute that is [None] or a string. *)
Definition truthy (p : option string) : bool :=
  match p with
  | Some s => negb (s =? "")%string
  | None => false
  end.

(** ** The world outside the analyzer *)

(** The paths present in the temporary directory. *)
Record world : Type := { files : list string }.

Definition create (path : string) (w : world) : world :=
  {| files := path :: files w |}.

(** [os.unlink(path)] *)
Definition unlink (path : string) (w : world) : world :=
  {| files := filter (fun p => negb (p =? path)%string) (files w) |}.

Definition exists_file (path : string) (w : world) : bool :=
  existsb (fun p => (p =? path)%string) (files w).

(** How [subprocess.run(cmd, capture_output=True, text=True, timeout=30)]
    ends: the process exits, the timeout expires ([TimeoutExpired] is
    raised), or the process cannot be started ([OSError] is raised). *)
Inductive process_outcome : Type :=
| Completed (returncode : Z) (stdout stderr : string)
| TimeoutExpired
| SpawnError (msg : string).

(** The means of the spectral features computed by the feature library. *)
Record spectral : Type := {
  centroid_mean : float;
  rolloff_mean : float;
  zero_crossing_mean : float;
  mfcc_var_mean : float
}.

(** The collaborators: the name the temporary file receives, the
    speech-to-text process (given its command line and the samples of the
    WAV file it is pointed at), the pitch contour of the pitch tracker at a
    10 ms step, and the spectral features. *)
Record externals : Type := {
  temp_wav_path : world -> string;
  subprocess_run : list string -> list Z -> process_outcome;
  to_pitch : list float -> Z -> result (list float);
  spectral_features : list float -> Z -> result spectral
}.

(** Writing the WAV file: [setframerate] refuses a rate that is not positive. *)
Definition wave_write (audio_data : list Z) (sample_rate : Z) : result unit :=
  if sample_rate <=? 0 then Raise "bad frame rate" else Ok tt.

(** Log records: only [update_settings] is followed through its logging;
    elsewhere the logging calls do not influence what is returned. *)
Inductive log_level : Type := Info | Warning | Error.

Definition log_record : Type := (log_level * string)%type.

(** [range(0, stop, k)] for a positive step [k]. *)
Definition py_range_step (stop k : Z) : list Z :=
  map (fun j => Z.of_nat j * k) (seq 0 (Z.to_nat ((stop + k - 1) / k))).

(** ** [SpeechAnalyzer] *)

Module SpeechAnalyzer.

(** The [thresholds] dictionary, under the four keys [__init__] installs. *)
Record thresholds_t : Type := {
  pitch_variance_good : float * float;
  speaking_rate_good : float * float;
  volume_consistency_good : float;
  filler_words_threshold : float
}.

Record t : Type := {
  whisper_model_path : option string;
  whisper_cli_path : option string;
  thresholds : thresholds_t;
  filler_words : list string
}.

Definition default_thresholds : thresholds_t := {|
  pitch_variance_good := (50%float, 150%float);
  speaking_rate_good := (150%float, 200%float);
  volume_consistency_good := 0.8%float;
  filler_words_threshold := 0.05%float
|}.

Definition default_filler_words : list string :=
  ["um"; "uh"; "er"; "ah"; "like"; "you know"; "so"; "well";
   "actually"; "basically"; "literally"; "seriously"; "totally"]%string.

(** [__init__]; the two paths are what [initialize_whisper] found on disk. *)
Definition init (cli model : option string) : t := {|
  whisper_model_path := model;
  whisper_cli_path := cli;
  thresholds := default_thresholds;
  filler_words := default_filler_words
|}.

(** *** Metrics, scores, alerts and the published result *)

Record tone_metrics : Type := {
  pitch_mean : float;
  pitch_std : float;
  pitch_range : float;
  t_score : Z
}.

Record clarity_metrics : Type := {
  spectral_centroid_mean : float;
  spectral_rolloff_mean : float;
  zero_crossing_rate_mean : float;
  mfcc_variance : float;
  c_score : Z
}.

Record volume_metrics : Type := {
  rms_mean : float;
  rms_std : float;
  consistency : float;
  v_score : Z
}.

Record filler_metrics : Type := {
  count : Z;
  ratio : float;
  types : list string;
  f_score : Z
}.

Record rate_metrics : Type := {
  words_per_minute : float;
  word_count : Z;
  r_score : Z
}.

(** The [metrics] dictionary: [None] is the empty dictionary a category
    holds until its extractor has run. *)
Record metrics_t : Type := {
  m_tone : option tone_metrics;
  m_clarity : option clarity_metrics;
  m_volume : option volume_metrics;
  m_fillers : option filler_metrics;
  m_rate : option rate_metrics
}.

Record scores_t : Type := {
  overall : Z;
  s_tone : Z;
  s_clarity : Z;
  s_volume : Z;
  s_fluency : Z
}.

(** The alert messages, each with the value its text interpolates. *)
Inductive alert : Type :=
| VaryPitch
| ClearArticulation
| ConsistentVolume
| ReduceFillers (filler_ratio : float)
| SpeakFaster
| SlowDown
| AnalysisError (error : string).

Record results : Type := {
  timestamp : Z;
  duration : float;
  transcription : string;
  metrics : metrics_t;
  scores : scores_t;
  alerts : list alert;
  error : option string
}.

Definition no_metrics : metrics_t :=
  {| m_tone := None; m_clarity := None; m_volume := None;
     m_fillers := None; m_rate := None |}.

Definition zero_scores : scores_t :=
  {| overall := 0; s_tone := 0; s_clarity := 0; s_volume := 0; s_fluency := 0 |}.

(** *** Transcription *)

(** The first line of the engine's output that is not empty and is not
    metadata, stripped; the empty string when there is none. *)
Fixpoint first_text_line (lines : list string) : string :=
  match lines with
  | [] => EmptyString
  | line :: rest =>
      if negb (line =? "")%string && negb (prefix "[" line)
         && negb (prefix "whisper_" line)
      then strip line
      else first_text_line rest
  end.

(** [_transcribe_audio]: the text, and the world it leaves.  Without the
    engine nothing is written.  Otherwise the temporary file is created and
    written, the engine is run, and the file is unlinked once [subprocess.run]
    has returned; an exception on the way (a refused WAV header, the timeout,
    a process that cannot be started) is caught by [except Exception], which
    returns the empty text. *)
Definition _transcribe_audio (self : t) (ext : externals) (w : world)
    (audio_data : list Z) (sample_rate : Z) : string * world :=
  if negb (truthy (whisper_cli_path self)) || negb (truthy (whisper_model_path self))
  then (EmptyString, w)
  else
    let cli := match whisper_cli_path self with Some p => p | None => EmptyString end in
    let model := match whisper_model_path self with Some p => p | None => EmptyString end in
    let wav_path := temp_wav_path ext w in
    let w1 := create wav_path w in
    match wave_write audio_data sample_rate with
    | Raise _ => (EmptyString, w1)
    | Ok _ =>
        let cmd := [cli; "-m"; model; "-f"; wav_path;
                    "--no-timestamps"; "--output-txt"]%string in
        match subprocess_run ext cmd audio_data with
        | Completed returncode stdout _ =>
            let w2 := unlink wav_path w1 in
            if returncode =? 0
            then (first_text_line (split_lines (strip stdout)), w2)
            else (EmptyString, w2)
        | TimeoutExpired => (EmptyString, w1)
        | SpawnError _ => (EmptyString, w1)
        end
    end.

(** *** Feature extractors *)

Definition zero_tone : tone_metrics :=
  {| pitch_mean := 0; pitch_std := 0; pitch_range := 0; t_score := 0 |}.

(** [_analyze_tone]: [except Exception] answers [zero_tone] when the pitch
    tracker raises. *)
Definition _analyze_tone (self : t) (ext : externals) (audio : list float)
    (sample_rate : Z) : tone_metrics :=
  match to_pitch ext audio sample_rate with
  | Raise _ => zero_tone
  | Ok pitch_values =>
      let valid_pitch := filter (fun p => (0 <? p)%float) pitch_values in
      if len valid_pitch =? 0 then zero_tone
      else
        let pitch_mean := np_mean valid_pitch in
        let pitch_std := np_std valid_pitch in
        let pitch_range := (np_max valid_pitch - np_min valid_pitch)%float in
        let variance_score :=
          if (pitch_std <? fst (pitch_variance_good (thresholds self)))%float then 50
          else if (snd (pitch_variance_good (thresholds self)) <? pitch_std)%float then 70
          else 100 in
        {| pitch_mean := pitch_mean;
           pitch_std := pitch_std;
           pitch_range := pitch_range;
           t_score := variance_score |}
  end.

(** [_analyze_clarity].  (The dictionary returned on an exception holds the
    centroid and the score only; the other fields read 0 here.) *)
Definition _analyze_clarity (self : t) (ext : externals) (audio : list float)
    (sample_rate : Z) : clarity_metrics :=
  let failed :=
    {| spectral_centroid_mean := 0; spectral_rolloff_mean := 0;
       zero_crossing_rate_mean := 0; mfcc_variance := 0; c_score := 0 |} in
  match
    f <- spectral_features ext audio sample_rate ;;
    let centroid_norm := py_min (centroid_mean f / 2000)%float 1%float in
    let variance_norm := py_min (mfcc_var_mean f / 100)%float 1%float in
    clarity_score <- py_int ((centroid_norm * 0.6 + variance_norm * 0.4) * 100)%float ;;
    Ok {| spectral_centroid_mean := centroid_mean f;
          spectral_rolloff_mean := rolloff_mean f;
          zero_crossing_rate_mean := zero_crossing_mean f;
          mfcc_variance := mfcc_var_mean f;
          c_score := clarity_score |}
  with
  | Ok m => m
  | Raise _ => failed
  end.

Definition zero_volume : volume_metrics :=
  {| rms_mean := 0; rms_std := 0; consistency := 0; v_score := 0 |}.

(** [_analyze_volume]: the RMS of windows of 1024 samples, 512 apart. *)
Definition _analyze_volume (self : t) (audio : list float) : volume_metrics :=
  let window_size := 1024 in
  let hop_length := 512 in
  let rms_values :=
    map (fun i =>
           let window := firstn (Z.to_nat window_size) (skipn (Z.to_nat i) audio) in
           PrimFloat.sqrt (np_mean (np_square window)))
        (py_range_step (len audio - window_size) hop_length) in
  if len rms_values =? 0 then zero_volume
  else
    let rms_mean := np_mean rms_values in
    let rms_std := np_std rms_values in
    let consistency :=
      if (0 <? rms_mean)%float
      then (1 - py_min (rms_std / rms_mean) 1)%float
      else 0%float in
    match py_int (consistency * 100)%float with
    | Ok volume_score =>
        {| rms_mean := rms_mean; rms_std := rms_std;
           consistency := consistency; v_score := volume_score |}
    | Raise _ => zero_volume
    end.

(** The loop over [words]: the number of tokens found in the filler list
    and the set of those found (kept in order of first occurrence; the
    order of a Python set is not specified). *)
Definition count_fillers (filler_words : list string) (words : list string)
    : Z * list string :=
  fold_left
    (fun (acc : Z * list string) (word : string) =>
       if existsb (String.eqb word) filler_words
       then (fst acc + 1,
             if existsb (String.eqb word) (snd acc) then snd acc
             else snd acc ++ [word])
       else acc)
    words (0, []).

(** [_analyze_fillers] *)
Definition _analyze_fillers (self : t) (transcription : string) : filler_metrics :=
  let none_found := {| count := 0; ratio := 0; types := []; f_score := 100 |} in
  if (transcription =? "")%string then none_found
  else
    let words := findall_words (lower transcription) in
    let total_words := len words in
    if total_words =? 0 then none_found
    else
      let filler_count := fst (count_fillers (filler_words self) words) in
      let found_fillers := snd (count_fillers (filler_words self) words) in
      match
        filler_ratio <- py_truediv_int filler_count total_words ;;
        score <-
          (if (filler_ratio <=? filler_words_threshold (thresholds self))%float
           then Ok 100
           else v <- py_int (100 - filler_ratio * 1000)%float ;; Ok (Z.max 0 v)) ;;
        Ok {| count := filler_count; ratio := filler_ratio;
              types := found_fillers; f_score := score |}
      with
      | Ok m => m
      | Raise _ => {| count := 0; ratio := 0; types := []; f_score := 0 |}
      end.

(** [_analyze_speaking_rate].  (The dictionary returned by the guard has no
    word count; it reads 0 here.) *)
Definition _analyze_speaking_rate (self : t) (transcription : string)
    (duration : float) : rate_metrics :=
  if (transcription =? "")%string || (duration <=? 0)%float
  then {| words_per_minute := 0; word_count := 0; r_score := 0 |}
  else
    let words := findall_words transcription in
    let word_count := len words in
    let lo := fst (speaking_rate_good (thresholds self)) in
    let hi := snd (speaking_rate_good (thresholds self)) in
    match
      per_second <- py_truediv (Z2F word_count) duration ;;
      let words_per_minute := (per_second * 60)%float in
      score <-
        (if (lo <=? words_per_minute)%float && (words_per_minute <=? hi)%float
         then Ok 100
         else if (words_per_minute <? lo)%float
         then q <- py_truediv words_per_minute lo ;;
              v <- py_int (q * 100)%float ;; Ok (Z.max 0 v)
         else v <- py_int (100 - (words_per_minute - hi) / 2)%float ;;
              Ok (Z.max 0 v)) ;;
      Ok {| words_per_minute := words_per_minute;
            word_count := word_count; r_score := score |}
    with
    | Ok m => m
    | Raise _ => {| words_per_minute := 0; word_count := 0; r_score := 0 |}
    end.

(** *** Aggregation and alerts *)

(** [metrics.get(k, {}).get('score', 0)] *)
Definition score_of {M : Type} (score : M -> Z) (m : option M) : Z :=
  match m with
  | Some x => score x
  | None => 0
  end.

(** [_calculate_scores]: [int] raises on a sum that is not finite, and the
    caller catches it. *)
Definition _calculate_scores (self : t) (metrics : metrics_t) : result scores_t :=
  let tone := score_of t_score (m_tone metrics) in
  let clarity := score_of c_score (m_clarity metrics) in
  let volume := score_of v_score (m_volume metrics) in
  let fluency :=
    (score_of f_score (m_fillers metrics) + score_of r_score (m_rate metrics)) / 2 in
  o <- py_int (Z2F tone * 0.25 + Z2F clarity * 0.25
               + Z2F volume * 0.2 + Z2F fluency * 0.3)%float ;;
  Ok {| overall := o; s_tone := tone; s_clarity := clarity;
        s_volume := volume; s_fluency := fluency |}.

(** [_generate_alerts] *)
Definition _generate_alerts (self : t) (metrics : metrics_t) (scores : scores_t)
    : list alert :=
  let lo := fst (speaking_rate_good (thresholds self)) in
  let hi := snd (speaking_rate_good (thresholds self)) in
  let filler_ratio :=
    match m_fillers metrics with Some f => ratio f | None => 0%float end in
  let wpm :=
    match m_rate metrics with Some r => words_per_minute r | None => 0%float end in
  (if s_tone scores <? 70 then [VaryPitch] else [])
  ++ (if s_clarity scores <? 70 then [ClearArticulation] else [])
  ++ (if s_volume scores <? 70 then [ConsistentVolume] else [])
  ++ (if (filler_words_threshold (thresholds self) <? filler_ratio)%float
      then [ReduceFillers filler_ratio] else [])
  ++ (if (0 <? wpm)%float
      then if (wpm <? lo)%float then [SpeakFaster]
           else if (hi <? wpm)%float then [SlowDown] else []
      else []).

(** *** The pipeline *)

(** [rms > threshold] for the root mean square of the window. *)
Definition _has_speech (audio : list float) (threshold : float) : bool :=
  let rms := PrimFloat.sqrt (np_mean (np_square audio)) in
  (threshold <? rms)%float.

(** [_empty_result(error)] *)
Definition _empty_result (now : Z) (error : string) : results :=
  {| timestamp := now;
     duration := 0;
     transcription := EmptyString;
     metrics := no_metrics;
     scores := zero_scores;
     alerts := if (error =? "")%string then [] else [AnalysisError error];
     error := Some error |}.

(** The stages of the pipeline, in the order [analyze_audio] enters them. *)
Inductive stage : Type :=
| Transcribe | Tone | Clarity | Volume | Fillers | Rate | Scores | Alerts.

(** What a call of [analyze_audio] leaves behind: the result it returns,
    the world after it, and the stages it entered. *)
Record analysis : Type := {
  returned : results;
  world_after : world;
  entered : list stage
}.

(** [analyze_audio]; [now] is the reading of the clock.  The samples are
    converted to floats, the result is initialised (the division of the
    duration raises on a zero rate), and the pipeline runs only behind the
    [_has_speech] gate.  Any exception is answered by [_empty_result]. *)
Definition analyze_audio (self : t) (ext : externals) (now : Z) (w : world)
    (audio_data : list Z) (sample_rate : Z) : analysis :=
  let audio_float := map (fun s => (Z2F s / 32767)%float) audio_data in
  match py_truediv_int (len audio_data) sample_rate with
  | Raise e => {| returned := _empty_result now e; world_after := w; entered := [] |}
  | Ok duration =>
      if _has_speech audio_float 0.01 then
        let tr := _transcribe_audio self ext w audio_data sample_rate in
        let text := fst tr in
        let tone := _analyze_tone self ext audio_float sample_rate in
        let clarity := _analyze_clarity self ext audio_float sample_rate in
        let volume := _analyze_volume self audio_float in
        let spoken := negb (text =? "")%string in
        let metrics :=
          {| m_tone := Some tone;
             m_clarity := Some clarity;
             m_volume := Some volume;
             m_fillers := if spoken then Some (_analyze_fillers self text) else None;
             m_rate :=
               if spoken then Some (_analyze_speaking_rate self text duration)
               else None |} in
        let before_scores :=
          [Transcribe; Tone; Clarity; Volume]
          ++ (if spoken then [Fillers; Rate] else []) ++ [Scores] in
        match _calculate_scores self metrics with
        | Raise e =>
            {| returned := _empty_result now e;
               world_after := snd tr;
               entered := before_scores |}
        | Ok scores =>
            {| returned :=
                 {| timestamp := now;
                    duration := duration;
                    transcription := text;
                    metrics := metrics;
                    scores := scores;
                    alerts := _generate_alerts self metrics scores;
                    error := None |};
               world_after := snd tr;
               entered := before_scores ++ [Alerts] |}
        end
      else
        {| returned :=
             {| timestamp := now;
                duration := duration;
                transcription := EmptyString;
                metrics := no_metrics;
                scores := zero_scores;
                alerts := [];
                error := None |};
           world_after := w;
           entered := [] |}
  end.

(** *** Settings *)

(** The entries of [settings['thresholds']] under the keys the analyzer reads. *)
Record threshold_settings : Type := {
  new_pitch_variance_good : option (float * float);
  new_speaking_rate_good : option (float * float);
  new_volume_consistency_good : option float;
  new_filler_words_threshold : option float
}.

Record weights_t : Type := {
  w_tone : float;
  w_clarity : float;
  w_volume : float;
  w_fluency : float
}.

(** The settings dictionary handed to [update_settings]: the two keys it
    looks up, and the other keys the settings form sends. *)
Record settings : Type := {
  set_thresholds : option threshold_settings;
  set_filler_words : option (list string);
  set_weights : option weights_t;
  set_speaking_rate_range : option (float * float);
  set_filler_threshold : option float;
  set_volume_consistency : option float
}.

Definition override {A : Type} (new : option A) (old : A) : A :=
  match new with
  | Some a => a
  | None => old
  end.

(** [self.thresholds.update(d)] *)
Definition thresholds_update (old : thresholds_t) (d : threshold_settings)
    : thresholds_t :=
  {| pitch_variance_good :=
       override (new_pitch_variance_good d) (pitch_variance_good old);
     speaking_rate_good :=
       override (new_speaking_rate_good d) (speaking_rate_good old);
     volume_consistency_good :=
       override (new_volume_consistency_good d) (volume_consistency_good old);
     filler_words_threshold :=
       override (new_filler_words_threshold d) (filler_words_threshold old) |}.

(** [update_settings]: the analyzer after the call and what was logged. *)
Definition update_settings (self : t) (s : settings) : t * list log_record :=
  ({| whisper_model_path := whisper_model_path self;
      whisper_cli_path := whisper_cli_path self;
      thresholds :=
        match set_thresholds s with
        | Some d => thresholds_update (thresholds self) d
        | None => thresholds self
        end;
      filler_words := override (set_filler_words s) (filler_words self) |},
   [(Info, "Speech analyzer settings updated"%string)]).

End SpeechAnalyzer.

(** ** Checked computations

    The aggregate score and the filler score depend on how binary64 rounds.
    Their properties over a finite range of inputs are established by running
    the code on every input of the range.  [trunc63] is [int(x)] on machine
    integers, for the doubles whose integer part is below [2^53]: the sign
    and the magnitude. *)

Definition trunc63 (x : float) : option (bool * int) :=
  if PrimFloat.is_nan x then None
  else if PrimFloat.is_zero x then Some (false, 0%uint63)
  else if PrimFloat.is_infinity x then None
  else
    let (m, se) := frshiftexp x in
    let mant := normfr_mantissa m in
    if ((4503599627370496 <=? mant) && (mant <? 9007199254740992)
        && (1080 <=? se) && (se <=? 2154))%uint63
    then Some (get_sign x, (mant >> (2154 - se))%uint63)
    else None.

(** [0, 1, ..., n-1] *)
Definition Zrange (n : nat) : list Z := map Z.of_nat (seq 0 n).

(** The sum [_calculate_scores] truncates. *)
Definition weighted_sum (tone clarity volume fluency : Z) : float :=
  (Z2F tone * 0.25 + Z2F clarity * 0.25 + Z2F volume * 0.2 + Z2F fluency * 0.3)%float.

(** The exact value of twenty times the weighted sum. *)
Definition twenty_times_sum (tone clarity volume fluency : Z) : Z :=
  5 * tone + 5 * clarity + 4 * volume + 6 * fluency.

(** [x] truncates to a value [u <= 100] with [e - 1 <= u <= e]. *)
Definition near_floor (e : int) (x : float) : bool :=
  match trunc63 x with
  | Some (false, u) => ((u <=? 100) && (u <=? e) && (e <=? u + 1))%uint63
  | _ => false
  end.

(** ** The specification's reading of the aggregate *)

(** [round(n / 20)], to the nearest integer, ties to even. *)
Definition round_twentieths (n : Z) : Z :=
  let q := n / 20 in
  let r := n mod 20 in
  if r <? 10 then q
  else if 10 <? r then q + 1
  else if Z.even q then q else q + 1.

(** The overall score as the specification words it: the weighted sum,
    rounded. *)
Definition spec_overall (tone clarity volume fluency : Z) : Z :=
  round_twentieths (twenty_times_sum tone clarity volume fluency).

(** The configuration validation the specification asks for: the four
    weights sum to one within a tolerance, and a configuration that fails
    the test is turned down (the analyzer is left as it was) with a warning. *)
Definition weights_sum_to_one (w : SpeechAnalyzer.weights_t) : bool :=
  (abs (SpeechAnalyzer.w_tone w + SpeechAnalyzer.w_clarity w
        + SpeechAnalyzer.w_volume w + SpeechAnalyzer.w_fluency w - 1)
   <=? 0.000001)%float.

Definition rejected_with_warning (before : SpeechAnalyzer.t)
    (out : SpeechAnalyzer.t * list log_record) : Prop :=
  fst out = before /\ exists msg, In (Warning, msg) (snd out).

(** ** Consecutive windows *)

(** Each window of the list ends with the [k] samples the next one starts
    with. *)
Fixpoint overlapping (k : nat) (windows : list (list Z)) : Prop :=
  match windows with
  | w1 :: ((w2 :: _) as rest) => lastn k w1 = firstn k w2 /\ overlapping k rest
  | _ => True
  end.

(** The window sliced last, if any, ends with the [k] samples the buffer
    starts with. *)
Definition tail_kept (k : nat) (last : option (list Z))
    (st : AudioManager.loop_state) : Prop :=
  match last with
  | Some w =>
      lastn k w = firstn k (AudioManager.buffer st)
      /\ (k <= List.length (AudioManager.buffer st))%nat
  | None => True
  end.

(** ** The filler score above the threshold *)

(** The score of [k] fillers among [n] words once the ratio is above the
    threshold: [max(0, int(100 - (k / n) * 1000))]. *)
Definition filler_penalty (k n : Z) : result Z :=
  v <- py_int (100 - Z2F k / Z2F n * 1000)%float ;; Ok (Z.max 0 v).

(** The same on machine integers. *)
Definition penalty63 (x : float) : option int :=
  match trunc63 x with
  | Some (s, u) => Some (if s then 0%uint63 else u)
  | None => None
  end.

Definition not_higher (a b : option int) : bool :=
  match a, b with
  | Some u, Some v => (u <=? v)%uint63
  | _, _ => false
  end.

(** The analyzer with another filler list ([update_settings] with the
    [filler_words] key alone). *)
Definition with_filler_words (self : SpeechAnalyzer.t) (words : list string)
    : SpeechAnalyzer.t :=
  fst (SpeechAnalyzer.update_settings self
         {| SpeechAnalyzer.set_thresholds := None;
            SpeechAnalyzer.set_filler_words := Some words;
            SpeechAnalyzer.set_weights := None;
            SpeechAnalyzer.set_speaking_rate_range := None;
            SpeechAnalyzer.set_filler_threshold := None;
            SpeechAnalyzer.set_volume_consistency := None |}).

(** An entry of the filler list that no single token can equal: it holds a
    character that is not a word character (a space, say). *)
Definition multi_word (entry : string) : bool :=
  existsb (fun c => negb (is_word_char c)) (list_ascii_of_string entry).

(** ** Sample inputs *)

Module Samples.
Import SpeechAnalyzer.

(** An analyzer with the engine installed. *)
Definition analyzer : t := init (Some "whisper-cli"%string) (Some "ggml-base.en.bin"%string).

(** A [metrics] dictionary whose five categories carry the given scores. *)
Definition metrics_scoring (tone clarity volume fillers rate : Z) : metrics_t :=
  {| m_tone := Some {| pitch_mean := 0; pitch_std := 0; pitch_range := 0;
                       t_score := tone |};
     m_clarity := Some {| spectral_centroid_mean := 0; spectral_rolloff_mean := 0;
                          zero_crossing_rate_mean := 0; mfcc_variance := 0;
                          c_score := clarity |};
     m_volume := Some {| rms_mean := 0; rms_std := 0; consistency := 0;
                         v_score := volume |};
     m_fillers := Some {| count := 0; ratio := 0; types := []; f_score := fillers |};
     m_rate := Some {| words_per_minute := 0; word_count := 0; r_score := rate |} |}.

(** Settings as the form sends them, with every weight at one half. *)
Definition unbalanced_settings : settings :=
  {| set_thresholds := None;
     set_filler_words := Some ["um"; "uh"]%string;
     set_weights := Some {| w_tone := 0.5; w_clarity := 0.5;
                            w_volume := 0.5; w_fluency := 0.5 |};
     set_speaking_rate_range := Some (150%float, 200%float);
     set_filler_threshold := Some 0.05%float;
     set_volume_consistency := Some 0.8%float |}.

(** Collaborators whose speech-to-text process never answers in time. *)
Definition stalled : externals :=
  {| temp_wav_path := fun _ => "/tmp/tmpq3x1.wav"%string;
     subprocess_run := fun _ _ => TimeoutExpired;
     to_pitch := fun _ _ => Raise "no pitch";
     spectral_features := fun _ _ => Raise "no features" |}.


Definition empty_world : world := {| files := [] |}.
End Samples.

Module SampleRuns.
Import AudioManager.

(** Windows of four samples that overlap by one. *)
Definition small_chunks : chunking :=
  {| analysis_chunk_samples := 4; overlap_samples := 1; step_samples := 3 |}.

(** Nine samples arrive while the loop makes five passes. *)
Definition nine_samples : list event :=
  [Callback [1; 2; 3]; Pass [4; 5] 1000; Pass [6] 1000.05;
   Pass [7; 8; 9] 1000.05; Pass [] 1000.09].
End SampleRuns.

(** ** Proof automation *)

(** Case analysis on every integer and mantissa comparison of the goal. *)
Ltac cmp_cases :=
  repeat match goal with
  | |- context [Z.compare ?a ?b] =>
      let E := fresh "E" in destruct (Z.compare_spec a b) as [E | E | E]
  | |- context [Pos.compare_cont Eq ?a ?b] =>
      let E := fresh "E" in
      change (Pos.compare_cont Eq a b) with (Pos.compare a b);
      destruct (Pos.compare_spec a b) as [E | E | E]
  end.

(** * The rest of the program

    The sections below embed what the pipeline above leaves out: the other
    methods of the audio manager (sources, recording, the level meter and
    its settings), and the callers of the analyzer and of the manager in
    [src/ui]: the dashboard, the real-time view, the settings form and the
    main window that connects them.  Widgets are modelled by the data they
    hold; painting and layout change no data and are left out. *)

(** ** Words and lines: predicates used to state what the analyzer keeps *)

(** An ASCII capital letter, the characters [str.lower] changes. *)
Definition is_upper (c : ascii) : bool :=
  let n := nat_of_ascii c in ((65 <=? n) && (n <=? 90))%nat.

Fixpoint has_upper (s : string) : bool :=
  match s with
  | EmptyString => false
  | String c rest => is_upper c || has_upper rest
  end.

(** The string is empty or begins with a character that is not whitespace. *)
Definition starts_clean (s : string) : bool :=
  match s with
  | EmptyString => true
  | String c _ => negb (is_space c)
  end.

Fixpoint has_newline (s : string) : bool :=
  match s with
  | EmptyString => false
  | String c rest => (nat_of_ascii c =? 10)%nat || has_newline rest
  end.

(** ** [AudioManager]: sources, recording and the level meter *)

(** [sub in s] on strings. *)
Fixpoint str_contains (sub s : string) : bool :=
  match s with
  | EmptyString => (sub =? "")%string
  | String _ rest => prefix sub s || str_contains sub rest
  end.

(** A dictionary with string keys, in insertion order: assigning to a key
    that is present replaces its value where it stands. *)
Fixpoint dict_set {V : Type} (k : string) (v : V) (d : list (string * V))
    : list (string * V) :=
  match d with
  | [] => [(k, v)]
  | (k', v') :: rest =>
      if (k' =? k)%string then (k, v) :: rest else (k', v') :: dict_set k v rest
  end.

(** [k in d] *)
Definition dict_has {V : Type} (k : string) (d : list (string * V)) : bool :=
  existsb (fun kv => (fst kv =? k)%string) d.

Module AudioControl.

(** A source as the sound server lists it. *)
Record source_t : Type := {
  name : string;
  description : string;
  index : Z
}.

Inductive source_type : Type := monitor | input.

Record source_info : Type := {
  info_description : string;
  info_index : Z;
  info_type : source_type
}.

(** The sound server: what [source_list()] answers when
    [get_available_sources] calls it the first and the second time. *)
Record pulse_t : Type := {
  first_listing : result (list source_t);
  second_listing : result (list source_t)
}.

Definition info_of (ty : source_type) (source : source_t) : source_info :=
  {| info_description := description source;
     info_index := index source;
     info_type := ty |}.

(** [get_available_sources]: the monitors first, then the other inputs; an
    exception from the server is answered with the empty dictionary. *)
Definition get_available_sources (pulse : option pulse_t)
    : list (string * source_info) :=
  match pulse with
  | None => []
  | Some p =>
      match first_listing p with
      | Raise _ => []
      | Ok listed =>
          let monitors :=
            fold_left
              (fun sources source =>
                 if str_contains "monitor" (name source)
                 then dict_set (name source) (info_of monitor source) sources
                 else sources)
              listed [] in
          match second_listing p with
          | Raise _ => []
          | Ok listed2 =>
              fold_left
                (fun sources source =>
                   if negb (str_contains "monitor" (name source))
                   then dict_set (name source) (info_of input source) sources
                   else sources)
                listed2 monitors
          end
      end
  end.

Definition monitor_names : list string :=
  ["auto_null.monitor";
   "alsa_output.pci-0000_00_1f.3.analog-stereo.monitor";
   "alsa_output.platform-snd_aloop.0.analog-stereo.monitor"]%string.

(** [get_default_monitor_source]: a well-known monitor name that is
    available, else the first monitor of the dictionary, else [None]. *)
Definition get_default_monitor_source (pulse : option pulse_t) : option string :=
  let sources := get_available_sources pulse in
  match find (fun name => dict_has name sources) monitor_names with
  | Some name => Some name
  | None =>
      match
        find (fun kv => match info_type (snd kv) with monitor => true | input => false end)
             sources
      with
      | Some (name, _) => Some name
      | None => None
      end
  end.

(** [get_audio_level]: the RMS of the last 1024 buffered samples over
    32767, capped at 1.  (The squares of 16-bit samples and their sums over
    1024 samples are integers below [2^53], so the mean is the same in any
    order of summation.) *)
Definition get_audio_level (audio_buffer : list Z) : float :=
  if len audio_buffer =? 0 then 0%float
  else
    let recent_samples :=
      if 1024 <? len audio_buffer then slice_from audio_buffer (-1024)
      else audio_buffer in
    let rms := PrimFloat.sqrt (np_mean (np_square (map Z2F recent_samples))) in
    py_min (rms / 32767)%float 1%float.

(** The attributes [start_recording] and [stop_recording] work on.
    [pyaudio_instance], [stream] and [recording_thread] say whether the
    attribute holds an object; [errors] are the messages sent through the
    [error_occurred] signal, oldest first. *)
Record state : Type := {
  pyaudio_instance : bool;
  pulse : option pulse_t;
  stream : bool;
  is_recording : bool;
  audio_buffer : list Z;
  recording_thread : bool;
  errors : list string
}.

(** What the audio libraries answer during one call: the two constructors,
    opening the stream, starting it, stopping it and closing it. *)
Record backend : Type := {
  new_pyaudio : result unit;
  new_pulse : result pulse_t;
  open_stream : result unit;
  start_stream : result unit;
  stop_stream : result unit;
  close_stream : result unit
}.

Definition report (e : string) (st : state) : state :=
  {| pyaudio_instance := pyaudio_instance st;
     pulse := pulse st;
     stream := stream st;
     is_recording := is_recording st;
     audio_buffer := audio_buffer st;
     recording_thread := recording_thread st;
     errors := errors st ++ [e] |}.

(** [initialize_audio_system]: an exception is logged and raised again. *)
Definition initialize_audio_system (b : backend) (st : state) : state * result unit :=
  match new_pyaudio b with
  | Raise e => (st, Raise e)
  | Ok _ =>
      let st1 :=
        {| pyaudio_instance := true;
           pulse := pulse st;
           stream := stream st;
           is_recording := is_recording st;
           audio_buffer := audio_buffer st;
           recording_thread := recording_thread st;
           errors := errors st |} in
      match new_pulse b with
      | Raise e => (st1, Raise e)
      | Ok p =>
          ({| pyaudio_instance := true;
              pulse := Some p;
              stream := stream st;
              is_recording := is_recording st;
              audio_buffer := audio_buffer st;
              recording_thread := recording_thread st;
              errors := errors st |}, Ok tt)
      end
  end.

Definition is_none {A : Type} (o : option A) : bool :=
  match o with
  | None => true
  | Some _ => false
  end.

(** The body of the [try] of [start_recording]. *)
Definition start_recording_body (b : backend) (source_name : option string)
    (st : state) : state * result unit :=
  let ensured :=
    if negb (pyaudio_instance st) || is_none (pulse st) then
      match initialize_audio_system b st with
      | (st1, Raise e) => (st1, Raise e)
      | (st1, Ok _) =>
          if negb (pyaudio_instance st1) || is_none (pulse st1)
          then (st1, Raise "Audio system not initialized properly"%string)
          else (st1, Ok tt)
      end
    else (st, Ok tt) in
  match ensured with
  | (st1, Raise e) => (st1, Raise e)
  | (st1, Ok _) =>
      let chosen :=
        match source_name with
        | Some n => Some n
        | None => get_default_monitor_source (pulse st1)
        end in
      match chosen with
      | None => (st1, Raise "No suitable audio source found"%string)
      | Some _ =>
          let cleared :=
            {| pyaudio_instance := pyaudio_instance st1;
               pulse := pulse st1;
               stream := stream st1;
               is_recording := is_recording st1;
               audio_buffer := [];
               recording_thread := recording_thread st1;
               errors := errors st1 |} in
          match open_stream b with
          | Raise e => (cleared, Raise e)
          | Ok _ =>
              let flagged :=
                {| pyaudio_instance := pyaudio_instance st1;
                   pulse := pulse st1;
                   stream := true;
                   is_recording := true;
                   audio_buffer := [];
                   recording_thread := recording_thread st1;
                   errors := errors st1 |} in
              match start_stream b with
              | Raise e => (flagged, Raise e)
              | Ok _ =>
                  ({| pyaudio_instance := pyaudio_instance st1;
                      pulse := pulse st1;
                      stream := true;
                      is_recording := true;
                      audio_buffer := [];
                      recording_thread := true;
                      errors := errors st1 |}, Ok tt)
              end
          end
      end
  end.

(** [start_recording]: nothing happens while recording; an exception of the
    body is sent through [error_occurred] and raised again. *)
Definition start_recording (b : backend) (source_name : option string) (st : state)
    : state * result unit :=
  if is_recording st then (st, Ok tt)
  else
    match start_recording_body b source_name st with
    | (st1, Ok _) => (st1, Ok tt)
    | (st1, Raise e) => (report e st1, Raise e)
    end.

(** [stop_recording]: an exception is sent through [error_occurred] and
    not raised again.  (Joining the thread does not raise.) *)
Definition stop_recording (b : backend) (st : state) : state :=
  if negb (is_recording st) then st
  else
    let lowered :=
      {| pyaudio_instance := pyaudio_instance st;
         pulse := pulse st;
         stream := stream st;
         is_recording := false;
         audio_buffer := audio_buffer st;
         recording_thread := recording_thread st;
         errors := errors st |} in
    if stream st then
      match stop_stream b with
      | Raise e => report e lowered
      | Ok _ =>
          match close_stream b with
          | Raise e => report e lowered
          | Ok _ =>
              {| pyaudio_instance := pyaudio_instance st;
                 pulse := pulse st;
                 stream := false;
                 is_recording := false;
                 audio_buffer := audio_buffer st;
                 recording_thread := recording_thread st;
                 errors := errors st |}
          end
      end
    else lowered.

(** The keys of the settings dictionary [update_settings] reads. *)
Record audio_settings : Type := {
  set_sample_rate : option Z;
  set_chunk_duration : option float;
  set_overlap_duration : option float
}.

(** [update_settings] *)
Definition update_settings (self : AudioManager.t) (s : audio_settings)
    : AudioManager.t :=
  {| AudioManager.sample_rate :=
       match set_sample_rate s with
       | Some r => r
       | None => AudioManager.sample_rate self
       end;
     AudioManager.analysis_chunk_duration :=
       match set_chunk_duration s with
       | Some d => d
       | None => AudioManager.analysis_chunk_duration self
       end;
     AudioManager.overlap_duration :=
       match set_overlap_duration s with
       | Some d => d
       | None => AudioManager.overlap_duration self
       end |}.

End AudioControl.

(** The type of an entry agrees with its key. *)
Definition typed_by_name (d : list (string * AudioControl.source_info)) : Prop :=
  forall k v, In (k, v) d ->
    (AudioControl.info_type v = AudioControl.monitor
     <-> str_contains "monitor" k = true).

(** ** The dashboard ([src/ui/dashboard_widget.py]) *)

(** [d.append(x)] on a [deque(maxlen=maxlen)]: a full deque drops its
    oldest element. *)
Definition deque_append {A : Type} (maxlen : Z) (x : A) (d : list A) : list A :=
  if maxlen <=? len d then tl d ++ [x] else d ++ [x].

Module DashboardWidget.

(** The data the dashboard keeps: the last data points (each with the time
    it arrived), the session totals, and the deque of the alerts widget
    (each alert with the time stamp its text begins with). *)
Record t : Type := {
  data_history : list (Z * SpeechAnalyzer.results);
  total_words : Z;
  score_history : list Z;
  alerts : list (string * SpeechAnalyzer.alert)
}.

(** [__init__] and [setup_ui]; also what [clear_data] leaves. *)
Definition clear_data : t :=
  {| data_history := []; total_words := 0; score_history := []; alerts := [] |}.

(** [AlertsWidget.add_alerts]; [stamp] is the clock reading it formats. *)
Definition add_alerts (stamp : string) (new : list SpeechAnalyzer.alert)
    (shown : list (string * SpeechAnalyzer.alert))
    : list (string * SpeechAnalyzer.alert) :=
  match new with
  | [] => shown
  | _ => fold_left (fun d a => deque_append 10 (stamp, a) d) new shown
  end.

(** [AlertsWidget.update_display]: the labels from top to bottom. *)
Definition displayed_alerts (self : t) : list (string * SpeechAnalyzer.alert) :=
  rev (alerts self).

(** [result.get('metrics', {}).get('rate', {}).get('word_count', 0)] *)
Definition word_count_of (result : SpeechAnalyzer.results) : Z :=
  match SpeechAnalyzer.m_rate (SpeechAnalyzer.metrics result) with
  | Some rate => SpeechAnalyzer.word_count rate
  | None => 0
  end.

(** [update_session_stats] *)
Definition update_session_stats (result : SpeechAnalyzer.results) (self : t) : t :=
  let word_count := word_count_of result in
  let overall_score := SpeechAnalyzer.overall (SpeechAnalyzer.scores result) in
  {| data_history := data_history self;
     total_words :=
       if 0 <? word_count then total_words self + word_count else total_words self;
     score_history :=
       if 0 <? overall_score then score_history self ++ [overall_score]
       else score_history self;
     alerts := alerts self |}.

(** [add_data_point]; [now] and [stamp] are the two readings of the clock.
    (Updating the metric cards changes no data.) *)
Definition add_data_point (now : Z) (stamp : string) (result : SpeechAnalyzer.results)
    (self : t) : t :=
  let stored :=
    {| data_history := deque_append 100 (now, result) (data_history self);
       total_words := total_words self;
       score_history := score_history self;
       alerts := alerts self |} in
  let counted := update_session_stats result stored in
  {| data_history := data_history counted;
     total_words := total_words counted;
     score_history := score_history counted;
     alerts := add_alerts stamp (SpeechAnalyzer.alerts result) (alerts counted) |}.

(** The session so far: the results handed to [add_data_point], each with
    its two clock readings, oldest first. *)
Definition session (points : list (Z * string * SpeechAnalyzer.results)) : t :=
  fold_left (fun self p => add_data_point (fst (fst p)) (snd (fst p)) (snd p) self)
            points clear_data.


End DashboardWidget.

(** ** The real-time view ([src/ui/real_time_widget.py]) *)

Module RealTimeWidget.

(** What the feedback label shows. *)
Inductive feedback_t : Type :=
| Warnings (alerts : list SpeechAnalyzer.alert)
| Excellent
| ContinueSpeaking.

(** The five score displays, the lines of the transcription display and
    the feedback label. *)
Record t : Type := {
  is_recording : bool;
  overall_score : Z;
  tone_score : Z;
  clarity_score : Z;
  volume_score : Z;
  fluency_score : Z;
  transcript : list string;
  feedback : option feedback_t
}.

(** [RealTimeScoreDisplay.update_score] *)
Definition update_score (score : Z) : Z := Z.max 0 (Z.min 100 score).

(** [TranscriptionDisplay.add_transcription] *)
Definition add_transcription (text : string) (lines : list string) : list string :=
  if negb (strip text =? "")%string then lines ++ [strip text] else lines.

(** [update_analysis] *)
Definition update_analysis (result : SpeechAnalyzer.results) (self : t) : t :=
  let scores := SpeechAnalyzer.scores result in
  {| is_recording := is_recording self;
     overall_score := update_score (SpeechAnalyzer.overall scores);
     tone_score := update_score (SpeechAnalyzer.s_tone scores);
     clarity_score := update_score (SpeechAnalyzer.s_clarity scores);
     volume_score := update_score (SpeechAnalyzer.s_volume scores);
     fluency_score := update_score (SpeechAnalyzer.s_fluency scores);
     transcript :=
       if negb (SpeechAnalyzer.transcription result =? "")%string
       then add_transcription (SpeechAnalyzer.transcription result) (transcript self)
       else transcript self;
     feedback :=
       Some match SpeechAnalyzer.alerts result with
            | _ :: _ => Warnings (SpeechAnalyzer.alerts result)
            | [] =>
                if 80 <=? SpeechAnalyzer.overall scores then Excellent
                else ContinueSpeaking
            end |}.

End RealTimeWidget.

(** ** The settings form ([src/ui/settings_widget.py]) *)

(** ['\n'.join(lines)] *)
Fixpoint join_lines (lines : list string) : string :=
  match lines with
  | [] => EmptyString
  | [line] => line
  | line :: rest => (line ++ String (ascii_of_nat 10) (join_lines rest))%string
  end.

Module SettingsWidget.

(** A number of the settings dictionary: the defaults hold floats where the
    form later stores ints. *)
Inductive number : Type :=
| PyInt (z : Z)
| PyFloat (x : float).

(** [int(n)] *)
Definition int_of (n : number) : result Z :=
  match n with
  | PyInt z => Ok z
  | PyFloat x => py_int x
  end.

(** The items of the sample rate box: "16000 Hz", "22050 Hz", "44100 Hz"
    and "48000 Hz". *)
Inductive rate_item : Type := Hz16000 | Hz22050 | Hz44100 | Hz48000.

(** [int(self.sample_rate_combo.currentText().split()[0])] *)
Definition rate_of (item : rate_item) : Z :=
  match item with
  | Hz16000 => 16000
  | Hz22050 => 22050
  | Hz44100 => 44100
  | Hz48000 => 48000
  end.

(** The ['audio'] and ['analysis'] entries of the settings dictionary, the
    two that [MainWindow.update_settings] hands on. *)
Record audio_dict : Type := {
  sample_rate : Z;
  chunk_duration : number;
  overlap_duration : number;
  min_level_threshold : float
}.

Record weights_dict : Type := {
  tone : float;
  clarity : float;
  volume : float;
  fluency : float
}.

Record analysis_dict : Type := {
  speaking_rate_range : Z * Z;
  filler_threshold : float;
  volume_consistency : float;
  filler_words : list string;
  weights : weights_dict
}.

Record settings_t : Type := {
  audio : audio_dict;
  analysis : analysis_dict
}.

(** [load_default_settings] *)
Definition load_default_settings : settings_t :=
  {| audio :=
       {| sample_rate := 16000;
          chunk_duration := PyFloat 3;
          overlap_duration := PyFloat 0.5;
          min_level_threshold := 0.1 |};
     analysis :=
       {| speaking_rate_range := (150, 200);
          filler_threshold := 0.05;
          volume_consistency := 0.8;
          filler_words :=
            ["um"; "uh"; "er"; "ah"; "like"; "you know"; "so"; "well";
             "actually"; "basically"; "literally"; "seriously"; "totally"]%string;
          weights := {| tone := 0.25; clarity := 0.25; volume := 0.2; fluency := 0.3 |} |} |}.

(** The widgets of the audio and analysis tabs, by what they show. *)
Record form : Type := {
  sample_rate_combo : rate_item;
  chunk_duration_spin : Z;
  overlap_duration_spin : Z;
  min_level_slider : Z;
  min_rate_spin : Z;
  max_rate_spin : Z;
  filler_threshold_spin : Z;
  volume_consistency_spin : Z;
  filler_words_edit : string;
  tone_weight_spin : Z;
  clarity_weight_spin : Z;
  volume_weight_spin : Z;
  fluency_weight_spin : Z
}.

(** [setup_audio_tab] and [setup_analysis_tab] *)
Definition setup_ui : form :=
  {| sample_rate_combo := Hz16000;
     chunk_duration_spin := 3;
     overlap_duration_spin := 1;
     min_level_slider := 10;
     min_rate_spin := 150;
     max_rate_spin := 200;
     filler_threshold_spin := 5;
     volume_consistency_spin := 80;
     filler_words_edit := EmptyString;
     tone_weight_spin := 25;
     clarity_weight_spin := 25;
     volume_weight_spin := 20;
     fluency_weight_spin := 30 |}.

(** [setValue(v)] of a spin box or slider with range [lo .. hi]: the value
    is bounded to the range; an int that does not fit the 32-bit argument
    raises [OverflowError]. *)
Definition set_value (lo hi v : Z) : result Z :=
  if (v <? -2147483648) || (2147483647 <? v)
  then Raise "argument 1 overflowed"
  else Ok (Z.max lo (Z.min hi v)).

Definition with_chunk_duration_spin (v : Z) (f : form) : form :=
  {| sample_rate_combo := sample_rate_combo f;
     chunk_duration_spin := v;
     overlap_duration_spin := overlap_duration_spin f;
     min_level_slider := min_level_slider f;
     min_rate_spin := min_rate_spin f;
     max_rate_spin := max_rate_spin f;
     filler_threshold_spin := filler_threshold_spin f;
     volume_consistency_spin := volume_consistency_spin f;
     filler_words_edit := filler_words_edit f;
     tone_weight_spin := tone_weight_spin f;
     clarity_weight_spin := clarity_weight_spin f;
     volume_weight_spin := volume_weight_spin f;
     fluency_weight_spin := fluency_weight_spin f |}.

Definition with_overlap_duration_spin (v : Z) (f : form) : form :=
  {| sample_rate_combo := sample_rate_combo f;
     chunk_duration_spin := chunk_duration_spin f;
     overlap_duration_spin := v;
     min_level_slider := min_level_slider f;
     min_rate_spin := min_rate_spin f;
     max_rate_spin := max_rate_spin f;
     filler_threshold_spin := filler_threshold_spin f;
     volume_consistency_spin := volume_consistency_spin f;
     filler_words_edit := filler_words_edit f;
     tone_weight_spin := tone_weight_spin f;
     clarity_weight_spin := clarity_weight_spin f;
     volume_weight_spin := volume_weight_spin f;
     fluency_weight_spin := fluency_weight_spin f |}.

Definition with_min_level_slider (v : Z) (f : form) : form :=
  {| sample_rate_combo := sample_rate_combo f;
     chunk_duration_spin := chunk_duration_spin f;
     overlap_duration_spin := overlap_duration_spin f;
     min_level_slider := v;
     min_rate_spin := min_rate_spin f;
     max_rate_spin := max_rate_spin f;
     filler_threshold_spin := filler_threshold_spin f;
     volume_consistency_spin := volume_consistency_spin f;
     filler_words_edit := filler_words_edit f;
     tone_weight_spin := tone_weight_spin f;
     clarity_weight_spin := clarity_weight_spin f;
     volume_weight_spin := volume_weight_spin f;
     fluency_weight_spin := fluency_weight_spin f |}.

Definition with_min_rate_spin (v : Z) (f : form) : form :=
  {| sample_rate_combo := sample_rate_combo f;
     chunk_duration_spin := chunk_duration_spin f;
     overlap_duration_spin := overlap_duration_spin f;
     min_level_slider := min_level_slider f;
     min_rate_spin := v;
     max_rate_spin := max_rate_spin f;
     filler_threshold_spin := filler_threshold_spin f;
     volume_consistency_spin := volume_consistency_spin f;
     filler_words_edit := filler_words_edit f;
     tone_weight_spin := tone_weight_spin f;
     clarity_weight_spin := clarity_weight_spin f;
     volume_weight_spin := volume_weight_spin f;
     fluency_weight_spin := fluency_weight_spin f |}.

Definition with_max_rate_spin (v : Z) (f : form) : form :=
  {| sample_rate_combo := sample_rate_combo f;
     chunk_duration_spin := chunk_duration_spin f;
     overlap_duration_spin := overlap_duration_spin f;
     min_level_slider := min_level_slider f;
     min_rate_spin := min_rate_spin f;
     max_rate_spin := v;
     filler_threshold_spin := filler_threshold_spin f;
     volume_consistency_spin := volume_consistency_spin f;
     filler_words_edit := filler_words_edit f;
     tone_weight_spin := tone_weight_spin f;
     clarity_weight_spin := clarity_weight_spin f;
     volume_weight_spin := volume_weight_spin f;
     fluency_weight_spin := fluency_weight_spin f |}.

Definition with_filler_threshold_spin (v : Z) (f : form) : form :=
  {| sample_rate_combo := sample_rate_combo f;
     chunk_duration_spin := chunk_duration_spin f;
     overlap_duration_spin := overlap_duration_spin f;
     min_level_slider := min_level_slider f;
     min_rate_spin := min_rate_spin f;
     max_rate_spin := max_rate_spin f;
     filler_threshold_spin := v;
     volume_consistency_spin := volume_consistency_spin f;
     filler_words_edit := filler_words_edit f;
     tone_weight_spin := tone_weight_spin f;
     clarity_weight_spin := clarity_weight_spin f;
     volume_weight_spin := volume_weight_spin f;
     fluency_weight_spin := fluency_weight_spin f |}.

Definition with_volume_consistency_spin (v : Z) (f : form) : form :=
  {| sample_rate_combo := sample_rate_combo f;
     chunk_duration_spin := chunk_duration_spin f;
     overlap_duration_spin := overlap_duration_spin f;
     min_level_slider := min_level_slider f;
     min_rate_spin := min_rate_spin f;
     max_rate_spin := max_rate_spin f;
     filler_threshold_spin := filler_threshold_spin f;
     volume_consistency_spin := v;
     filler_words_edit := filler_words_edit f;
     tone_weight_spin := tone_weight_spin f;
     clarity_weight_spin := clarity_weight_spin f;
     volume_weight_spin := volume_weight_spin f;
     fluency_weight_spin := fluency_weight_spin f |}.

Definition with_filler_words_edit (v : string) (f : form) : form :=
  {| sample_rate_combo := sample_rate_combo f;
     chunk_duration_spin := chunk_duration_spin f;
     overlap_duration_spin := overlap_duration_spin f;
     min_level_slider := min_level_slider f;
     min_rate_spin := min_rate_spin f;
     max_rate_spin := max_rate_spin f;
     filler_threshold_spin := filler_threshold_spin f;
     volume_consistency_spin := volume_consistency_spin f;
     filler_words_edit := v;
     tone_weight_spin := tone_weight_spin f;
     clarity_weight_spin := clarity_weight_spin f;
     volume_weight_spin := volume_weight_spin f;
     fluency_weight_spin := fluency_weight_spin f |}.

Definition with_tone_weight_spin (v : Z) (f : form) : form :=
  {| sample_rate_combo := sample_rate_combo f;
     chunk_duration_spin := chunk_duration_spin f;
     overlap_duration_spin := overlap_duration_spin f;
     min_level_slider := min_level_slider f;
     min_rate_spin := min_rate_spin f;
     max_rate_spin := max_rate_spin f;
     filler_threshold_spin := filler_threshold_spin f;
     volume_consistency_spin := volume_consistency_spin f;
     filler_words_edit := filler_words_edit f;
     tone_weight_spin := v;
     clarity_weight_spin := clarity_weight_spin f;
     volume_weight_spin := volume_weight_spin f;
     fluency_weight_spin := fluency_weight_spin f |}.

Definition with_clarity_weight_spin (v : Z) (f : form) : form :=
  {| sample_rate_combo := sample_rate_combo f;
     chunk_duration_spin := chunk_duration_spin f;
     overlap_duration_spin := overlap_duration_spin f;
     min_level_slider := min_level_slider f;
     min_rate_spin := min_rate_spin f;
     max_rate_spin := max_rate_spin f;
     filler_threshold_spin := filler_threshold_spin f;
     volume_consistency_spin := volume_consistency_spin f;
     filler_words_edit := filler_words_edit f;
     tone_weight_spin := tone_weight_spin f;
     clarity_weight_spin := v;
     volume_weight_spin := volume_weight_spin f;
     fluency_weight_spin := fluency_weight_spin f |}.

Definition with_volume_weight_spin (v : Z) (f : form) : form :=
  {| sample_rate_combo := sample_rate_combo f;
     chunk_duration_spin := chunk_duration_spin f;
     overlap_duration_spin := overlap_duration_spin f;
     min_level_slider := min_level_slider f;
     min_rate_spin := min_rate_spin f;
     max_rate_spin := max_rate_spin f;
     filler_threshold_spin := filler_threshold_spin f;
     volume_consistency_spin := volume_consistency_spin f;
     filler_words_edit := filler_words_edit f;
     tone_weight_spin := tone_weight_spin f;
     clarity_weight_spin := clarity_weight_spin f;
     volume_weight_spin := v;
     fluency_weight_spin := fluency_weight_spin f |}.

Definition with_fluency_weight_spin (v : Z) (f : form) : form :=
  {| sample_rate_combo := sample_rate_combo f;
     chunk_duration_spin := chunk_duration_spin f;
     overlap_duration_spin := overlap_duration_spin f;
     min_level_slider := min_level_slider f;
     min_rate_spin := min_rate_spin f;
     max_rate_spin := max_rate_spin f;
     filler_threshold_spin := filler_threshold_spin f;
     volume_consistency_spin := volume_consistency_spin f;
     filler_words_edit := filler_words_edit f;
     tone_weight_spin := tone_weight_spin f;
     clarity_weight_spin := clarity_weight_spin f;
     volume_weight_spin := volume_weight_spin f;
     fluency_weight_spin := v |}.

(** The statements of [load_settings] for the two tabs, in order.  A
    statement may raise ([int] of a float that is not finite, a value that
    does not fit [setValue]); [except Exception] then leaves the remaining
    widgets as they are. *)
Definition load_steps (settings : settings_t) : list (form -> result form) :=
  let a := audio settings in
  let n := analysis settings in
  [ (fun f => v <- int_of (chunk_duration a) ;; w <- set_value 1 10 v ;;
              Ok (with_chunk_duration_spin w f));
    (fun f => v <- int_of (overlap_duration a) ;; w <- set_value 0 2 v ;;
              Ok (with_overlap_duration_spin w f));
    (fun f => v <- py_int (min_level_threshold a * 100)%float ;; w <- set_value 0 100 v ;;
              Ok (with_min_level_slider w f));
    (fun f => w <- set_value 50 300 (fst (speaking_rate_range n)) ;;
              Ok (with_min_rate_spin w f));
    (fun f => w <- set_value 50 300 (snd (speaking_rate_range n)) ;;
              Ok (with_max_rate_spin w f));
    (fun f => v <- py_int (filler_threshold n * 100)%float ;; w <- set_value 1 20 v ;;
              Ok (with_filler_threshold_spin w f));
    (fun f => v <- py_int (volume_consistency n * 100)%float ;; w <- set_value 50 100 v ;;
              Ok (with_volume_consistency_spin w f));
    (fun f => Ok (with_filler_words_edit (join_lines (filler_words n)) f));
    (fun f => v <- py_int (tone (weights n) * 100)%float ;; w <- set_value 0 100 v ;;
              Ok (with_tone_weight_spin w f));
    (fun f => v <- py_int (clarity (weights n) * 100)%float ;; w <- set_value 0 100 v ;;
              Ok (with_clarity_weight_spin w f));
    (fun f => v <- py_int (volume (weights n) * 100)%float ;; w <- set_value 0 100 v ;;
              Ok (with_volume_weight_spin w f));
    (fun f => v <- py_int (fluency (weights n) * 100)%float ;; w <- set_value 0 100 v ;;
              Ok (with_fluency_weight_spin w f)) ].

Fixpoint run_steps (steps : list (form -> result form)) (f : form) : form :=
  match steps with
  | [] => f
  | step :: rest =>
      match step f with
      | Ok f1 => run_steps rest f1
      | Raise _ => f
      end
  end.

(** [load_settings] *)
Definition load_settings (settings : settings_t) (f : form) : form :=
  run_steps (load_steps settings) f.

(** [[word.strip() for word in text.split('\n') if word.strip()]] *)
Definition filler_lines (text : string) : list string :=
  map strip (filter (fun word => negb (strip word =? "")%string) (split_lines text)).

(** [save_settings]: the dictionary collected from the widgets. *)
Definition save_settings (f : form) : settings_t :=
  {| audio :=
       {| sample_rate := rate_of (sample_rate_combo f);
          chunk_duration := PyInt (chunk_duration_spin f);
          overlap_duration := PyInt (overlap_duration_spin f);
          min_level_threshold := (Z2F (min_level_slider f) / 100)%float |};
     analysis :=
       {| speaking_rate_range := (min_rate_spin f, max_rate_spin f);
          filler_threshold := (Z2F (filler_threshold_spin f) / 100)%float;
          volume_consistency := (Z2F (volume_consistency_spin f) / 100)%float;
          filler_words := filler_lines (filler_words_edit f);
          weights :=
            {| tone := (Z2F (tone_weight_spin f) / 100)%float;
               clarity := (Z2F (clarity_weight_spin f) / 100)%float;
               volume := (Z2F (volume_weight_spin f) / 100)%float;
               fluency := (Z2F (fluency_weight_spin f) / 100)%float |} |} |}.

(** What a percentage [v] of the form comes back as when it is saved as
    [v / 100.0] and loaded as [int(x * 100)]. *)
Definition reloaded (v : Z) : Z :=
  if (v =? 29) || (v =? 57) || (v =? 58) then v - 1 else v.

(** What the spin boxes and the slider guarantee of their values. *)
Definition in_ranges (f : form) : Prop :=
  1 <= chunk_duration_spin f <= 10
  /\ 0 <= overlap_duration_spin f <= 2
  /\ 0 <= min_level_slider f <= 100
  /\ 50 <= min_rate_spin f <= 300
  /\ 50 <= max_rate_spin f <= 300
  /\ 1 <= filler_threshold_spin f <= 20
  /\ 50 <= volume_consistency_spin f <= 100
  /\ 0 <= tone_weight_spin f <= 100
  /\ 0 <= clarity_weight_spin f <= 100
  /\ 0 <= volume_weight_spin f <= 100
  /\ 0 <= fluency_weight_spin f <= 100.

(** A number as an attribute of the audio manager.  (An int is kept as the
    double of the same value: the form sends ints below 11, whose products
    with the sample rate are the same in both arithmetics.) *)
Definition as_attribute (n : number) : float :=
  match n with
  | PyInt z => Z2F z
  | PyFloat x => x
  end.

(** The keys of [settings['audio']] that [AudioManager.update_settings]
    reads. *)
Definition audio_payload (a : audio_dict) : AudioControl.audio_settings :=
  {| AudioControl.set_sample_rate := Some (sample_rate a);
     AudioControl.set_chunk_duration := Some (as_attribute (chunk_duration a));
     AudioControl.set_overlap_duration := Some (as_attribute (overlap_duration a)) |}.

(** [settings['analysis']] as [SpeechAnalyzer.update_settings] receives it:
    the dictionary has no ['thresholds'] key. *)
Definition analysis_payload (n : analysis_dict) : SpeechAnalyzer.settings :=
  {| SpeechAnalyzer.set_thresholds := None;
     SpeechAnalyzer.set_filler_words := Some (filler_words n);
     SpeechAnalyzer.set_weights :=
       Some {| SpeechAnalyzer.w_tone := tone (weights n);
               SpeechAnalyzer.w_clarity := clarity (weights n);
               SpeechAnalyzer.w_volume := volume (weights n);
               SpeechAnalyzer.w_fluency := fluency (weights n) |};
     SpeechAnalyzer.set_speaking_rate_range :=
       Some (Z2F (fst (speaking_rate_range n)), Z2F (snd (speaking_rate_range n)));
     SpeechAnalyzer.set_filler_threshold := Some (filler_threshold n);
     SpeechAnalyzer.set_volume_consistency := Some (volume_consistency n) |}.

End SettingsWidget.

(** ** The main window ([src/ui/main_window.py]) *)

Module MainWindow.

(** The recording flag of the window, its audio manager, and the messages
    [handle_error] has shown, oldest first. *)
Record t : Type := {
  is_recording : bool;
  audio_manager : AudioControl.state;
  shown_errors : list string
}.

(** [handle_audio_error] for each message the manager sent through
    [error_occurred] while it went from [before] to [after]. *)
Definition signalled (before after : AudioControl.state) : list string :=
  map (fun e => ("Audio system error: " ++ e)%string)
      (skipn (List.length (AudioControl.errors before)) (AudioControl.errors after)).

(** [start_real_time_analysis] *)
Definition start_real_time_analysis (b : AudioControl.backend) (self : t) : t :=
  match AudioControl.start_recording b None (audio_manager self) with
  | (manager, Ok _) =>
      {| is_recording := true;
         audio_manager := manager;
         shown_errors := shown_errors self ++ signalled (audio_manager self) manager |}
  | (manager, Raise e) =>
      {| is_recording := is_recording self;
         audio_manager := manager;
         shown_errors :=
           shown_errors self ++ signalled (audio_manager self) manager
           ++ [("Could not start recording: " ++ e)%string] |}
  end.

(** [stop_real_time_analysis] *)
Definition stop_real_time_analysis (b : AudioControl.backend) (self : t) : t :=
  let manager := AudioControl.stop_recording b (audio_manager self) in
  {| is_recording := false;
     audio_manager := manager;
     shown_errors := shown_errors self ++ signalled (audio_manager self) manager |}.

(** [RealTimeWidget.toggle_recording] with the two signals connected as
    [setup_connections] connects them: the widget and the window after a
    click on the record button. *)
Definition toggle_recording (b : AudioControl.backend)
    (widget : RealTimeWidget.t) (window : t) : RealTimeWidget.t * t :=
  if RealTimeWidget.is_recording widget then
    ({| RealTimeWidget.is_recording := false;
        RealTimeWidget.overall_score := RealTimeWidget.overall_score widget;
        RealTimeWidget.tone_score := RealTimeWidget.tone_score widget;
        RealTimeWidget.clarity_score := RealTimeWidget.clarity_score widget;
        RealTimeWidget.volume_score := RealTimeWidget.volume_score widget;
        RealTimeWidget.fluency_score := RealTimeWidget.fluency_score widget;
        RealTimeWidget.transcript := RealTimeWidget.transcript widget;
        RealTimeWidget.feedback := RealTimeWidget.feedback widget |},
     stop_real_time_analysis b window)
  else
    ({| RealTimeWidget.is_recording := true;
        RealTimeWidget.overall_score := RealTimeWidget.overall_score widget;
        RealTimeWidget.tone_score := RealTimeWidget.tone_score widget;
        RealTimeWidget.clarity_score := RealTimeWidget.clarity_score widget;
        RealTimeWidget.volume_score := RealTimeWidget.volume_score widget;
        RealTimeWidget.fluency_score := RealTimeWidget.fluency_score widget;
        RealTimeWidget.transcript := [];
        RealTimeWidget.feedback := RealTimeWidget.feedback widget |},
     start_real_time_analysis b window).

(** [update_settings], the slot of [SettingsWidget.settings_changed]: the
    audio manager and the analyzer after it. *)
Definition update_settings (settings : SettingsWidget.settings_t)
    (manager : AudioManager.t) (analyzer : SpeechAnalyzer.t)
    : AudioManager.t * SpeechAnalyzer.t :=
  (AudioControl.update_settings manager
     (SettingsWidget.audio_payload (SettingsWidget.audio settings)),
   fst (SpeechAnalyzer.update_settings analyzer
          (SettingsWidget.analysis_payload (SettingsWidget.analysis settings)))).

End MainWindow.

(** ** More sample inputs *)

Module SampleSessions.




End SampleSessions.

Module SampleForms.

(** The form with weights of 29, 57, 58 and 30 percent, a window of two
    seconds and an overlap of one. *)
Definition edited : SettingsWidget.form :=
  {| SettingsWidget.sample_rate_combo := SettingsWidget.Hz44100;
     SettingsWidget.chunk_duration_spin := 2;
     SettingsWidget.overlap_duration_spin := 1;
     SettingsWidget.min_level_slider := 10;
     SettingsWidget.min_rate_spin := 120;
     SettingsWidget.max_rate_spin := 180;
     SettingsWidget.filler_threshold_spin := 5;
     SettingsWidget.volume_consistency_spin := 80;
     SettingsWidget.filler_words_edit :=
       join_lines [" um"; "Like"; EmptyString; " you know "]%string;
     SettingsWidget.tone_weight_spin := 29;
     SettingsWidget.clarity_weight_spin := 57;
     SettingsWidget.volume_weight_spin := 58;
     SettingsWidget.fluency_weight_spin := 30 |}.

End SampleForms.
(** ** Proof automation for the recording state machine *)

(** Case analysis on every outcome the goal scrutinises. *)
Ltac outcome_cases :=
  repeat match goal with
         | |- context [match ?x with _ => _ end] =>
             match type of x with
             | bool => destruct x eqn:?
             | result _ => destruct x eqn:?
             | option _ => destruct x eqn:?
             end
         end.

(** * Properties *)

(** ** The order of binary64 values *)

Lemma SFcompare_swap x y c :
  SFcompare x y = Some c -> SFcompare y x = Some (CompOpp c).
Proof.
  destruct x as [sx | sx | | sx mx ex], y as [sy | sy | | sy my ey];
    try destruct sx; try destruct sy; cbn; intros H;
    try discriminate; try (inversion H; subst; reflexivity).
  all: inversion H; subst; clear H; f_equal; cmp_cases; subst; cbn;
    try reflexivity; try lia.
Qed.



Lemma ltb_compare x y :
  (x <? y)%float = true <-> SFcompare (Prim2SF x) (Prim2SF y) = Some Lt.
Proof.
  rewrite FloatAxioms.ltb_spec. unfold SFltb.
  destruct (SFcompare (Prim2SF x) (Prim2SF y)) as [[ | | ] | ];
    split; intros H; try reflexivity; discriminate.
Qed.


Lemma ltb_not_leb x y : (x <? y)%float = true -> (y <=? x)%float = false.
Proof.
  intros H. apply ltb_compare in H. apply SFcompare_swap in H.
  rewrite FloatAxioms.leb_spec. unfold SFleb. rewrite H. reflexivity.
Qed.






(** ** Truncation *)

Lemma digits2_pos_bounds p :
  2 ^ (Zpos (digits2_pos p) - 1) <= Zpos p < 2 ^ Zpos (digits2_pos p).
Proof.
  induction p as [p IH | p IH | ]; cbn [digits2_pos].
  - rewrite Pos2Z.inj_succ, Z.pow_succ_r by lia.
    replace (Z.succ (Zpos (digits2_pos p)) - 1)
      with (Z.succ (Zpos (digits2_pos p) - 1)) by lia.
    rewrite Z.pow_succ_r by lia. lia.
  - rewrite Pos2Z.inj_succ, Z.pow_succ_r by lia.
    replace (Z.succ (Zpos (digits2_pos p)) - 1)
      with (Z.succ (Zpos (digits2_pos p) - 1)) by lia.
    rewrite Z.pow_succ_r by lia. lia.
  - cbn. lia.
Qed.

Lemma digits2_pos_53 p :
  4503599627370496 <= Zpos p < 9007199254740992 -> Zpos (digits2_pos p) = 53.
Proof.
  intros [Hlo Hhi]. pose proof (digits2_pos_bounds p) as [Hl Hu].
  change 4503599627370496 with (2 ^ 52) in Hlo.
  change 9007199254740992 with (2 ^ 53) in Hhi.
  assert (H1 : 2 ^ 52 < 2 ^ Zpos (digits2_pos p)) by lia.
  assert (H2 : 2 ^ (Zpos (digits2_pos p) - 1) < 2 ^ 53) by lia.
  apply Z.pow_lt_mono_r_iff in H1; [ | lia | lia].
  apply Z.pow_lt_mono_r_iff in H2; [ | lia | lia].
  lia.
Qed.

(** [trunc63] computes [int(x)]. *)
Lemma trunc63_spec x s u :
  trunc63 x = Some (s, u) ->
  py_int x = Ok (if s then - to_Z u else to_Z u).
Proof.
  unfold trunc63, py_int, Prim2SF.
  destruct (PrimFloat.is_nan x); [discriminate | ].
  destruct (PrimFloat.is_zero x).
  { intros H; inversion H; subst. reflexivity. }
  destruct (PrimFloat.is_infinity x); [discriminate | ].
  unfold Z.frexp.
  destruct (frshiftexp x) as [m se].
  set (mant := normfr_mantissa m).
  destruct ((4503599627370496 <=? mant)%uint63) eqn:H1; [ | discriminate].
  destruct ((mant <? 9007199254740992)%uint63) eqn:H2; [ | discriminate].
  destruct ((1080 <=? se)%uint63) eqn:H3; [ | discriminate].
  destruct ((se <=? 2154)%uint63) eqn:H4; [ | discriminate].
  cbn [andb]. intros H; inversion H; subst s u; clear H.
  apply Uint63.leb_spec in H1, H3, H4. apply Uint63.ltb_spec in H2.
  change (to_Z 4503599627370496) with 4503599627370496 in H1.
  change (to_Z 9007199254740992) with 9007199254740992 in H2.
  change (to_Z 1080) with 1080 in H3.
  change (to_Z 2154) with 2154 in H4.
  destruct (to_Z mant) as [ | p | p] eqn:Hm; try lia.
  unfold shr_fexp, fexp, shr_record_of_loc. cbn [Zdigits2].
  rewrite (digits2_pos_53 p) by lia.
  change shift with 2101. change prec with 53.
  change (SpecFloat.emin 53 emax) with (-1074).
  replace (Z.max (53 + (to_Z se - 2101 - 53) - 53) (-1074) - (to_Z se - 2101 - 53))
    with 0 by lia.
  cbn [shr shr_m].
  f_equal.
  assert (Hk : to_Z (2154 - se) = 2154 - to_Z se).
  { rewrite Uint63.sub_spec. change (to_Z 2154) with 2154.
    apply Z.mod_small. pose proof (Uint63.to_Z_bounded se).
    change wB with 9223372036854775808. lia. }
  rewrite Uint63.lsr_spec, Hk, Hm.
  rewrite <- Z.shiftr_div_pow2 by lia.
  rewrite <- Z.shiftr_opp_r.
  replace (- (to_Z se - 2101 - 53)) with (2154 - to_Z se) by lia.
  reflexivity.
Qed.

Lemma to_Z_of_Z_small e : 0 <= e < 9223372036854775808 -> to_Z (of_Z e) = e.
Proof.
  intros H. rewrite Uint63.of_Z_spec. apply Z.mod_small.
  change wB with 9223372036854775808. lia.
Qed.

(** ** Ranges and tables *)

Lemma In_Zrange n x : In x (Zrange n) <-> 0 <= x < Z.of_nat n.
Proof.
  unfold Zrange. rewrite in_map_iff. split.
  - intros [k [Hk Hin]]. apply in_seq in Hin. lia.
  - intros H. exists (Z.to_nat x). split; [lia | ]. apply in_seq. lia.
Qed.

Lemma forallb_table {A B : Type} (g : A -> B) (P : B -> bool) l :
  forallb P (map g l) = true -> forall a, In a l -> P (g a) = true.
Proof.
  intros H a Ha. rewrite forallb_forall in H. apply H.
  apply in_map. assumption.
Qed.

(** ** The aggregate score *)

(** For scores up to 100 the two quarters add without rounding. *)
Lemma quarters_add t c :
  0 <= t <= 100 -> 0 <= c <= 100 ->
  (Z2F t * 0.25 + Z2F c * 0.25)%float = (Z2F (t + c) * 0.25)%float.
Proof.
  intros Ht Hc.
  assert (Hti : In t (Zrange 101))
    by (apply In_Zrange; change (Z.of_nat 101) with 101; lia).
  assert (Hci : In c (Zrange 101))
    by (apply In_Zrange; change (Z.of_nat 101) with 101; lia).
  assert (H : forallb (fun t =>
                forallb (fun c =>
                  PrimFloat.Leibniz.eqb (Z2F t * 0.25 + Z2F c * 0.25)%float
                                        (Z2F (t + c) * 0.25)%float)
                  (Zrange 101))
                (Zrange 101) = true)
    by (vm_compute; reflexivity).
  apply FloatAxioms.Leibniz.eqb_spec.
  exact (proj1 (forallb_forall _ _)
           (proj1 (forallb_forall _ _) H t Hti) c Hci).
Qed.

Lemma near_floor_spec e x :
  near_floor e x = true ->
  exists o, py_int x = Ok o /\ 0 <= o <= 100 /\ to_Z e - 1 <= o <= to_Z e.
Proof.
  unfold near_floor.
  destruct (trunc63 x) as [[[ | ] u] | ] eqn:Hx; try discriminate.
  intros H. apply andb_prop in H. destruct H as [H H3].
  apply andb_prop in H. destruct H as [H1 H2].
  apply Uint63.leb_spec in H1, H2, H3.
  change (to_Z 100) with 100 in H1.
  rewrite Uint63.add_spec in H3. change (to_Z 1) with 1 in H3.
  pose proof (Uint63.to_Z_bounded u) as Hu.
  rewrite Z.mod_small in H3 by (change wB with 9223372036854775808; lia).
  exists (to_Z u). split; [ | lia].
  apply (trunc63_spec x false u Hx).
Qed.

(** The exact floor, computed on machine integers. *)
Lemma floor63_spec q v f :
  0 <= q <= 200 -> 0 <= v <= 100 -> 0 <= f <= 100 ->
  to_Z ((5 * of_Z q + 4 * of_Z v + 6 * of_Z f) / 20)%uint63
  = (5 * q + 4 * v + 6 * f) / 20.
Proof.
  intros Hq Hv Hf.
  rewrite Uint63.div_spec. change (to_Z 20) with 20. f_equal.
  rewrite !Uint63.add_spec, !Uint63.mul_spec.
  rewrite !to_Z_of_Z_small by lia.
  change (to_Z 5) with 5. change (to_Z 4) with 4. change (to_Z 6) with 6.
  change wB with 9223372036854775808.
  rewrite (Z.mod_small (5 * q)) by lia.
  rewrite (Z.mod_small (4 * v)) by lia.
  rewrite (Z.mod_small (6 * f)) by lia.
  rewrite (Z.mod_small (5 * q + 4 * v)) by lia.
  apply Z.mod_small. lia.
Qed.

(** Every sum [q/4 + volume*0.2 + fluency*0.3], for [q] up to 200 and the
    two scores up to 100, truncates to the floor of its exact value or to
    one less, and to at most 100. *)
Lemma sums_near_floor :
  (let volumes := map (fun v => (of_Z v, (Z2F v * 0.2)%float)) (Zrange 101) in
   let fluencies := map (fun f => (of_Z f, (Z2F f * 0.3)%float)) (Zrange 101) in
   forallb (fun q =>
     let a := (Z2F q * 0.25)%float in
     let q5 := (5 * of_Z q)%uint63 in
     forallb (fun v =>
       let b := (a + snd v)%float in
       let qv := (q5 + 4 * fst v)%uint63 in
       forallb (fun f =>
         near_floor ((qv + 6 * fst f) / 20)%uint63 (b + snd f)%float)
         fluencies)
       volumes)
     (Zrange 201)) = true.
Proof. vm_compute. reflexivity. Qed.

Lemma weighted_sum_near_floor t c v f :
  0 <= t <= 100 -> 0 <= c <= 100 -> 0 <= v <= 100 -> 0 <= f <= 100 ->
  exists o,
    py_int (weighted_sum t c v f) = Ok o
    /\ 0 <= o <= 100
    /\ twenty_times_sum t c v f / 20 - 1 <= o <= twenty_times_sum t c v f / 20.
Proof.
  intros Ht Hc Hv Hf. unfold weighted_sum, twenty_times_sum.
  rewrite (quarters_add t c Ht Hc).
  assert (Hqi : In (t + c) (Zrange 201))
    by (apply In_Zrange; change (Z.of_nat 201) with 201; lia).
  assert (Hvi : In v (Zrange 101))
    by (apply In_Zrange; change (Z.of_nat 101) with 101; lia).
  assert (Hfi : In f (Zrange 101))
    by (apply In_Zrange; change (Z.of_nat 101) with 101; lia).
  pose proof (forallb_table _ _ _
                (forallb_table _ _ _
                   (proj1 (forallb_forall _ _) sums_near_floor (t + c) Hqi)
                   v Hvi)
                f Hfi) as H.
  cbv beta zeta in H. cbn [fst snd] in H.
  apply near_floor_spec in H.
  rewrite floor63_spec in H by lia.
  replace (5 * t + 5 * c + 4 * v + 6 * f) with (5 * (t + c) + 4 * v + 6 * f) by lia.
  exact H.
Qed.

Import SpeechAnalyzer.

(** C2 (as amended).  For sub-scores that are integers in [0, 100],
    [_calculate_scores] returns an overall score that is the binary64 sum
    [tone*0.25 + clarity*0.25 + volume*0.2 + fluency*0.3] truncated toward
    zero by [int] (it is not rounded): an integer in [0, 100], equal to the
    exact weighted sum rounded down, or to one less when the binary64 sum
    falls just short of an integer.  The weights are the constants of the
    code. *)
Theorem overall_is_truncated_sum (self : t) (m : metrics_t) :
  0 <= score_of t_score (m_tone m) <= 100 ->
  0 <= score_of c_score (m_clarity m) <= 100 ->
  0 <= score_of v_score (m_volume m) <= 100 ->
  0 <= (score_of f_score (m_fillers m) + score_of r_score (m_rate m)) / 2 <= 100 ->
  exists s,
    _calculate_scores self m = Ok s
    /\ s_tone s = score_of t_score (m_tone m)
    /\ s_clarity s = score_of c_score (m_clarity m)
    /\ s_volume s = score_of v_score (m_volume m)
    /\ s_fluency s
       = (score_of f_score (m_fillers m) + score_of r_score (m_rate m)) / 2
    /\ py_int (weighted_sum (s_tone s) (s_clarity s) (s_volume s) (s_fluency s))
       = Ok (overall s)
    /\ 0 <= overall s <= 100
    /\ twenty_times_sum (s_tone s) (s_clarity s) (s_volume s) (s_fluency s) / 20 - 1
       <= overall s
       <= twenty_times_sum (s_tone s) (s_clarity s) (s_volume s) (s_fluency s) / 20.
Proof.
  intros Ht Hc Hv Hf.
  destruct (weighted_sum_near_floor _ _ _ _ Ht Hc Hv Hf) as [o [Ho [Hr He]]].
  unfold _calculate_scores.
  change (Z2F ?a * 0.25 + Z2F ?b * 0.25 + Z2F ?c * 0.2 + Z2F ?d * 0.3)%float
    with (weighted_sum a b c d).
  rewrite Ho. cbn [bind].
  eexists. split; [reflexivity | ].
  cbn [s_tone s_clarity s_volume s_fluency overall].
  split; [reflexivity | ]. split; [reflexivity | ]. split; [reflexivity | ].
  split; [reflexivity | ]. split; [exact Ho | ]. split; [exact Hr | exact He].
Qed.

Lemma overall_is_truncated_sum_witness :
  exists s,
    _calculate_scores Samples.analyzer (Samples.metrics_scoring 80 70 90 100 40) = Ok s
    /\ 0 <= overall s <= 100
    /\ 1530 / 20 - 1 <= overall s <= 1530 / 20.
Proof.
  destruct (overall_is_truncated_sum Samples.analyzer
              (Samples.metrics_scoring 80 70 90 100 40))
    as [s [Hs [H1 [H2 [H3 [H4 [H5 [H6 H7]]]]]]]];
    try (cbn; lia).
  exists s. split; [exact Hs | ]. split; [exact H6 | ].
  rewrite H1, H2, H3, H4 in H7. exact H7.
Defined.

(** C2, the claim as worded: tone 3 and nothing else gives the sum 0.75,
    which rounds to 1 and which the code truncates to 0. *)
Lemma overall_is_not_rounded :
  _calculate_scores Samples.analyzer (Samples.metrics_scoring 3 0 0 0 0)
  = Ok {| overall := 0; s_tone := 3; s_clarity := 0; s_volume := 0; s_fluency := 0 |}
  /\ spec_overall 3 0 0 0 = 1.
Proof. split; vm_compute; reflexivity. Qed.

(** The exact sum 2 is an integer that the binary64 sum just misses
    ([0.2 + 6*0.3 = 1.9999999999999998]): the code answers 1. *)
Lemma overall_one_below_floor :
  _calculate_scores Samples.analyzer (Samples.metrics_scoring 0 0 1 6 6)
  = Ok {| overall := 1; s_tone := 0; s_clarity := 0; s_volume := 1; s_fluency := 6 |}
  /\ twenty_times_sum 0 0 1 6 / 20 = 2.
Proof. split; vm_compute; reflexivity. Qed.

(** C8 (as amended).  The analyzer has no configurable weights.  For every
    settings dictionary, whatever weights it carries, [update_settings]
    applies its thresholds and filler words, logs one informational message
    and no warning, and the aggregate of the updated analyzer is the
    aggregate with the fixed weights 0.25, 0.25, 0.2 and 0.3: no overall score
    is ever computed with other weights. *)
Theorem update_settings_keeps_fixed_weights (self : t) (s : settings) (m : metrics_t) :
  snd (update_settings self s) = [(Info, "Speech analyzer settings updated"%string)]
  /\ (forall msg, ~ In (Warning, msg) (snd (update_settings self s)))
  /\ filler_words (fst (update_settings self s))
     = override (set_filler_words s) (filler_words self)
  /\ thresholds (fst (update_settings self s))
     = match set_thresholds s with
       | Some d => thresholds_update (thresholds self) d
       | None => thresholds self
       end
  /\ _calculate_scores (fst (update_settings self s)) m = _calculate_scores self m
  /\ _calculate_scores self m
     = (o <- py_int (weighted_sum (score_of t_score (m_tone m))
                       (score_of c_score (m_clarity m))
                       (score_of v_score (m_volume m))
                       ((score_of f_score (m_fillers m)
                         + score_of r_score (m_rate m)) / 2)) ;;
        Ok {| overall := o;
              s_tone := score_of t_score (m_tone m);
              s_clarity := score_of c_score (m_clarity m);
              s_volume := score_of v_score (m_volume m);
              s_fluency := (score_of f_score (m_fillers m)
                            + score_of r_score (m_rate m)) / 2 |}).
Proof.
  repeat split.
  intros msg [H | []]. discriminate.
Qed.

(** C8, the claim as worded: settings whose weights sum to 2 are accepted
    (the filler list they carry replaces the old one) and no warning is
    logged. *)
Lemma unbalanced_weights_are_accepted :
  set_weights Samples.unbalanced_settings
  = Some {| w_tone := 0.5; w_clarity := 0.5; w_volume := 0.5; w_fluency := 0.5 |}
  /\ weights_sum_to_one
       {| w_tone := 0.5; w_clarity := 0.5; w_volume := 0.5; w_fluency := 0.5 |} = false
  /\ filler_words (fst (update_settings Samples.analyzer Samples.unbalanced_settings))
     = ["um"; "uh"]%string
  /\ ~ rejected_with_warning Samples.analyzer
         (update_settings Samples.analyzer Samples.unbalanced_settings).
Proof.
  split; [reflexivity | ]. split; [vm_compute; reflexivity | ].
  split; [reflexivity | ].
  intros [H _]. cbn in H. discriminate.
Qed.

(** ** The filler score *)

(** For every total of up to 1000 words and every count below it, one more
    filler does not raise the score [max(0, int(100 - ratio * 1000))]. *)
Lemma penalties_descend :
  (let table := map (fun k => (Z2F k, Z2F (k + 1))) (Zrange 1000) in
   forallb (fun j =>
     let fn := Z2F (Z.of_nat j) in
     forallb (fun p =>
       not_higher (penalty63 (100 - snd p / fn * 1000)%float)
                  (penalty63 (100 - fst p / fn * 1000)%float))
       (firstn j table))
     (seq 0 1001)) = true.
Proof. vm_compute. reflexivity. Qed.

Lemma penalty63_spec x u :
  penalty63 x = Some u -> exists v, py_int x = Ok v /\ Z.max 0 v = to_Z u.
Proof.
  unfold penalty63. destruct (trunc63 x) as [[s w] | ] eqn:Hx; [ | discriminate].
  intros H. inversion H; subst u; clear H.
  apply trunc63_spec in Hx. pose proof (Uint63.to_Z_bounded w) as Hw.
  destruct s.
  - exists (- to_Z w). split; [exact Hx | ]. change (to_Z 0) with 0. lia.
  - exists (to_Z w). split; [exact Hx | ]. lia.
Qed.

Lemma not_higher_spec x1 x0 :
  not_higher (penalty63 x1) (penalty63 x0) = true ->
  exists v1 v0, py_int x1 = Ok v1 /\ py_int x0 = Ok v0 /\ Z.max 0 v1 <= Z.max 0 v0.
Proof.
  unfold not_higher.
  destruct (penalty63 x1) as [u1 | ] eqn:H1; [ | discriminate].
  destruct (penalty63 x0) as [u0 | ] eqn:H0; [ | discriminate].
  intros H. apply Uint63.leb_spec in H.
  destruct (penalty63_spec _ _ H1) as [v1 [Hv1 E1]].
  destruct (penalty63_spec _ _ H0) as [v0 [Hv0 E0]].
  exists v1, v0. split; [exact Hv1 | ]. split; [exact Hv0 | ]. lia.
Qed.

Lemma firstn_seq_le j : forall s n, (j <= n)%nat -> firstn j (seq s n) = seq s j.
Proof.
  induction j as [ | j IH]; intros s n H; [reflexivity | ].
  destruct n as [ | n]; [lia | ]. cbn [seq firstn]. f_equal. apply IH. lia.
Qed.

Lemma firstn_Zrange j n : (j <= n)%nat -> firstn j (Zrange n) = Zrange j.
Proof.
  intros H. unfold Zrange. rewrite firstn_map, firstn_seq_le by assumption.
  reflexivity.
Qed.

Lemma filler_penalty_step k n :
  0 <= k < n -> n <= 1000 ->
  exists a b, filler_penalty (k + 1) n = Ok a /\ filler_penalty k n = Ok b /\ a <= b.
Proof.
  intros Hk Hn.
  assert (Hj : In (Z.to_nat n) (seq 0 1001)) by (apply in_seq; lia).
  pose proof (proj1 (forallb_forall _ _) penalties_descend (Z.to_nat n) Hj) as H.
  cbv beta zeta in H.
  rewrite firstn_map, firstn_Zrange in H by lia.
  assert (Hki : In k (Zrange (Z.to_nat n))) by (apply In_Zrange; lia).
  pose proof (forallb_table _ _ _ H k Hki) as H'.
  cbv beta in H'. cbn [fst snd] in H'.
  rewrite Z2Nat.id in H' by lia.
  destruct (not_higher_spec _ _ H') as [v1 [v0 [H1 [H0 Hle]]]].
  exists (Z.max 0 v1), (Z.max 0 v0). unfold filler_penalty.
  rewrite H1, H0. cbn [bind]. repeat split. exact Hle.
Qed.

Lemma filler_penalty_descends (d : nat) : forall k n,
  0 <= k -> k + 1 + Z.of_nat d <= n -> n <= 1000 ->
  exists a b,
    filler_penalty (k + 1 + Z.of_nat d) n = Ok a /\ filler_penalty k n = Ok b /\ a <= b.
Proof.
  induction d as [ | d IH]; intros k n Hk Hd Hn.
  - replace (k + 1 + Z.of_nat 0) with (k + 1) by lia.
    apply filler_penalty_step; lia.
  - destruct (IH k n Hk ltac:(lia) Hn) as [a [b [Ha [Hb Hab]]]].
    destruct (filler_penalty_step (k + 1 + Z.of_nat d) n ltac:(lia) Hn)
      as [a' [b' [Ha' [Hb' Hab']]]].
    rewrite Ha in Hb'. inversion Hb'; subst b'.
    exists a', b.
    replace (k + 1 + Z.of_nat (S d)) with (k + 1 + Z.of_nat d + 1) by lia.
    split; [exact Ha' | ]. split; [exact Hb | lia].
Qed.

Lemma filler_penalty_mono k1 k2 n :
  0 <= k1 < k2 -> k2 <= n -> n <= 1000 ->
  exists a b, filler_penalty k2 n = Ok a /\ filler_penalty k1 n = Ok b /\ a <= b.
Proof.
  intros Hk Hk2 Hn.
  destruct (filler_penalty_descends (Z.to_nat (k2 - k1 - 1)) k1 n) as [a [b H]];
    try lia.
  replace (k1 + 1 + Z.of_nat (Z.to_nat (k2 - k1 - 1))) with k2 in H by lia.
  exists a, b. exact H.
Qed.

Lemma count_fillers_from_bounds fw words : forall acc,
  fst acc
  <= fst (fold_left
            (fun (acc : Z * list string) (word : string) =>
               if existsb (String.eqb word) fw
               then (fst acc + 1,
                     if existsb (String.eqb word) (snd acc) then snd acc
                     else snd acc ++ [word])
               else acc)
            words acc)
  <= fst acc + len words.
Proof.
  unfold len. induction words as [ | w ws IH]; intros acc; cbn [fold_left List.length].
  - lia.
  - destruct (existsb (String.eqb w) fw).
    + match goal with |- context [fold_left _ ws ?a] => specialize (IH a) end.
      cbn [fst] in IH. lia.
    + specialize (IH acc). lia.
Qed.

Lemma count_fillers_bounds fw words :
  0 <= fst (count_fillers fw words) <= len words.
Proof.
  unfold count_fillers.
  pose proof (count_fillers_from_bounds fw words (0, [])) as H. cbn [fst] in H. lia.
Qed.

Lemma findall_words_empty : findall_words (lower EmptyString) = [].
Proof. reflexivity. Qed.

(** What [_analyze_fillers] returns on a transcription of 1 to 1000 words. *)
Lemma analyze_fillers_counted (self : t) (text : string) :
  0 < len (findall_words (lower text)) <= 1000 ->
  exists p,
    filler_penalty (fst (count_fillers (filler_words self) (findall_words (lower text))))
                   (len (findall_words (lower text))) = Ok p
    /\ _analyze_fillers self text
       = {| count := fst (count_fillers (filler_words self) (findall_words (lower text)));
            ratio := (Z2F (fst (count_fillers (filler_words self)
                                  (findall_words (lower text))))
                      / Z2F (len (findall_words (lower text))))%float;
            types := snd (count_fillers (filler_words self) (findall_words (lower text)));
            f_score :=
              if ((Z2F (fst (count_fillers (filler_words self)
                               (findall_words (lower text))))
                   / Z2F (len (findall_words (lower text))))
                  <=? filler_words_threshold (thresholds self))%float
              then 100 else p |}.
Proof.
  intros Hn.
  pose proof (count_fillers_bounds (filler_words self) (findall_words (lower text))) as Hk.
  set (words := findall_words (lower text)) in *.
  set (k := fst (count_fillers (filler_words self) words)) in *.
  assert (Hp : exists p, filler_penalty k (len words) = Ok p).
  { destruct (Z.eq_dec k (len words)) as [E | E].
    - destruct (filler_penalty_step (k - 1) (len words)) as [a [b [Ha _]]]; try lia.
      replace (k - 1 + 1) with k in Ha by lia. exists a. exact Ha.
    - destruct (filler_penalty_step k (len words)) as [a [b [_ [Hb _]]]]; try lia.
      exists b. exact Hb. }
  destruct Hp as [p Hp]. exists p. split; [exact Hp | ].
  unfold _analyze_fillers.
  destruct (String.eqb_spec text EmptyString) as [E | E].
  { exfalso. subst text. unfold words in Hn. rewrite findall_words_empty in Hn.
    cbn in Hn. lia. }
  fold words. destruct (Z.eqb_spec (len words) 0) as [E0 | E0]; [lia | ].
  fold k. unfold py_truediv_int.
  destruct (Z.eqb_spec (len words) 0) as [E1 | E1]; [lia | ].
  cbn [bind].
  destruct ((Z2F k / Z2F (len words) <=? filler_words_threshold (thresholds self))%float).
  - reflexivity.
  - unfold filler_penalty in Hp.
    destruct (py_int (100 - Z2F k / Z2F (len words) * 1000)%float) as [v | msg];
      cbn [bind] in Hp |- *; [ | discriminate].
    inversion Hp; subst p. reflexivity.
Qed.





(** ** Zero and the sign of a divisor *)

Lemma is_zero_leb_zero d : PrimFloat.is_zero d = true -> (d <=? 0)%float = true.
Proof.
  unfold PrimFloat.is_zero. rewrite FloatAxioms.eqb_spec, FloatAxioms.leb_spec.
  unfold SFeqb, SFleb. change zero with 0%float.
  destruct (SFcompare (Prim2SF d) (Prim2SF 0)) as [[ | | ] | ];
    intros H; try discriminate; reflexivity.
Qed.

Lemma positive_not_zero lo : (0 <? lo)%float = true -> PrimFloat.is_zero lo = false.
Proof.
  intros H. apply ltb_compare in H. apply SFcompare_swap in H.
  unfold PrimFloat.is_zero. rewrite FloatAxioms.eqb_spec. unfold SFeqb.
  change zero with 0%float. rewrite H. reflexivity.
Qed.

Lemma zero_div_positive lo : (0 <? lo)%float = true -> (0 / lo)%float = 0%float.
Proof.
  intros H. apply ltb_compare in H.
  apply Prim2SF_inj. rewrite FloatAxioms.div_spec.
  change (Prim2SF 0) with (S754_zero false) in *.
  destruct (Prim2SF lo) as [s | s | | s m e]; cbn in H |- *;
    try discriminate; destruct s; try discriminate; reflexivity.
Qed.

(** ** The speaking rate score *)

(** What [_analyze_speaking_rate] returns past its guard. *)
Lemma analyze_speaking_rate_past_guard (self : t) (text : string) (d lo hi : float) :
  speaking_rate_good (thresholds self) = (lo, hi) ->
  text <> EmptyString -> (d <=? 0)%float = false ->
  _analyze_speaking_rate self text d
  = match
      (if (lo <=? Z2F (len (findall_words text)) / d * 60)%float
          && (Z2F (len (findall_words text)) / d * 60 <=? hi)%float
       then Ok 100
       else if (Z2F (len (findall_words text)) / d * 60 <? lo)%float
       then q <- py_truediv (Z2F (len (findall_words text)) / d * 60)%float lo ;;
            v <- py_int (q * 100)%float ;; Ok (Z.max 0 v)
       else v <- py_int (100 - (Z2F (len (findall_words text)) / d * 60 - hi) / 2)%float ;;
            Ok (Z.max 0 v))
    with
    | Ok score =>
        {| words_per_minute := (Z2F (len (findall_words text)) / d * 60)%float;
           word_count := len (findall_words text);
           r_score := score |}
    | Raise _ => {| words_per_minute := 0; word_count := 0; r_score := 0 |}
    end.
Proof.
  intros Hth Htext Hd. unfold _analyze_speaking_rate.
  destruct (String.eqb_spec text EmptyString) as [E | E]; [contradiction | ].
  rewrite Hd. cbn [orb]. rewrite Hth. cbn [fst snd].
  unfold py_truediv at 1.
  destruct (PrimFloat.is_zero d) eqn:Hz.
  { apply is_zero_leb_zero in Hz. congruence. }
  cbn [bind].
  match goal with
  | |- context [bind ?e _] => destruct e as [score | msg]
  end; reflexivity.
Qed.




(** ** Pitch *)


Lemma len_zero_iff {A : Type} (l : list A) : len l = 0 <-> l = [].
Proof.
  unfold len. destruct l; cbn [List.length]; split; intros H;
    try reflexivity; try discriminate; lia.
Qed.

(** A pitch tracker that raises is answered with the all-zero metrics. *)
Lemma tone_of_failed_tracker (self : t) (ext : externals) (audio : list float)
    (sample_rate : Z) (msg : string) :
  to_pitch ext audio sample_rate = Raise msg ->
  _analyze_tone self ext audio sample_rate = zero_tone.
Proof. intros H. unfold _analyze_tone. rewrite H. reflexivity. Qed.



(** ** Silence *)

Lemma zero_quotient_is_zero_or_nan y :
  (exists s, Prim2SF (0 / y)%float = S754_zero s) \/ Prim2SF (0 / y)%float = S754_nan.
Proof.
  rewrite FloatAxioms.div_spec. change (Prim2SF 0) with (S754_zero false).
  destruct (Prim2SF y) as [s | s | | s m e]; cbn.
  - right. reflexivity.
  - left. eexists. reflexivity.
  - right. reflexivity.
  - left. eexists. reflexivity.
Qed.

(** The root of [0 / y] is not above a positive threshold, whatever [y]:
    it is zero, or NaN when [y] is zero. *)
Lemma root_of_zero_quotient_is_quiet threshold y :
  (0 <? threshold)%float = true ->
  (threshold <? PrimFloat.sqrt (0 / y))%float = false.
Proof.
  intros H. apply ltb_compare in H. change (Prim2SF 0) with (S754_zero false) in H.
  rewrite FloatAxioms.ltb_spec, FloatAxioms.sqrt_spec. unfold SFltb.
  destruct (zero_quotient_is_zero_or_nan y) as [[s E] | E]; rewrite E; cbn.
  - destruct (Prim2SF threshold) as [s' | s' | | s' m e]; cbn in H |- *;
      try discriminate; destruct s'; try discriminate; reflexivity.
  - destruct (Prim2SF threshold); reflexivity.
Qed.

Lemma np_sum_zeros n : np_sum (repeat 0%float n) = 0%float.
Proof.
  unfold np_sum. induction n as [ | n IH]; [reflexivity | ].
  cbn [repeat fold_left]. change (0 + 0)%float with 0%float. exact IH.
Qed.

Lemma np_square_zeros n : np_square (repeat 0%float n) = repeat 0%float n.
Proof.
  unfold np_square. induction n as [ | n IH]; [reflexivity | ].
  cbn [repeat map]. rewrite IH. reflexivity.
Qed.

Lemma silent_samples_as_floats (audio : list Z) :
  Forall (fun s => s = 0) audio ->
  map (fun s => (Z2F s / 32767)%float) audio = repeat 0%float (List.length audio).
Proof.
  induction 1 as [ | s audio Hs _ IH]; [reflexivity | ].
  cbn [map List.length repeat]. rewrite IH, Hs. reflexivity.
Qed.

Lemma silence_has_no_speech (audio : list Z) (threshold : float) :
  Forall (fun s => s = 0) audio -> (0 <? threshold)%float = true ->
  _has_speech (map (fun s => (Z2F s / 32767)%float) audio) threshold = false.
Proof.
  intros Hz Ht. unfold _has_speech, np_mean.
  rewrite (silent_samples_as_floats audio Hz), np_square_zeros, np_sum_zeros.
  apply root_of_zero_quotient_is_quiet. exact Ht.
Qed.

(** C4.  On a window whose samples are all zero, of any length, the
    [_has_speech] gate answers no, and [analyze_audio] returns the result it
    initialised: overall score 0, no alert, empty transcription.  No stage
    of the pipeline is entered and the world is left as it was (no temporary
    file, no process), whatever the collaborators would have answered. *)
Theorem silence_stops_at_the_gate (self : t) (ext : externals) (now : Z) (w : world)
    (audio_data : list Z) (sample_rate : Z) :
  sample_rate <> 0 ->
  Forall (fun s => s = 0) audio_data ->
  _has_speech (map (fun s => (Z2F s / 32767)%float) audio_data) 0.01 = false
  /\ analyze_audio self ext now w audio_data sample_rate
     = {| returned :=
            {| timestamp := now;
               duration := (Z2F (len audio_data) / Z2F sample_rate)%float;
               transcription := EmptyString;
               metrics := no_metrics;
               scores := zero_scores;
               alerts := [];
               error := None |};
          world_after := w;
          entered := [] |}
  /\ overall (scores (returned (analyze_audio self ext now w audio_data sample_rate))) = 0
  /\ alerts (returned (analyze_audio self ext now w audio_data sample_rate)) = []
  /\ transcription (returned (analyze_audio self ext now w audio_data sample_rate))
     = EmptyString
  /\ entered (analyze_audio self ext now w audio_data sample_rate) = [].
Proof.
  intros Hsr Hz.
  assert (Hgate : _has_speech (map (fun s => (Z2F s / 32767)%float) audio_data) 0.01
                  = false)
    by (apply silence_has_no_speech; [exact Hz | reflexivity]).
  assert (Hrun : analyze_audio self ext now w audio_data sample_rate
     = {| returned :=
            {| timestamp := now;
               duration := (Z2F (len audio_data) / Z2F sample_rate)%float;
               transcription := EmptyString;
               metrics := no_metrics;
               scores := zero_scores;
               alerts := [];
               error := None |};
          world_after := w;
          entered := [] |}).
  { unfold analyze_audio, py_truediv_int.
    destruct (Z.eqb_spec sample_rate 0) as [E | E]; [contradiction | ].
    rewrite Hgate. reflexivity. }
  split; [exact Hgate | ]. split; [exact Hrun | ].
  rewrite Hrun. repeat split.
Qed.

Lemma silence_stops_at_the_gate_witness :
  analyze_audio Samples.analyzer Samples.stalled 0 Samples.empty_world
    [0; 0; 0; 0; 0; 0; 0; 0] 16000
  = {| returned :=
         {| timestamp := 0;
            duration := (Z2F 8 / Z2F 16000)%float;
            transcription := EmptyString;
            metrics := no_metrics;
            scores := zero_scores;
            alerts := [];
            error := None |};
       world_after := Samples.empty_world;
       entered := [] |}.
Proof.
  refine (proj1 (proj2 (silence_stops_at_the_gate Samples.analyzer Samples.stalled 0
                          Samples.empty_world [0; 0; 0; 0; 0; 0; 0; 0] 16000 _ _))).
  - discriminate.
  - repeat constructor.
Defined.

(** ** Slicing *)

Import AudioManager.

Lemma slice_to_within {A : Type} (l : list A) (i : Z) :
  0 <= i <= len l -> slice_to l i = firstn (Z.to_nat i) l.
Proof.
  intros H. unfold slice_to, slice_bound.
  destruct (Z.ltb_spec i 0); [lia | ]. rewrite Z.min_l by lia. reflexivity.
Qed.

Lemma slice_from_within {A : Type} (l : list A) (i : Z) :
  0 <= i <= len l -> slice_from l i = skipn (Z.to_nat i) l.
Proof.
  intros H. unfold slice_from, slice_bound.
  destruct (Z.ltb_spec i 0); [lia | ]. rewrite Z.min_l by lia. reflexivity.
Qed.

Lemma len_app {A : Type} (l1 l2 : list A) : len (l1 ++ l2) = len l1 + len l2.
Proof. unfold len. rewrite length_app. lia. Qed.

(** The tail of a window is the head of what stays in the buffer. *)
Lemma lastn_firstn_skipn {A : Type} (w o : nat) (l : list A) :
  (o <= w)%nat -> (w <= List.length l)%nat ->
  lastn o (firstn w l) = firstn o (skipn (w - o) l).
Proof.
  intros Ho Hw. unfold lastn. rewrite length_firstn, Nat.min_l by assumption.
  rewrite skipn_firstn_comm. f_equal. lia.
Qed.

Lemma skipn_split_at {A : Type} (w o : nat) (l : list A) :
  (o <= w)%nat -> (w <= List.length l)%nat ->
  skipn (w - o) l = lastn o (firstn w l) ++ skipn w l.
Proof.
  intros Ho Hw. rewrite lastn_firstn_skipn by assumption.
  rewrite <- (firstn_skipn o (skipn (w - o) l)) at 1. f_equal.
  rewrite skipn_skipn. f_equal. lia.
Qed.

(** The sample counts of the default settings: three seconds at 16 kHz,
    half a second of overlap. *)
Lemma default_chunking :
  chunking_of init
  = Ok {| analysis_chunk_samples := 48000; overlap_samples := 8000;
          step_samples := 40000 |}.
Proof. vm_compute. reflexivity. Qed.

(** What one pass does when a full window is buffered. *)
Lemma iteration_slices (c : chunking) (arrived : list Z) (now : float) (st : loop_state) :
  0 <= overlap_samples c <= analysis_chunk_samples c ->
  step_samples c = analysis_chunk_samples c - overlap_samples c ->
  analysis_chunk_samples c <= len (buffer st) ->
  snd (iteration c arrived now st)
  = Some (firstn (Z.to_nat (analysis_chunk_samples c)) (buffer st ++ arrived))
  /\ buffer (fst (iteration c arrived now st))
     = skipn (Z.to_nat (step_samples c)) (buffer st ++ arrived).
Proof.
  intros Ho Hs Hfull. unfold iteration, _audio_callback.
  destruct (Z.leb_spec (analysis_chunk_samples c) (len (buffer st))) as [_ | H]; [ | lia].
  assert (Hlen : len (buffer st) <= len (buffer st ++ arrived))
    by (rewrite len_app; unfold len; lia).
  rewrite slice_to_within, slice_from_within by lia.
  destruct ((0.1 <=? now - last_emit_time st)%float); split; reflexivity.
Qed.

(** What one pass does when no full window is buffered. *)
Lemma iteration_waits (c : chunking) (arrived : list Z) (now : float) (st : loop_state) :
  len (buffer st) < analysis_chunk_samples c ->
  iteration c arrived now st
  = ({| buffer := buffer st ++ arrived;
        last_emit_time := last_emit_time st;
        emitted := emitted st |}, None).
Proof.
  intros H. unfold iteration, _audio_callback.
  destruct (Z.leb_spec (analysis_chunk_samples c) (len (buffer st))); [lia | reflexivity].
Qed.

(** The buffer after a pass that slices: the overlap tail of the chunk,
    then the samples behind the chunk. *)
Lemma iteration_keeps_overlap_tail (c : chunking) (arrived : list Z) (now : float)
    (st : loop_state) :
  0 <= overlap_samples c <= analysis_chunk_samples c ->
  step_samples c = analysis_chunk_samples c - overlap_samples c ->
  analysis_chunk_samples c <= len (buffer st) ->
  buffer (fst (iteration c arrived now st))
  = lastn (Z.to_nat (overlap_samples c))
      (firstn (Z.to_nat (analysis_chunk_samples c)) (buffer st ++ arrived))
    ++ skipn (Z.to_nat (analysis_chunk_samples c)) (buffer st ++ arrived).
Proof.
  intros Ho Hs Hfull.
  destruct (iteration_slices c arrived now st Ho Hs Hfull) as [_ Hb].
  rewrite Hb, Hs.
  replace (Z.to_nat (analysis_chunk_samples c - overlap_samples c))
    with (Z.to_nat (analysis_chunk_samples c) - Z.to_nat (overlap_samples c))%nat
    by lia.
  apply skipn_split_at; [lia | ].
  rewrite length_app. unfold len in Hfull. lia.
Qed.



(** *** Runs of the loop *)

(** Each step hands over to the windows what it takes from the stream. *)
Lemma step_conserves (c : chunking) (e : event) (st : loop_state) :
  0 <= overlap_samples c < analysis_chunk_samples c ->
  step_samples c = analysis_chunk_samples c - overlap_samples c ->
  match snd (step c e st) with
  | Some chunk => firstn (Z.to_nat (step_samples c)) chunk
  | None => []
  end ++ buffer (fst (step c e st))
  = buffer st ++ delivered e.
Proof.
  intros Ho Hs. destruct e as [in_data | arrived now]; cbn [step delivered].
  - reflexivity.
  - destruct (Z.le_gt_cases (analysis_chunk_samples c) (len (buffer st))) as [Hfull | Hnot].
    + destruct (iteration_slices c arrived now st ltac:(lia) Hs Hfull) as [Hw Hb].
      rewrite Hw, Hb. rewrite firstn_firstn, Nat.min_l by lia.
      apply firstn_skipn.
    + rewrite iteration_waits by lia. reflexivity.
Qed.

Lemma run_conserves (c : chunking) (es : list event) :
  0 <= overlap_samples c < analysis_chunk_samples c ->
  step_samples c = analysis_chunk_samples c - overlap_samples c ->
  forall st,
    List.concat (map (firstn (Z.to_nat (step_samples c))) (snd (run c es st)))
    ++ buffer (fst (run c es st))
    = buffer st ++ List.concat (map delivered es).
Proof.
  intros Ho Hs. induction es as [ | e es IH]; intros st.
  - cbn. rewrite app_nil_r. reflexivity.
  - cbn [run map List.concat].
    pose proof (step_conserves c e st Ho Hs) as Hstep.
    destruct (step c e st) as [st1 w]. cbn [fst snd] in Hstep.
    specialize (IH st1). destruct (run c es st1) as [st2 ws]. cbn [fst snd] in IH |- *.
    rewrite app_assoc, <- Hstep, <- app_assoc, <- IH.
    destruct w as [chunk | ]; cbn [map List.concat]; rewrite <- ?app_assoc; reflexivity.
Qed.

Lemma overlapping_cons (k : nat) (w : list Z) (ws : list (list Z)) :
  match ws with
  | w2 :: _ => lastn k w = firstn k w2
  | [] => True
  end ->
  overlapping k ws -> overlapping k (w :: ws).
Proof. intros H1 H2. destruct ws as [ | w2 ws]; cbn; auto. Qed.

Lemma run_overlapping (c : chunking) (es : list event) :
  0 <= overlap_samples c < analysis_chunk_samples c ->
  step_samples c = analysis_chunk_samples c - overlap_samples c ->
  forall st last,
    tail_kept (Z.to_nat (overlap_samples c)) last st ->
    overlapping (Z.to_nat (overlap_samples c)) (snd (run c es st))
    /\ match last, snd (run c es st) with
       | Some w, w2 :: _ =>
           lastn (Z.to_nat (overlap_samples c)) w = firstn (Z.to_nat (overlap_samples c)) w2
       | _, _ => True
       end.
Proof.
  intros Ho Hs. set (k := Z.to_nat (overlap_samples c)).
  induction es as [ | e es IH]; intros st last Hkept.
  - cbn. split; [exact I | destruct last; exact I].
  - cbn [run].
    assert (Happ : forall more, tail_kept k last st ->
              tail_kept k last {| buffer := buffer st ++ more;
                                  last_emit_time := last_emit_time st;
                                  emitted := emitted st |}).
    { intros more Hk. destruct last as [w | ]; [ | exact I]. cbn in Hk |- *.
      destruct Hk as [Hk1 Hk2]. split.
      - rewrite firstn_app. replace (k - List.length (buffer st))%nat with 0%nat by lia.
        cbn [firstn]. rewrite app_nil_r. exact Hk1.
      - rewrite length_app. lia. }
    destruct e as [in_data | arrived now]; cbn [step].
    + specialize (IH _ last (Happ in_data Hkept)).
      unfold _audio_callback.
      destruct (run c es _) as [st2 ws]. cbn [snd] in IH |- *. exact IH.
    + destruct (Z.le_gt_cases (analysis_chunk_samples c) (len (buffer st)))
        as [Hfull | Hnot].
      * destruct (iteration_slices c arrived now st ltac:(lia) Hs Hfull) as [Hw Hb].
        destruct (iteration c arrived now st) as [st1 w]. cbn [fst snd] in Hw, Hb.
        subst w.
        set (chunk := firstn (Z.to_nat (analysis_chunk_samples c)) (buffer st ++ arrived)).
        assert (Hlen : (Z.to_nat (analysis_chunk_samples c)
                        <= List.length (buffer st ++ arrived))%nat).
        { rewrite length_app. unfold len in Hfull. lia. }
        assert (Hnext : tail_kept k (Some chunk) st1).
        { cbn. rewrite Hb, Hs. unfold chunk, k.
          replace (Z.to_nat (analysis_chunk_samples c - overlap_samples c))
            with (Z.to_nat (analysis_chunk_samples c) - Z.to_nat (overlap_samples c))%nat
            by lia.
          split.
          - apply lastn_firstn_skipn; [lia | exact Hlen].
          - rewrite length_skipn. lia. }
        specialize (IH st1 (Some chunk) Hnext).
        destruct (run c es st1) as [st2 ws]. cbn [snd] in IH |- *.
        destruct IH as [IH1 IH2]. split.
        -- apply overlapping_cons; assumption.
        -- destruct last as [w0 | ]; [ | exact I].
           cbn in Hkept. destruct Hkept as [Hk1 Hk2]. rewrite Hk1.
           unfold chunk. rewrite firstn_firstn, Nat.min_l by (unfold k; lia).
           rewrite firstn_app.
           replace (k - List.length (buffer st))%nat with 0%nat by lia.
           cbn [firstn]. rewrite app_nil_r. reflexivity.
      * rewrite iteration_waits by lia.
        specialize (IH _ last (Happ arrived Hkept)).
        destruct (run c es _) as [st2 ws]. cbn [snd] in IH |- *. exact IH.
Qed.

Lemma run_window_lengths (c : chunking) (es : list event) :
  0 <= overlap_samples c < analysis_chunk_samples c ->
  step_samples c = analysis_chunk_samples c - overlap_samples c ->
  forall st,
    Forall (fun w => len w = analysis_chunk_samples c) (snd (run c es st)).
Proof.
  intros Ho Hs. induction es as [ | e es IH]; intros st; [constructor | ].
  cbn [run]. destruct e as [in_data | arrived now]; cbn [step].
  - specialize (IH {| buffer := _audio_callback (buffer st) in_data;
                      last_emit_time := last_emit_time st;
                      emitted := emitted st |}).
    destruct (run c es _) as [st2 ws]. exact IH.
  - destruct (Z.le_gt_cases (analysis_chunk_samples c) (len (buffer st)))
      as [Hfull | Hnot].
    + destruct (iteration_slices c arrived now st ltac:(lia) Hs Hfull) as [Hw Hb].
      destruct (iteration c arrived now st) as [st1 w]. cbn [fst snd] in Hw, Hb.
      subst w. specialize (IH st1). destruct (run c es st1) as [st2 ws].
      cbn [snd] in IH |- *. constructor; [ | exact IH].
      unfold len. rewrite length_firstn, length_app. unfold len in Hfull. lia.
    + rewrite iteration_waits by lia.
      specialize (IH {| buffer := buffer st ++ arrived;
                        last_emit_time := last_emit_time st;
                        emitted := emitted st |}).
      destruct (run c es _) as [st2 ws]. exact IH.
Qed.

(** C1.  With [0 <= overlap_samples < analysis_chunk_samples] and
    [step_samples = analysis_chunk_samples - overlap_samples]: a pass that
    finds a full window slices the first [analysis_chunk_samples] buffered
    samples and keeps, of that window, exactly its last [overlap_samples]
    samples, followed by the samples buffered behind the window.  Over any
    run of callbacks and passes, every window has the full length, the last
    [overlap_samples] samples of each window are the first [overlap_samples]
    samples of the next one, and the first [step_samples] samples of the
    windows, in order, followed by what is left in the buffer, are exactly
    the samples delivered: none is skipped and none is repeated outside the
    overlaps. *)
Theorem slicing_keeps_every_sample (c : chunking) (es : list event) (st : loop_state) :
  0 <= overlap_samples c < analysis_chunk_samples c ->
  step_samples c = analysis_chunk_samples c - overlap_samples c ->
  (forall arrived now st0,
     analysis_chunk_samples c <= len (buffer st0) ->
     snd (iteration c arrived now st0)
     = Some (firstn (Z.to_nat (analysis_chunk_samples c)) (buffer st0 ++ arrived))
     /\ buffer (fst (iteration c arrived now st0))
        = lastn (Z.to_nat (overlap_samples c))
            (firstn (Z.to_nat (analysis_chunk_samples c)) (buffer st0 ++ arrived))
          ++ skipn (Z.to_nat (analysis_chunk_samples c)) (buffer st0 ++ arrived))
  /\ Forall (fun w => len w = analysis_chunk_samples c) (snd (run c es st))
  /\ overlapping (Z.to_nat (overlap_samples c)) (snd (run c es st))
  /\ List.concat (map (firstn (Z.to_nat (step_samples c))) (snd (run c es st)))
     ++ buffer (fst (run c es st))
     = buffer st ++ List.concat (map delivered es).
Proof.
  intros Ho Hs. split; [ | split; [ | split]].
  - intros arrived now st0 Hfull. split.
    + apply (iteration_slices c arrived now st0 ltac:(lia) Hs Hfull).
    + apply iteration_keeps_overlap_tail; [lia | assumption | assumption].
  - apply run_window_lengths; assumption.
  - apply (run_overlapping c es Ho Hs st None). exact I.
  - apply run_conserves; assumption.
Qed.

Lemma slicing_keeps_every_sample_witness :
  snd (run SampleRuns.small_chunks SampleRuns.nine_samples loop_start)
  = [[1; 2; 3; 4]; [4; 5; 6; 7]]
  /\ buffer (fst (run SampleRuns.small_chunks SampleRuns.nine_samples loop_start))
     = [7; 8; 9]
  /\ overlapping 1 [[1; 2; 3; 4]; [4; 5; 6; 7]]
  /\ ([1; 2; 3] ++ [4; 5; 6]) ++ [7; 8; 9] = [1; 2; 3; 4; 5; 6; 7; 8; 9].
Proof.
  destruct (slicing_keeps_every_sample SampleRuns.small_chunks SampleRuns.nine_samples
              loop_start)
    as [_ [_ [H3 H4]]]; try (cbn; lia).
  split; [vm_compute; reflexivity | ]. split; [vm_compute; reflexivity | ].
  split; [exact H3 | exact H4].
Defined.

(** ** Transcription and the temporary file *)

(** When the engine exits, with any return code, the temporary file is
    removed before [_transcribe_audio] returns. *)
Lemma transcribe_completed_removes_wav (self : SpeechAnalyzer.t) (ext : externals) (w : world)
    (audio_data : list Z) (sample_rate : Z) (rc : Z) (out err : string) :
  truthy (whisper_cli_path self) = true ->
  truthy (whisper_model_path self) = true ->
  0 < sample_rate ->
  (forall cmd, subprocess_run ext cmd audio_data = Completed rc out err) ->
  exists_file (temp_wav_path ext w)
    (snd (_transcribe_audio self ext w audio_data sample_rate)) = false.
Proof.
  intros Hcli Hmodel Hsr Hrun. unfold _transcribe_audio.
  rewrite Hcli, Hmodel. cbn [negb orb]. unfold wave_write.
  destruct (Z.leb_spec sample_rate 0); [lia | ].
  rewrite Hrun.
  assert (Hgone : exists_file (temp_wav_path ext w)
                    (unlink (temp_wav_path ext w) (create (temp_wav_path ext w) w))
                  = false).
  { unfold exists_file, unlink, create. cbn [files].
    apply not_true_is_false. intros Hex. apply existsb_exists in Hex.
    destruct Hex as [p [Hin Hp]]. apply filter_In in Hin. destruct Hin as [_ Hn].
    rewrite Hp in Hn. discriminate. }
  destruct (rc =? 0); exact Hgone.
Qed.

(** When the engine does not answer within the timeout (or cannot be
    started), the temporary file is still there when [_transcribe_audio]
    returns. *)
Lemma transcribe_timeout_keeps_wav (self : SpeechAnalyzer.t) (ext : externals) (w : world)
    (audio_data : list Z) (sample_rate : Z) :
  truthy (whisper_cli_path self) = true ->
  truthy (whisper_model_path self) = true ->
  0 < sample_rate ->
  (forall cmd, subprocess_run ext cmd audio_data = TimeoutExpired) ->
  _transcribe_audio self ext w audio_data sample_rate
  = (EmptyString, create (temp_wav_path ext w) w).
Proof.
  intros Hcli Hmodel Hsr Hrun. unfold _transcribe_audio.
  rewrite Hcli, Hmodel. cbn [negb orb]. unfold wave_write.
  destruct (Z.leb_spec sample_rate 0); [lia | ].
  rewrite Hrun. reflexivity.
Qed.

(** C3, at the failing input: the engine is installed and the process runs
    into the timeout.  [_transcribe_audio] returns the empty text and the
    temporary WAV file it wrote is still on disk. *)
Theorem transcription_timeout_leaves_the_wav :
  _transcribe_audio Samples.analyzer Samples.stalled Samples.empty_world
    [1200; -800; 350] 16000
  = (EmptyString, {| files := ["/tmp/tmpq3x1.wav"%string] |})
  /\ exists_file "/tmp/tmpq3x1.wav"
       (snd (_transcribe_audio Samples.analyzer Samples.stalled Samples.empty_world
               [1200; -800; 350] 16000)) = true.
Proof. split; vm_compute; reflexivity. Qed.

(** ** Tokens and multi-word fillers *)

Lemma multi_word_append (cur : string) (c : ascii) :
  multi_word (cur ++ String c EmptyString) = multi_word cur || negb (is_word_char c).
Proof.
  unfold multi_word. induction cur as [ | a cur IH].
  - cbn. rewrite orb_false_r. reflexivity.
  - cbn [append list_ascii_of_string existsb]. rewrite IH. rewrite orb_assoc.
    reflexivity.
Qed.

(** Every token is made of word characters only. *)
Lemma findall_words_from_single (s : string) : forall cur,
  multi_word cur = false ->
  Forall (fun w => multi_word w = false) (findall_words_from cur s).
Proof.
  induction s as [ | c s IH]; intros cur Hcur; cbn [findall_words_from].
  - destruct cur; [constructor | ]. constructor; [exact Hcur | constructor].
  - destruct (is_word_char c) eqn:Hc.
    + apply IH. rewrite multi_word_append, Hcur, Hc. reflexivity.
    + destruct cur.
      * apply IH. reflexivity.
      * constructor; [exact Hcur | ]. apply IH. reflexivity.
Qed.

Lemma findall_words_single (s : string) :
  Forall (fun w => multi_word w = false) (findall_words s).
Proof. apply findall_words_from_single. reflexivity. Qed.

Lemma existsb_remove (word entry : string) (l : list string) :
  word <> entry ->
  existsb (String.eqb word) (remove string_dec entry l) = existsb (String.eqb word) l.
Proof.
  intros Hne. induction l as [ | a l IH]; [reflexivity | ].
  cbn [remove existsb]. destruct (string_dec entry a) as [E | E].
  - subst a. rewrite IH. destruct (String.eqb_spec word entry); [contradiction | ].
    reflexivity.
  - cbn [existsb]. rewrite IH. reflexivity.
Qed.

Lemma count_fillers_without (entry : string) (fw words : list string) :
  Forall (fun w => w <> entry) words ->
  count_fillers (remove string_dec entry fw) words = count_fillers fw words.
Proof.
  unfold count_fillers. generalize (0, @nil string).
  induction words as [ | w ws IH]; intros acc Hall; [reflexivity | ].
  inversion Hall as [ | ? ? Hw Hws]; subst.
  cbn [fold_left]. rewrite (existsb_remove w entry fw Hw). apply IH. exact Hws.
Qed.

(** C10.  A filler entry that holds a character outside the word characters
    (a multi-word entry such as "you know") equals no token of any
    transcription, so it is never counted: with the entry or without it,
    [_analyze_fillers] returns the same count, ratio, types and score. *)
Theorem multi_word_filler_never_counts (self : SpeechAnalyzer.t) (entry text : string) :
  multi_word entry = true ->
  ~ In entry (findall_words (lower text))
  /\ _analyze_fillers self text
     = _analyze_fillers
         (with_filler_words self (remove string_dec entry (filler_words self)))
         text.
Proof.
  intros Hentry.
  assert (Hall : Forall (fun w => w <> entry) (findall_words (lower text))).
  { eapply Forall_impl; [ | apply findall_words_single].
    intros w Hw E. subst w. congruence. }
  split.
  - intros Hin. rewrite Forall_forall in Hall. exact (Hall entry Hin eq_refl).
  - unfold _analyze_fillers. unfold with_filler_words, update_settings, override. cbn [fst filler_words thresholds set_filler_words set_thresholds].
    rewrite (count_fillers_without entry (filler_words self) _ Hall). reflexivity.
Qed.

Lemma multi_word_filler_never_counts_witness :
  ~ In "you know"%string (findall_words (lower "You know, you know it"))
  /\ _analyze_fillers Samples.analyzer "You know, you know it"
     = _analyze_fillers
         (with_filler_words Samples.analyzer
            (remove string_dec "you know"%string (filler_words Samples.analyzer)))
         "You know, you know it".
Proof.
  apply (multi_word_filler_never_counts Samples.analyzer "you know"
           "You know, you know it").
  reflexivity.
Defined.

(** ** Alerts *)

Lemma In_when {A : Type} (b : bool) (y x : A) :
  In x (if b then [y] else []) <-> b = true /\ y = x.
Proof. destruct b; cbn; intuition discriminate. Qed.

Lemma alerts_no_error (self : SpeechAnalyzer.t) (m : metrics_t) (s : scores_t) (e : string) :
  ~ In (AnalysisError e) (_generate_alerts self m s).
Proof.
  unfold _generate_alerts. rewrite !in_app_iff, !In_when.
  repeat match goal with
         | |- context [if ?b then _ else _] => destruct b
         end; cbn [In]; intuition discriminate.
Qed.

Lemma rate_alerts_need_a_rate (self : SpeechAnalyzer.t) (m : metrics_t) (s : scores_t) :
  In SpeakFaster (_generate_alerts self m s) \/ In SlowDown (_generate_alerts self m s) ->
  (0 <? match m_rate m with Some r => words_per_minute r | None => 0%float end)%float
  = true.
Proof.
  unfold _generate_alerts. rewrite !in_app_iff, !In_when.
  destruct (0 <? _)%float; [reflexivity | ].
  cbn [In]. intuition discriminate.
Qed.

(** X1.  [_generate_alerts] raises each alert exactly when its rule fires:
    the three score alerts below 70, the filler alert (carrying the ratio)
    when the ratio exceeds the threshold, "speak faster" when the rate is
    above 0 and below the lower bound, "slow down" when the rate is above 0,
    not below the lower bound and above the upper bound.  The two rate
    alerts never come together, no analysis-error alert is produced, and
    there are at most five alerts. *)
Theorem alerts_follow_the_rules (self : SpeechAnalyzer.t) (m : metrics_t) (s : scores_t) :
  let lo := fst (speaking_rate_good (thresholds self)) in
  let hi := snd (speaking_rate_good (thresholds self)) in
  let filler_ratio :=
    match m_fillers m with Some f => ratio f | None => 0%float end in
  let wpm :=
    match m_rate m with Some r => words_per_minute r | None => 0%float end in
  let a := _generate_alerts self m s in
  (In VaryPitch a <-> s_tone s < 70)
  /\ (In ClearArticulation a <-> s_clarity s < 70)
  /\ (In ConsistentVolume a <-> s_volume s < 70)
  /\ (forall r, In (ReduceFillers r) a <->
                r = filler_ratio
                /\ (filler_words_threshold (thresholds self) <? filler_ratio)%float = true)
  /\ (In SpeakFaster a <-> (0 <? wpm)%float = true /\ (wpm <? lo)%float = true)
  /\ (In SlowDown a <->
      (0 <? wpm)%float = true /\ (wpm <? lo)%float = false /\ (hi <? wpm)%float = true)
  /\ ~ (In SpeakFaster a /\ In SlowDown a)
  /\ (forall e, ~ In (AnalysisError e) a)
  /\ (List.length a <= 5)%nat.
Proof.
  intros lo hi filler_ratio wpm a. subst a. unfold _generate_alerts.
  fold lo hi filler_ratio wpm.
  assert (Hlen : forall (b : bool) (y : alert),
             (List.length (if b then [y] else []) <= 1)%nat)
    by (intros [ | ] y; cbn; lia).
  pose proof (Hlen (s_tone s <? 70) VaryPitch) as L1.
  pose proof (Hlen (s_clarity s <? 70) ClearArticulation) as L2.
  pose proof (Hlen (s_volume s <? 70) ConsistentVolume) as L3.
  pose proof (Hlen (filler_words_threshold (thresholds self) <? filler_ratio)%float
                (ReduceFillers filler_ratio)) as L4.
  rewrite !length_app.
  setoid_rewrite in_app_iff. setoid_rewrite in_app_iff.
  setoid_rewrite in_app_iff. setoid_rewrite in_app_iff.
  setoid_rewrite In_when.
  rewrite !Z.ltb_lt.
  destruct (0 <? wpm)%float; destruct (wpm <? lo)%float; destruct (hi <? wpm)%float;
    cbn [In List.length];
    repeat split; try lia; intros;
    try (intuition (try discriminate; try congruence); fail).
Qed.

(** ** Errors and the paths of [analyze_audio] *)

Lemma py_int_raises_named (x : float) (e : string) :
  py_int x = Raise e -> e <> EmptyString.
Proof.
  unfold py_int. destruct (Prim2SF x); intros H; inversion H; discriminate.
Qed.

Lemma calculate_scores_raises_named (self : SpeechAnalyzer.t) (m : metrics_t) (e : string) :
  _calculate_scores self m = Raise e -> e <> EmptyString.
Proof.
  unfold _calculate_scores, bind.
  destruct (py_int _) eqn:H; intros He; inversion He; subst.
  eapply py_int_raises_named. eassumption.
Qed.

Lemma calculate_scores_tone (self : SpeechAnalyzer.t) (m : metrics_t) (s : scores_t) :
  _calculate_scores self m = Ok s ->
  s_tone s = score_of t_score (m_tone m)
  /\ s_clarity s = score_of c_score (m_clarity m)
  /\ s_volume s = score_of v_score (m_volume m)
  /\ s_fluency s
     = (score_of f_score (m_fillers m) + score_of r_score (m_rate m)) / 2.
Proof.
  unfold _calculate_scores, bind.
  destruct (py_int _); intros H; inversion H; subst; cbn. auto.
Qed.

(** X2.  [analyze_audio] never raises, and a result carries an error exactly
    in the shape of [_empty_result]: the message is not empty, the one alert
    is the analysis error with that message, all scores are 0, and there are
    no metrics and no transcription.  A result without an error holds no
    analysis-error alert.  A sample rate of 0 gives the error
    "division by zero" before anything is written. *)
Theorem errors_are_reported_as_one_alert (self : SpeechAnalyzer.t) (ext : externals)
    (now : Z) (w : world) (audio_data : list Z) (sample_rate : Z) :
  let a := analyze_audio self ext now w audio_data sample_rate in
  match error (returned a) with
  | Some e =>
      e <> EmptyString
      /\ SpeechAnalyzer.alerts (returned a) = [AnalysisError e]
      /\ scores (returned a) = zero_scores
      /\ metrics (returned a) = no_metrics
      /\ transcription (returned a) = EmptyString
  | None => forall e, ~ In (AnalysisError e) (SpeechAnalyzer.alerts (returned a))
  end
  /\ returned (analyze_audio self ext now w audio_data 0)
     = _empty_result now "division by zero"
  /\ world_after (analyze_audio self ext now w audio_data 0) = w
  /\ entered (analyze_audio self ext now w audio_data 0) = [].
Proof.
  intros a. split; [ | repeat split].
  subst a. unfold analyze_audio.
  destruct (py_truediv_int (len audio_data) sample_rate) as [d | e] eqn:Hd.
  - destruct (_has_speech _ _).
    + destruct (_calculate_scores _ _) as [s | e] eqn:Hs; cbn.
      * intros e. apply (alerts_no_error self).
      * pose proof (calculate_scores_raises_named _ _ _ Hs) as He.
        destruct (String.eqb_spec e EmptyString); [contradiction | ]. auto.
    + cbn. intros e H. exact H.
  - cbn. unfold py_truediv_int in Hd.
    destruct (sample_rate =? 0); inversion Hd; subst. cbn.
    repeat split. discriminate.
Qed.

Lemma transcribe_without_engine (self : SpeechAnalyzer.t) (ext : externals) (w : world)
    (audio_data : list Z) (sample_rate : Z) :
  truthy (whisper_cli_path self) = false \/ truthy (whisper_model_path self) = false ->
  _transcribe_audio self ext w audio_data sample_rate = (EmptyString, w).
Proof.
  intros H. unfold _transcribe_audio.
  destruct H as [H | H]; rewrite H; cbn; [ | rewrite orb_true_r]; reflexivity.
Qed.

(** X3.  When the command-line tool or the model was not found (either path
    is [None] or empty), [analyze_audio] writes no file, returns an empty
    transcription, leaves the filler and rate metrics empty, scores fluency 0
    and raises neither rate alert, whatever the audio. *)
Theorem no_engine_no_fluency (self : SpeechAnalyzer.t) (ext : externals)
    (now : Z) (w : world) (audio_data : list Z) (sample_rate : Z) :
  truthy (whisper_cli_path self) = false \/ truthy (whisper_model_path self) = false ->
  let a := analyze_audio self ext now w audio_data sample_rate in
  world_after a = w
  /\ transcription (returned a) = EmptyString
  /\ m_fillers (metrics (returned a)) = None
  /\ m_rate (metrics (returned a)) = None
  /\ s_fluency (scores (returned a)) = 0
  /\ ~ In SpeakFaster (SpeechAnalyzer.alerts (returned a))
  /\ ~ In SlowDown (SpeechAnalyzer.alerts (returned a)).
Proof.
  intros H a. subst a. unfold analyze_audio.
  rewrite (transcribe_without_engine self ext w audio_data sample_rate H).
  destruct (py_truediv_int (len audio_data) sample_rate) as [d | e].
  - destruct (_has_speech _ _).
    + cbn [fst snd String.eqb negb].
      destruct (_calculate_scores _ _) as [s | e] eqn:Hs;
        cbn [returned world_after transcription metrics scores SpeechAnalyzer.alerts
             m_fillers m_rate].
      * apply calculate_scores_tone in Hs. destruct Hs as [_ [_ [_ Hs]]].
        cbn in Hs.
        repeat split; try assumption.
        -- intros Hin.
           pose proof (rate_alerts_need_a_rate _ _ _ (or_introl Hin)) as R.
           vm_compute in R. discriminate.
        -- intros Hin.
           pose proof (rate_alerts_need_a_rate _ _ _ (or_intror Hin)) as R.
           vm_compute in R. discriminate.
      * unfold _empty_result; cbn.
        repeat split; try reflexivity;
          destruct ((e =? "")%string); cbn; intuition discriminate.
    + cbn. repeat split; try reflexivity; intros F; exact F.
  - unfold _empty_result; cbn.
    repeat split; try reflexivity;
      destruct ((e =? "")%string); cbn; intuition discriminate.
Qed.

Lemma no_engine_no_fluency_witness :
  let a := analyze_audio (SpeechAnalyzer.init None (Some "ggml-base.en.bin"%string))
             Samples.stalled 0 Samples.empty_world [1200; -800; 350] 16000 in
  world_after a = Samples.empty_world
  /\ transcription (returned a) = EmptyString
  /\ m_fillers (metrics (returned a)) = None
  /\ m_rate (metrics (returned a)) = None
  /\ s_fluency (scores (returned a)) = 0
  /\ ~ In SpeakFaster (SpeechAnalyzer.alerts (returned a))
  /\ ~ In SlowDown (SpeechAnalyzer.alerts (returned a)).
Proof.
  apply (no_engine_no_fluency (SpeechAnalyzer.init None (Some "ggml-base.en.bin"%string))).
  left. reflexivity.
Defined.

(** X4.  Without a transcription (no filler and no rate metrics) and with
    tone, clarity and volume scores in [0, 100], [_calculate_scores] returns
    fluency 0 and an overall score of at most 70. *)
Theorem overall_without_transcription_at_most_70 (self : SpeechAnalyzer.t) (m : metrics_t) :
  m_fillers m = None -> m_rate m = None ->
  0 <= score_of t_score (m_tone m) <= 100 ->
  0 <= score_of c_score (m_clarity m) <= 100 ->
  0 <= score_of v_score (m_volume m) <= 100 ->
  exists s,
    _calculate_scores self m = Ok s
    /\ s_fluency s = 0
    /\ 0 <= overall s <= 70.
Proof.
  intros Hf Hr Ht Hc Hv.
  destruct (weighted_sum_near_floor _ _ _ 0 Ht Hc Hv ltac:(lia)) as [o [Ho [Hr1 Hr2]]].
  unfold _calculate_scores, bind. rewrite Hf, Hr. cbn [score_of].
  change ((0 + 0) / 2) with 0.
  unfold weighted_sum in Ho. rewrite Ho.
  eexists. split; [reflexivity | ]. cbn [s_fluency overall].
  split; [reflexivity | ]. unfold twenty_times_sum in Hr2.
  assert ((5 * score_of t_score (m_tone m) + 5 * score_of c_score (m_clarity m)
           + 4 * score_of v_score (m_volume m) + 6 * 0) / 20 <= 70).
  { apply Z.div_le_upper_bound; lia. }
  lia.
Qed.

Lemma overall_without_transcription_at_most_70_witness :
  exists s,
    _calculate_scores Samples.analyzer
      {| m_tone := Some {| pitch_mean := 0; pitch_std := 0; pitch_range := 0;
                           t_score := 100 |};
         m_clarity := Some {| spectral_centroid_mean := 0; spectral_rolloff_mean := 0;
                              zero_crossing_rate_mean := 0; mfcc_variance := 0;
                              c_score := 100 |};
         m_volume := Some {| rms_mean := 0; rms_std := 0; consistency := 0;
                             v_score := 100 |};
         m_fillers := None; m_rate := None |} = Ok s
    /\ s_fluency s = 0
    /\ 0 <= overall s <= 70.
Proof.
  apply overall_without_transcription_at_most_70; cbn; try reflexivity; lia.
Defined.

(** ** The tone score on the way to the alert *)

Lemma analyze_tone_scores (self : SpeechAnalyzer.t) (ext : externals) (audio : list float)
    (sample_rate : Z) :
  In (t_score (_analyze_tone self ext audio sample_rate)) [0; 50; 70; 100].
Proof.
  unfold _analyze_tone.
  destruct (to_pitch ext audio sample_rate) as [p | e]; [ | cbn; auto].
  destruct (len _ =? 0); [cbn; auto | ].
  cbn [t_score].
  destruct (_ <? _)%float; [cbn; auto | ].
  destruct (_ <? _)%float; cbn; auto.
Qed.

Lemma tone_score_values (self : SpeechAnalyzer.t) (ext : externals) (now : Z)
    (w : world) (audio_data : list Z) (sample_rate : Z) :
  In (s_tone (scores (returned (analyze_audio self ext now w audio_data sample_rate))))
     [0; 50; 70; 100].
Proof.
  unfold analyze_audio.
  destruct (py_truediv_int _ _); [ | cbn; auto].
  destruct (_has_speech _ _); [ | cbn; auto].
  destruct (_calculate_scores _ _) as [s | e] eqn:Hs; [ | cbn; auto].
  cbn [returned scores].
  pose proof (calculate_scores_tone _ _ _ Hs) as [Ht _]. cbn in Ht. rewrite Ht.
  apply analyze_tone_scores.
Qed.


(** ** Letter case *)


Lemma lower_char_word (c : ascii) : is_word_char (lower_char c) = is_word_char c.
Proof.
  destruct c as [b0 b1 b2 b3 b4 b5 b6 b7].
  destruct b0, b1, b2, b3, b4, b5, b6, b7; reflexivity.
Qed.

Lemma lower_char_not_upper (c : ascii) : is_upper (lower_char c) = false.
Proof.
  destruct c as [b0 b1 b2 b3 b4 b5 b6 b7].
  destruct b0, b1, b2, b3, b4, b5, b6, b7; reflexivity.
Qed.


Lemma lower_not_upper (s : string) : has_upper (lower s) = false.
Proof.
  induction s as [ | c s IH]; [reflexivity | ].
  cbn [lower has_upper]. rewrite lower_char_not_upper, IH. reflexivity.
Qed.

Lemma lower_app (a b : string) : lower (a ++ b) = (lower a ++ lower b)%string.
Proof.
  induction a as [ | c a IH]; [reflexivity | ].
  cbn [append lower]. rewrite IH. reflexivity.
Qed.


(** The tokens of the lowered text are the lowered tokens of the text. *)
Lemma findall_words_from_lower (s : string) : forall cur,
  findall_words_from (lower cur) (lower s) = map lower (findall_words_from cur s).
Proof.
  induction s as [ | c s IH]; intros cur; cbn [lower findall_words_from].
  - destruct cur; reflexivity.
  - rewrite lower_char_word. destruct (is_word_char c).
    + rewrite <- IH. rewrite lower_app. reflexivity.
    + destruct cur; cbn [lower map].
      * apply (IH EmptyString).
      * f_equal. apply (IH EmptyString).
Qed.

Lemma findall_words_lower (s : string) :
  findall_words (lower s) = map lower (findall_words s).
Proof. apply (findall_words_from_lower s EmptyString). Qed.


Lemma existsb_lower_only (word : string) (fw : list string) :
  has_upper word = false ->
  existsb (String.eqb word) (filter (fun w => negb (has_upper w)) fw)
  = existsb (String.eqb word) fw.
Proof.
  intros Hw. induction fw as [ | a fw IH]; [reflexivity | ].
  cbn [filter existsb]. destruct (has_upper a) eqn:Ha; cbn [negb existsb].
  - rewrite IH. destruct (String.eqb_spec word a) as [E | E]; [ | reflexivity].
    subst a. congruence.
  - rewrite IH. reflexivity.
Qed.

Lemma count_fillers_from_lower_only (fw words : list string) :
  Forall (fun w => has_upper w = false) words ->
  forall acc : Z * list string,
    fold_left
      (fun (acc : Z * list string) (word : string) =>
         if existsb (String.eqb word) (filter (fun w => negb (has_upper w)) fw)
         then (fst acc + 1,
               if existsb (String.eqb word) (snd acc) then snd acc
               else snd acc ++ [word])
         else acc)
      words acc
    = fold_left
        (fun (acc : Z * list string) (word : string) =>
           if existsb (String.eqb word) fw
           then (fst acc + 1,
                 if existsb (String.eqb word) (snd acc) then snd acc
                 else snd acc ++ [word])
           else acc)
        words acc.
Proof.
  induction 1 as [ | w ws Hw _ IH]; intros acc; [reflexivity | ].
  cbn [fold_left]. rewrite (existsb_lower_only w fw Hw). apply IH.
Qed.

(** The entries with a capital letter can be left out of the filler list. *)
Lemma count_fillers_lower_only (fw : list string) (text : string) :
  count_fillers (filter (fun w => negb (has_upper w)) fw) (findall_words (lower text))
  = count_fillers fw (findall_words (lower text)).
Proof.
  unfold count_fillers. apply count_fillers_from_lower_only.
  rewrite findall_words_lower. apply Forall_forall. intros w Hw.
  apply in_map_iff in Hw. destruct Hw as [v [Hv _]]. subst w. apply lower_not_upper.
Qed.

(** X7.  The filler list is compared as it is written, while the tokens are
    lower-cased: an entry that holds a capital letter equals no token of
    any transcription and is never counted.  With the entry or without it,
    [_analyze_fillers] returns the same metrics. *)
Theorem capitalised_filler_never_counts (self : SpeechAnalyzer.t) (entry text : string) :
  has_upper entry = true ->
  ~ In entry (findall_words (lower text))
  /\ _analyze_fillers self text
     = _analyze_fillers
         (with_filler_words self (remove string_dec entry (filler_words self)))
         text.
Proof.
  intros Hentry.
  assert (Hall : Forall (fun w => w <> entry) (findall_words (lower text))).
  { rewrite findall_words_lower. apply Forall_forall. intros w Hw E.
    apply in_map_iff in Hw. destruct Hw as [v [Hv _]].
    rewrite <- E, <- Hv, lower_not_upper in Hentry. discriminate. }
  split.
  - intros Hin. rewrite Forall_forall in Hall. exact (Hall entry Hin eq_refl).
  - unfold _analyze_fillers, with_filler_words, update_settings, override.
    cbn [fst filler_words thresholds set_filler_words set_thresholds].
    rewrite (count_fillers_without entry (filler_words self) _ Hall). reflexivity.
Qed.

Lemma capitalised_filler_never_counts_witness :
  ~ In "Um"%string (findall_words (lower "Um, it works. Um, mostly"))
  /\ _analyze_fillers (with_filler_words Samples.analyzer ["Um"; "so"]%string)
       "Um, it works. Um, mostly"
     = _analyze_fillers
         (with_filler_words (with_filler_words Samples.analyzer ["Um"; "so"]%string)
            (remove string_dec "Um"%string
               (filler_words (with_filler_words Samples.analyzer ["Um"; "so"]%string))))
         "Um, it works. Um, mostly".
Proof.
  apply (capitalised_filler_never_counts
           (with_filler_words Samples.analyzer ["Um"; "so"]%string) "Um"
           "Um, it works. Um, mostly").
  reflexivity.
Defined.

(** ** What the filler loop counts *)

Lemma existsb_eqb_In (w : string) (l : list string) :
  existsb (String.eqb w) l = true <-> In w l.
Proof.
  rewrite existsb_exists. split.
  - intros [x [Hx E]]. apply String.eqb_eq in E. subst x. exact Hx.
  - intros H. exists w. split; [exact H | apply String.eqb_refl].
Qed.

Lemma count_fillers_from_spec (fw words : list string) : forall acc : Z * list string,
  NoDup (snd acc) ->
  let out :=
    fold_left
      (fun (acc : Z * list string) (word : string) =>
         if existsb (String.eqb word) fw
         then (fst acc + 1,
               if existsb (String.eqb word) (snd acc) then snd acc
               else snd acc ++ [word])
         else acc)
      words acc in
  fst out = fst acc + len (filter (fun w => existsb (String.eqb w) fw) words)
  /\ NoDup (snd out)
  /\ (forall w, In w (snd out) <-> In w (snd acc) \/ (In w fw /\ In w words)).
Proof.
  induction words as [ | x ws IH]; intros acc Hnd; cbn zeta; cbn [fold_left filter].
  - repeat split; [unfold len; cbn; lia | exact Hnd | tauto | cbn [In]; tauto].
  - destruct (existsb (String.eqb x) fw) eqn:Hx.
    + apply existsb_eqb_In in Hx.
      match goal with |- context [fold_left _ ws ?a] => specialize (IH a) end.
      cbn [fst snd] in IH.
      destruct (existsb (String.eqb x) (snd acc)) eqn:Hs.
      * apply existsb_eqb_In in Hs. destruct (IH Hnd) as [H1 [H2 H3]].
        repeat split; [ | exact H2 | | ].
        -- rewrite H1. unfold len. cbn [List.length]. lia.
        -- intros H. apply H3 in H. cbn [In]. tauto.
        -- intros H. apply H3. cbn [In] in H.
           destruct H as [H | [Hf [E | Hw]]]; auto. subst w. auto.
      * assert (Hn : ~ In x (snd acc)).
        { intros Hin. apply existsb_eqb_In in Hin. congruence. }
        assert (Hnd' : NoDup (snd acc ++ [x])).
        { apply NoDup_app; [exact Hnd | repeat constructor; cbn; tauto | ].
          intros a Ha [E | []]. subst a. contradiction. }
        destruct (IH Hnd') as [H1 [H2 H3]].
        repeat split; [ | exact H2 | | ].
        -- rewrite H1. unfold len. cbn [List.length]. lia.
        -- intros H. apply H3 in H. rewrite in_app_iff in H. cbn [In] in *.
           destruct H as [[H | [E | []]] | H]; auto; [subst w; auto | tauto].
        -- intros H. apply H3. rewrite in_app_iff. cbn [In] in *.
           destruct H as [H | [Hf [E | Hw]]]; auto.
    + destruct (IH acc Hnd) as [H1 [H2 H3]].
      repeat split; [exact H1 | exact H2 | | ].
      * intros H. apply H3 in H. cbn [In]. tauto.
      * intros H. apply H3. cbn [In] in H.
        destruct H as [H | [Hf [E | Hw]]]; auto. subst w.
        apply existsb_eqb_In in Hf. congruence.
Qed.

Lemma count_fillers_spec (fw words : list string) :
  fst (count_fillers fw words)
  = len (filter (fun w => existsb (String.eqb w) fw) words)
  /\ NoDup (snd (count_fillers fw words))
  /\ (forall w, In w (snd (count_fillers fw words)) <-> In w fw /\ In w words).
Proof.
  destruct (count_fillers_from_spec fw words (0, []) (NoDup_nil _)) as [H1 [H2 H3]].
  cbn [fst snd] in *. unfold count_fillers.
  split; [rewrite H1; lia | ]. split; [exact H2 | ].
  intros w. rewrite H3. cbn [In]. tauto.
Qed.

Lemma filter_none_iff {A : Type} (f : A -> bool) (l : list A) :
  len (filter f l) = 0 <-> forall x, In x l -> f x = false.
Proof.
  rewrite len_zero_iff. induction l as [ | a l IH]; cbn [filter].
  - split; [intros _ x [] | reflexivity].
  - destruct (f a) eqn:Ha; split.
    + discriminate.
    + intros H. specialize (H a (or_introl eq_refl)). congruence.
    + intros H x [E | Hx]; [subst; exact Ha | apply IH; assumption].
    + intros H. apply IH. intros x Hx. apply H. right. exact Hx.
Qed.

(** X8.  For a transcription of at most 1000 words, [_analyze_fillers]
    counts exactly the tokens of the lower-cased text that are in the filler
    list, each occurrence once; the types it reports are distinct and are
    exactly the filler words that occur; the count is 0 exactly when no type
    is reported. *)
Theorem filler_count_and_types (self : SpeechAnalyzer.t) (text : string) :
  len (findall_words (lower text)) <= 1000 ->
  let words := findall_words (lower text) in
  let r := _analyze_fillers self text in
  count r = len (filter (fun w => existsb (String.eqb w) (filler_words self)) words)
  /\ NoDup (types r)
  /\ (forall w, In w (types r) <-> In w (filler_words self) /\ In w words)
  /\ (count r = 0 <-> types r = []).
Proof.
  intros Hn words r.
  destruct (Z.eq_dec (len words) 0) as [E0 | E0].
  - assert (Hw : words = []) by (apply len_zero_iff; exact E0).
    assert (Hr : r = {| count := 0; ratio := 0; types := []; f_score := 100 |}).
    { subst r. unfold _analyze_fillers. fold words. rewrite E0.
      destruct ((text =? "")%string); reflexivity. }
    rewrite Hr, Hw. cbn. repeat split; try tauto. constructor.
  - destruct (analyze_fillers_counted self text) as [p [_ Hr]].
    { unfold words in E0. unfold len in *. lia. }
    fold words r in Hr. rewrite Hr. cbn [count types].
    destruct (count_fillers_spec (filler_words self) words) as [H1 [H2 H3]].
    split; [exact H1 | ]. split; [exact H2 | ]. split; [exact H3 | ]. split.
    + intros H. rewrite H1 in H.
      destruct (snd (count_fillers (filler_words self) words)) as [ | w ws] eqn:Hs;
        [reflexivity | ].
      exfalso. destruct (H3 w) as [H4 _]. specialize (H4 (or_introl eq_refl)).
      destruct H4 as [Hf Hin].
      pose proof (proj1 (filter_none_iff _ _) H w Hin) as Hx. cbn beta in Hx.
      apply existsb_eqb_In in Hf. congruence.
    + intros H. rewrite H1. apply filter_none_iff. intros x Hx.
      destruct (existsb (String.eqb x) (filler_words self)) eqn:Hf; [ | reflexivity].
      exfalso. apply existsb_eqb_In in Hf.
      destruct (H3 x) as [_ H4]. specialize (H4 (conj Hf Hx)). rewrite H in H4.
      exact H4.
Qed.

Lemma filler_count_and_types_witness :
  let words := findall_words (lower "Um, so we shipped. So what?") in
  let r := _analyze_fillers Samples.analyzer "Um, so we shipped. So what?" in
  count r
  = len (filter (fun w => existsb (String.eqb w) (filler_words Samples.analyzer)) words)
  /\ NoDup (types r)
  /\ (forall w, In w (types r) <-> In w (filler_words Samples.analyzer) /\ In w words)
  /\ (count r = 0 <-> types r = []).
Proof.
  apply (filler_count_and_types Samples.analyzer "Um, so we shipped. So what?").
  vm_compute. discriminate.
Defined.

(** ** The range of the filler score *)

(** Checked on every word count up to 1000: with no filler the penalty
    formula gives 100. *)
Lemma no_filler_penalties :
  forallb (fun j =>
             match penalty63 (100 - Z2F 0 / Z2F (Z.of_nat j) * 1000)%float with
             | Some u => (u =? 100)%uint63
             | None => false
             end)
          (seq 1 1000) = true.
Proof. vm_compute. reflexivity. Qed.

Lemma filler_penalty_none n : 0 < n <= 1000 -> filler_penalty 0 n = Ok 100.
Proof.
  intros Hn.
  assert (Hj : In (Z.to_nat n) (seq 1 1000)) by (apply in_seq; lia).
  pose proof (proj1 (forallb_forall _ _) no_filler_penalties (Z.to_nat n) Hj) as H.
  cbn beta in H. rewrite Z2Nat.id in H by lia.
  destruct (penalty63 (100 - Z2F 0 / Z2F n * 1000)%float) as [u | ] eqn:Hu;
    [ | discriminate].
  apply Uint63.eqb_spec in H. subst u.
  apply penalty63_spec in Hu. destruct Hu as [v [Hv Hmax]].
  unfold filler_penalty, bind. rewrite Hv. rewrite Hmax. reflexivity.
Qed.

Lemma filler_penalty_range k n :
  0 <= k <= n -> 0 < n <= 1000 ->
  exists p, filler_penalty k n = Ok p /\ 0 <= p <= 100.
Proof.
  intros Hk Hn. destruct (Z.eq_dec k 0) as [E | E].
  - subst k. exists 100. split; [apply filler_penalty_none; exact Hn | lia].
  - destruct (filler_penalty_mono 0 k n) as [a [b [Ha [Hb Hab]]]]; try lia.
    rewrite (filler_penalty_none n Hn) in Hb. inversion Hb; subst b.
    exists a. split; [exact Ha | ]. split; [ | exact Hab].
    unfold filler_penalty, bind in Ha.
    destruct (py_int _) as [v | ]; inversion Ha. lia.
Qed.

(** X9.  For a transcription of at most 1000 words the filler score is an
    integer between 0 and 100, and it is 100 whenever no filler was counted,
    whatever the threshold is. *)
Theorem filler_score_range (self : SpeechAnalyzer.t) (text : string) :
  len (findall_words (lower text)) <= 1000 ->
  0 <= f_score (_analyze_fillers self text) <= 100
  /\ (count (_analyze_fillers self text) = 0 ->
      f_score (_analyze_fillers self text) = 100).
Proof.
  intros Hn.
  destruct (Z.eq_dec (len (findall_words (lower text))) 0) as [E0 | E0].
  - assert (Hr : _analyze_fillers self text
                 = {| count := 0; ratio := 0; types := []; f_score := 100 |}).
    { unfold _analyze_fillers. rewrite E0.
      destruct ((text =? "")%string); reflexivity. }
    rewrite Hr. cbn. split; [lia | reflexivity].
  - assert (Hpos : 0 < len (findall_words (lower text)) <= 1000)
      by (unfold len in *; lia).
    destruct (analyze_fillers_counted self text Hpos) as [p [Hp Hr]].
    pose proof (count_fillers_bounds (filler_words self) (findall_words (lower text)))
      as Hk.
    destruct (filler_penalty_range _ _ Hk Hpos) as [q [Hq Hrange]].
    rewrite Hq in Hp. inversion Hp; subst q.
    rewrite Hr. cbn [f_score count]. split.
    + destruct (_ <=? _)%float; lia.
    + intros H0. rewrite H0 in Hq.
      rewrite (filler_penalty_none _ Hpos) in Hq. inversion Hq; subst p.
      destruct (_ <=? _)%float; reflexivity.
Qed.

Lemma filler_score_range_witness :
  0 <= f_score (_analyze_fillers Samples.analyzer "well it is basically done") <= 100
  /\ (count (_analyze_fillers Samples.analyzer "well it is basically done") = 0 ->
      f_score (_analyze_fillers Samples.analyzer "well it is basically done") = 100).
Proof.
  apply (filler_score_range Samples.analyzer "well it is basically done").
  vm_compute. discriminate.
Defined.

(** ** Stripping and splitting *)

Lemma string_app_empty (s : string) : (s ++ "")%string = s.
Proof. induction s as [ | c s IH]; cbn; [ | rewrite IH]; reflexivity. Qed.

Lemma string_app_assoc (a b c : string) : ((a ++ b) ++ c)%string = (a ++ (b ++ c))%string.
Proof. induction a as [ | x a IH]; cbn; [ | rewrite IH]; reflexivity. Qed.

Lemma string_rev_app (a b : string) :
  string_rev (a ++ b) = (string_rev b ++ string_rev a)%string.
Proof.
  induction a as [ | c a IH]; cbn [append string_rev].
  - rewrite string_app_empty. reflexivity.
  - rewrite IH, string_app_assoc. reflexivity.
Qed.

Lemma string_rev_involutive (s : string) : string_rev (string_rev s) = s.
Proof.
  induction s as [ | c s IH]; [reflexivity | ].
  cbn [string_rev]. rewrite string_rev_app, IH. reflexivity.
Qed.

Lemma lstrip_clean (s : string) : starts_clean (lstrip s) = true.
Proof.
  induction s as [ | c s IH]; [reflexivity | ].
  cbn [lstrip]. destruct (is_space c) eqn:Hc; [exact IH | ].
  cbn [starts_clean]. rewrite Hc. reflexivity.
Qed.

Lemma lstrip_fixed (s : string) : starts_clean s = true -> lstrip s = s.
Proof.
  destruct s as [ | c s]; [reflexivity | ].
  cbn [starts_clean lstrip]. destruct (is_space c); [discriminate | reflexivity].
Qed.

Lemma lstrip_suffix (s : string) : exists p, s = (p ++ lstrip s)%string.
Proof.
  induction s as [ | c s [p IH]]; [exists EmptyString; reflexivity | ].
  cbn [lstrip]. destruct (is_space c).
  - exists (String c p). cbn [append]. rewrite <- IH. reflexivity.
  - exists EmptyString. reflexivity.
Qed.

Lemma starts_clean_prefix (a b : string) :
  starts_clean (a ++ b) = true -> a <> EmptyString \/ b = EmptyString ->
  starts_clean a = true.
Proof.
  destruct a as [ | c a]; [reflexivity | ]. cbn. auto.
Qed.

(** A stripped string begins and ends with a character that is not
    whitespace, or is empty. *)
Lemma strip_clean (s : string) :
  starts_clean (strip s) = true /\ starts_clean (string_rev (strip s)) = true.
Proof.
  unfold strip. rewrite string_rev_involutive. split; [ | apply lstrip_clean].
  destruct (lstrip_suffix (string_rev (lstrip s))) as [p Hp].
  set (b := lstrip (string_rev (lstrip s))) in *.
  assert (Ha : lstrip s = (string_rev b ++ string_rev p)%string).
  { rewrite <- string_rev_app, <- Hp, string_rev_involutive. reflexivity. }
  pose proof (lstrip_clean s) as Hc. rewrite Ha in Hc.
  destruct (string_rev b) as [ | c rb] eqn:Hb; [reflexivity | ].
  cbn in Hc. exact Hc.
Qed.

Lemma strip_fixed (s : string) :
  starts_clean s = true -> starts_clean (string_rev s) = true -> strip s = s.
Proof.
  intros H1 H2. unfold strip.
  rewrite (lstrip_fixed s H1), (lstrip_fixed _ H2). apply string_rev_involutive.
Qed.

Lemma strip_idempotent (s : string) : strip (strip s) = strip s.
Proof. destruct (strip_clean s) as [H1 H2]. apply strip_fixed; assumption. Qed.

Lemma has_newline_app (a b : string) :
  has_newline (a ++ b) = has_newline a || has_newline b.
Proof.
  induction a as [ | c a IH]; [reflexivity | ].
  cbn [append has_newline]. rewrite IH, orb_assoc. reflexivity.
Qed.

Lemma has_newline_rev (s : string) : has_newline (string_rev s) = has_newline s.
Proof.
  induction s as [ | c s IH]; [reflexivity | ].
  cbn [string_rev has_newline]. rewrite has_newline_app, IH. cbn [has_newline].
  rewrite orb_false_r. apply orb_comm.
Qed.

Lemma has_newline_lstrip (s : string) :
  has_newline s = false -> has_newline (lstrip s) = false.
Proof.
  intros H. destruct (lstrip_suffix s) as [p Hp]. rewrite Hp in H.
  rewrite has_newline_app in H. apply orb_false_elim in H. tauto.
Qed.

Lemma has_newline_strip (s : string) :
  has_newline s = false -> has_newline (strip s) = false.
Proof.
  intros H. unfold strip. rewrite has_newline_rev. apply has_newline_lstrip.
  rewrite has_newline_rev. apply has_newline_lstrip. exact H.
Qed.

Lemma split_lines_from_single (s : string) : forall cur,
  has_newline cur = false ->
  Forall (fun line => has_newline line = false) (split_lines_from cur s).
Proof.
  induction s as [ | c s IH]; intros cur Hcur; cbn [split_lines_from].
  - constructor; [exact Hcur | constructor].
  - destruct (Nat.eqb (nat_of_ascii c) 10) eqn:Hc.
    + constructor; [exact Hcur | ]. apply IH. reflexivity.
    + apply IH. rewrite has_newline_app, Hcur. cbn [has_newline].
      rewrite Hc. reflexivity.
Qed.

Lemma first_text_line_choice (lines : list string) :
  first_text_line lines = EmptyString
  \/ exists line,
       In line lines
       /\ line <> EmptyString
       /\ prefix "[" line = false
       /\ prefix "whisper_" line = false
       /\ first_text_line lines = strip line.
Proof.
  induction lines as [ | l lines IH]; [left; reflexivity | ].
  cbn [first_text_line].
  destruct (String.eqb_spec l EmptyString) as [E | E]; cbn [negb andb].
  - destruct IH as [IH | [line [H1 H2]]]; [left; exact IH | ].
    right. exists line. split; [right; exact H1 | exact H2].
  - destruct (prefix "[" l) eqn:P1; cbn [negb andb].
    + destruct IH as [IH | [line [H1 H2]]]; [left; exact IH | ].
      right. exists line. split; [right; exact H1 | exact H2].
    + destruct (prefix "whisper_" l) eqn:P2; cbn [negb].
      * destruct IH as [IH | [line [H1 H2]]]; [left; exact IH | ].
        right. exists line. split; [right; exact H1 | exact H2].
      * right. exists l. repeat split; auto. left. reflexivity.
Qed.

(** The text [_transcribe_audio] returns is empty or a stripped line. *)
Lemma transcribed_text_shape (self : SpeechAnalyzer.t) (ext : externals)
    (w : world) (audio_data : list Z) (sample_rate : Z) :
  fst (_transcribe_audio self ext w audio_data sample_rate) = EmptyString
  \/ exists line,
       has_newline line = false
       /\ fst (_transcribe_audio self ext w audio_data sample_rate) = strip line.
Proof.
  unfold _transcribe_audio.
  destruct (negb _ || negb _); [left; reflexivity | ].
  destruct (wave_write _ _); [ | left; reflexivity].
  destruct (subprocess_run _ _ _) as [rc out err | | msg];
    try (left; reflexivity).
  destruct (rc =? 0); [ | left; reflexivity]. cbn [fst].
  destruct (first_text_line_choice (split_lines (strip out)))
    as [E | [line [Hin [_ [_ [_ E]]]]]]; [left; exact E | ].
  right. exists line. split; [ | exact E].
  pose proof (split_lines_from_single (strip out) EmptyString eq_refl) as Hall.
  rewrite Forall_forall in Hall. apply Hall. exact Hin.
Qed.

Lemma transcribed_text_trimmed (self : SpeechAnalyzer.t) (ext : externals)
    (w : world) (audio_data : list Z) (sample_rate : Z) :
  strip (fst (_transcribe_audio self ext w audio_data sample_rate))
  = fst (_transcribe_audio self ext w audio_data sample_rate).
Proof.
  destruct (transcribed_text_shape self ext w audio_data sample_rate)
    as [H | [line [_ H]]]; rewrite H; [reflexivity | apply strip_idempotent].
Qed.

(** X10.  Whatever the engine prints, the text [_transcribe_audio] returns is
    a single line without surrounding whitespace: it holds no newline,
    stripping it again changes nothing, and it neither begins nor ends with
    a whitespace character. *)
Theorem transcript_is_one_trimmed_line (self : SpeechAnalyzer.t) (ext : externals)
    (w : world) (audio_data : list Z) (sample_rate : Z) :
  let text := fst (_transcribe_audio self ext w audio_data sample_rate) in
  has_newline text = false
  /\ strip text = text
  /\ starts_clean text = true
  /\ starts_clean (string_rev text) = true.
Proof.
  intros text. subst text.
  destruct (transcribed_text_shape self ext w audio_data sample_rate)
    as [H | [line [Hl H]]]; rewrite H.
  - repeat split.
  - destruct (strip_clean line) as [H1 H2].
    split; [apply has_newline_strip; exact Hl | ].
    split; [apply strip_idempotent | ]. split; assumption.
Qed.

(** ** The temporary file *)




(** ** Short windows *)





(** ** Settings *)

(** X13.  [update_settings] is idempotent, settings with neither key change
    nothing, and of two updates the later one wins on the keys it names:
    a second update that names the filler list and all four thresholds makes
    the first one irrelevant.  The two engine paths are never touched. *)
Theorem update_settings_composes (self : SpeechAnalyzer.t) (s s2 : settings)
    (pv sr : float * float) (vc ft : float) (fw : list string) :
  let full :=
    {| set_thresholds :=
         Some {| new_pitch_variance_good := Some pv;
                 new_speaking_rate_good := Some sr;
                 new_volume_consistency_good := Some vc;
                 new_filler_words_threshold := Some ft |};
       set_filler_words := Some fw;
       set_weights := set_weights s2;
       set_speaking_rate_range := set_speaking_rate_range s2;
       set_filler_threshold := set_filler_threshold s2;
       set_volume_consistency := set_volume_consistency s2 |} in
  let bare :=
    {| set_thresholds := None;
       set_filler_words := None;
       set_weights := set_weights s2;
       set_speaking_rate_range := set_speaking_rate_range s2;
       set_filler_threshold := set_filler_threshold s2;
       set_volume_consistency := set_volume_consistency s2 |} in
  fst (update_settings (fst (update_settings self s)) s) = fst (update_settings self s)
  /\ fst (update_settings self bare) = self
  /\ fst (update_settings (fst (update_settings self s)) full)
     = fst (update_settings self full)
  /\ whisper_cli_path (fst (update_settings self s)) = whisper_cli_path self
  /\ whisper_model_path (fst (update_settings self s)) = whisper_model_path self.
Proof.
  intros full bare. destruct self as [model cli th fws], s as [st sf sw srr sft svc].
  unfold update_settings, thresholds_update, override. cbn.
  repeat split.
  - destruct st as [[a b c d] | ], sf; cbn; try reflexivity;
      destruct a, b, c, d, th; reflexivity.
Qed.

(** ** Audio sources *)

Lemma dict_has_set {V : Type} (k k' : string) (v : V) (d : list (string * V)) :
  dict_has k (dict_set k' v d) = (k' =? k)%string || dict_has k d.
Proof.
  unfold dict_has. induction d as [ | [a x] d IH]; cbn [dict_set existsb fst].
  - reflexivity.
  - destruct (String.eqb_spec a k') as [E | E]; cbn [existsb fst].
    + subst a. destruct ((k' =? k)%string); reflexivity.
    + rewrite IH. destruct ((a =? k)%string), ((k' =? k)%string); reflexivity.
Qed.

Lemma dict_set_in {V : Type} (k k' : string) (v v' : V) (d : list (string * V)) :
  In (k, v) (dict_set k' v' d) -> (k = k' /\ v = v') \/ In (k, v) d.
Proof.
  induction d as [ | [a x] d IH]; cbn [dict_set].
  - intros [E | []]. inversion E. auto.
  - destruct ((a =? k')%string); cbn [In].
    + intros [E | H]; [inversion E; auto | auto].
    + intros [E | H]; [auto | ]. destruct (IH H); auto.
Qed.

Lemma dict_has_in {V : Type} (k : string) (d : list (string * V)) :
  dict_has k d = true <-> exists v, In (k, v) d.
Proof.
  unfold dict_has. rewrite existsb_exists. split.
  - intros [[a v] [Hin E]]. cbn in E. apply String.eqb_eq in E. subst a.
    exists v. exact Hin.
  - intros [v Hin]. exists (k, v). split; [exact Hin | apply String.eqb_refl].
Qed.

Lemma listing_fold (f : AudioControl.source_t -> bool) (ty : AudioControl.source_type)
    (l : list AudioControl.source_t) :
  (forall s, f s = true ->
     (ty = AudioControl.monitor <-> str_contains "monitor" (AudioControl.name s) = true)) ->
  forall d,
    typed_by_name d ->
    let out :=
      fold_left
        (fun sources source =>
           if f source
           then dict_set (AudioControl.name source) (AudioControl.info_of ty source) sources
           else sources)
        l d in
    typed_by_name out
    /\ forall k, dict_has k out
                 = dict_has k d
                   || existsb (fun s => f s && (AudioControl.name s =? k)%string) l.
Proof.
  intros Hf. induction l as [ | s l IH]; intros d Hd; cbn zeta; cbn [fold_left existsb].
  - split; [exact Hd | ]. intros k. rewrite orb_false_r. reflexivity.
  - destruct (f s) eqn:Hs.
    + assert (Hd' : typed_by_name
                      (dict_set (AudioControl.name s) (AudioControl.info_of ty s) d)).
      { intros k v Hin. apply dict_set_in in Hin. destruct Hin as [[E1 E2] | Hin].
        - subst k v. cbn. apply Hf. exact Hs.
        - apply Hd. exact Hin. }
      destruct (IH _ Hd') as [H1 H2]. split; [exact H1 | ].
      intros k. rewrite H2, dict_has_set. cbn [andb].
      destruct ((AudioControl.name s =? k)%string), (dict_has k d); reflexivity.
    + destruct (IH _ Hd) as [H1 H2]. split; [exact H1 | ].
      intros k. rewrite H2. reflexivity.
Qed.

Lemma existsb_named_monitor (k : string) (l : list AudioControl.source_t) :
  str_contains "monitor" k = true ->
  existsb (fun s => str_contains "monitor" (AudioControl.name s)
                    && (AudioControl.name s =? k)%string) l
  = existsb (fun s => (AudioControl.name s =? k)%string) l.
Proof.
  intros Hk. induction l as [ | s l IH]; [reflexivity | ].
  cbn [existsb]. rewrite IH.
  destruct (String.eqb_spec (AudioControl.name s) k) as [E | E].
  - rewrite E, Hk. reflexivity.
  - rewrite andb_false_r. reflexivity.
Qed.

(** What [get_available_sources] holds when both listings succeed. *)
Lemma available_sources_spec (p : AudioControl.pulse_t)
    (listed listed2 : list AudioControl.source_t) :
  AudioControl.first_listing p = Ok listed ->
  AudioControl.second_listing p = Ok listed2 ->
  typed_by_name (AudioControl.get_available_sources (Some p))
  /\ forall k, str_contains "monitor" k = true ->
       dict_has k (AudioControl.get_available_sources (Some p))
       = existsb (fun s => (AudioControl.name s =? k)%string) listed.
Proof.
  intros H1 H2. unfold AudioControl.get_available_sources. rewrite H1, H2.
  assert (F1 : forall s, str_contains "monitor" (AudioControl.name s) = true ->
                 (AudioControl.monitor = AudioControl.monitor
                  <-> str_contains "monitor" (AudioControl.name s) = true))
    by (intros s Hs; tauto).
  assert (D0 : typed_by_name []) by (intros k v []).
  pose proof (listing_fold _ _ listed F1 [] D0) as [T1 K1].
  assert (F2 : forall s, negb (str_contains "monitor" (AudioControl.name s)) = true ->
                 (AudioControl.input = AudioControl.monitor
                  <-> str_contains "monitor" (AudioControl.name s) = true)).
  { intros s Hs. apply negb_true_iff in Hs. rewrite Hs. split; discriminate. }
  pose proof (listing_fold _ _ listed2 F2 _ T1) as [T2 K2].
  cbv zeta in T2, K2. split; [exact T2 | ].
  intros k Hk. rewrite K2, K1. cbn [dict_has existsb orb].
  assert (E2 : existsb
                 (fun s => negb (str_contains "monitor" (AudioControl.name s))
                           && (AudioControl.name s =? k)%string) listed2 = false).
  { apply not_true_is_false. intros H. apply existsb_exists in H.
    destruct H as [s [_ H]]. apply andb_prop in H. destruct H as [Ha Hb].
    apply String.eqb_eq in Hb. rewrite Hb, Hk in Ha. discriminate. }
  rewrite E2, orb_false_r. apply existsb_named_monitor. exact Hk.
Qed.

Lemma monitor_names_hold_monitor (n : string) :
  In n AudioControl.monitor_names -> str_contains "monitor" n = true.
Proof.
  intros [E | [E | [E | []]]]; subst n; vm_compute; reflexivity.
Qed.

Lemma find_agrees {A : Type} (f g : A -> bool) (l : list A) :
  (forall x, In x l -> f x = g x) -> find f l = find g l.
Proof.
  induction l as [ | a l IH]; intros H; [reflexivity | ].
  cbn [find]. rewrite (H a (or_introl eq_refl)).
  destruct (g a); [reflexivity | ]. apply IH. intros x Hx. apply H. right. exact Hx.
Qed.

(** X14.  With a sound server whose listings succeed,
    [get_default_monitor_source] returns a well-known monitor name when one
    is listed (the first of the three in the order of the code), otherwise
    some listed source whose name holds "monitor"; it returns [None] exactly
    when no listed source is a monitor.  Without a server there is no
    source. *)
Theorem default_source_is_a_listed_monitor (p : AudioControl.pulse_t)
    (listed listed2 : list AudioControl.source_t) :
  AudioControl.first_listing p = Ok listed ->
  AudioControl.second_listing p = Ok listed2 ->
  let listed_as := fun n => existsb (fun s => (AudioControl.name s =? n)%string) listed in
  match AudioControl.get_default_monitor_source (Some p) with
  | Some n => str_contains "monitor" n = true /\ listed_as n = true
  | None => forall s, In s listed -> str_contains "monitor" (AudioControl.name s) = false
  end
  /\ match find listed_as AudioControl.monitor_names with
     | Some n => AudioControl.get_default_monitor_source (Some p) = Some n
     | None => True
     end
  /\ AudioControl.get_default_monitor_source None = None.
Proof.
  intros H1 H2 listed_as.
  destruct (available_sources_spec p listed listed2 H1 H2) as [T K].
  assert (Hfind : find (fun n => dict_has n (AudioControl.get_available_sources (Some p)))
                       AudioControl.monitor_names
                  = find listed_as AudioControl.monitor_names).
  { apply find_agrees. intros n Hn. apply K. apply monitor_names_hold_monitor. exact Hn. }
  unfold AudioControl.get_default_monitor_source. rewrite Hfind.
  split; [ | split; [ | reflexivity]].
  - destruct (find listed_as AudioControl.monitor_names) as [n | ] eqn:Hn.
    + apply find_some in Hn. destruct Hn as [Hin Hl].
      split; [apply monitor_names_hold_monitor; exact Hin | exact Hl].
    + destruct (find _ (AudioControl.get_available_sources (Some p))) as [[n v] | ] eqn:Hv.
      * apply find_some in Hv. destruct Hv as [Hin Hty]. cbn [snd] in Hty.
        assert (Hm : str_contains "monitor" n = true).
        { apply (T n v Hin). destruct (AudioControl.info_type v);
            [reflexivity | discriminate]. }
        split; [exact Hm | ]. unfold listed_as. rewrite <- (K n Hm).
        apply dict_has_in. exists v. exact Hin.
      * intros s Hs. apply not_true_is_false. intros Hm.
        assert (Hhas : dict_has (AudioControl.name s)
                         (AudioControl.get_available_sources (Some p)) = true).
        { rewrite (K _ Hm). apply existsb_exists. exists s.
          split; [exact Hs | apply String.eqb_refl]. }
        apply dict_has_in in Hhas. destruct Hhas as [v Hin].
        pose proof (find_none _ _ Hv _ Hin) as Hf. cbn [snd] in Hf.
        destruct (T _ _ Hin) as [_ Hty]. rewrite (Hty Hm) in Hf. discriminate.
  - destruct (find listed_as AudioControl.monitor_names); [reflexivity | exact I].
Qed.

Lemma default_source_is_a_listed_monitor_witness :
  let listed :=
    [{| AudioControl.name := "alsa_input.usb-mic";
        AudioControl.description := "USB microphone"; AudioControl.index := 0 |};
     {| AudioControl.name := "alsa_output.hdmi.monitor";
        AudioControl.description := "Monitor of HDMI"; AudioControl.index := 1 |};
     {| AudioControl.name := "auto_null.monitor";
        AudioControl.description := "Monitor of Dummy Output";
        AudioControl.index := 2 |}]%string in
  let p := {| AudioControl.first_listing := Ok listed;
              AudioControl.second_listing := Ok listed |} in
  let listed_as := fun n => existsb (fun s => (AudioControl.name s =? n)%string) listed in
  match AudioControl.get_default_monitor_source (Some p) with
  | Some n => str_contains "monitor" n = true /\ listed_as n = true
  | None => forall s, In s listed -> str_contains "monitor" (AudioControl.name s) = false
  end
  /\ match find listed_as AudioControl.monitor_names with
     | Some n => AudioControl.get_default_monitor_source (Some p) = Some n
     | None => True
     end
  /\ AudioControl.get_default_monitor_source None = None.
Proof.
  intros listed p.
  apply (default_source_is_a_listed_monitor p listed listed); reflexivity.
Defined.

(** ** The level meter *)

Lemma py_min_capped (x : float) : (1 <? py_min x 1)%float = false.
Proof.
  unfold py_min. destruct (1 <? x)%float eqn:H; [reflexivity | exact H].
Qed.

Lemma lastn_short {A : Type} (k : nat) (l : list A) :
  (List.length l <= k)%nat -> lastn k l = l.
Proof.
  intros H. unfold lastn. replace (List.length l - k)%nat with 0%nat by lia. reflexivity.
Qed.

Lemma lastn_length {A : Type} (k : nat) (l : list A) :
  (k <= List.length l)%nat -> List.length (lastn k l) = k.
Proof. intros H. unfold lastn. rewrite length_skipn. lia. Qed.

Lemma recent_samples_are_the_last (audio_buffer : list Z) :
  (if 1024 <? len audio_buffer then slice_from audio_buffer (-1024) else audio_buffer)
  = lastn 1024 audio_buffer.
Proof.
  destruct (Z.ltb_spec 1024 (len audio_buffer)) as [H | H].
  - unfold slice_from, slice_bound, lastn. cbn [Z.ltb Z.compare].
    f_equal. unfold len in *. lia.
  - symmetry. apply lastn_short. unfold len in H. lia.
Qed.

(** X15.  [get_audio_level] is 0 on an empty buffer, is never above 1, and
    reads only the last 1024 samples of the buffer: the samples before them
    do not influence the level. *)
Theorem audio_level_reads_the_last_frames (audio_buffer : list Z) :
  AudioControl.get_audio_level [] = 0%float
  /\ (1 <? AudioControl.get_audio_level audio_buffer)%float = false
  /\ AudioControl.get_audio_level audio_buffer
     = AudioControl.get_audio_level (lastn 1024 audio_buffer).
Proof.
  split; [reflexivity | ]. split.
  - unfold AudioControl.get_audio_level.
    destruct (len audio_buffer =? 0); [reflexivity | apply py_min_capped].
  - unfold AudioControl.get_audio_level.
    rewrite !recent_samples_are_the_last.
    destruct (Z.eqb_spec (len audio_buffer) 0) as [E | E].
    + apply len_zero_iff in E. subst audio_buffer. reflexivity.
    + destruct (Z.eqb_spec (len (lastn 1024 audio_buffer)) 0) as [E1 | E1].
      * exfalso. apply len_zero_iff in E1.
        destruct (Nat.le_gt_cases (List.length audio_buffer) 1024) as [L | L].
        -- rewrite (lastn_short _ _ L) in E1. subst audio_buffer. apply E. reflexivity.
        -- pose proof (lastn_length 1024 audio_buffer ltac:(lia)) as H.
           rewrite E1 in H. discriminate.
      * destruct (Nat.le_gt_cases (List.length audio_buffer) 1024) as [L | L].
        -- rewrite !(lastn_short _ _ L). reflexivity.
        -- rewrite (lastn_short 1024 (lastn 1024 audio_buffer)); [reflexivity | ].
           rewrite lastn_length by lia. lia.
Qed.

(** Checked on every length up to 1024: the divisor of the mean is positive. *)
Lemma frame_lengths_positive :
  forallb (fun j => (0 <? Z2F (Z.of_nat j))%float) (seq 1 1024) = true.
Proof. vm_compute. reflexivity. Qed.

Lemma silent_samples_as_doubles (samples : list Z) :
  Forall (fun s => s = 0) samples ->
  map Z2F samples = repeat 0%float (List.length samples).
Proof.
  induction 1 as [ | s l Hs _ IH]; [reflexivity | ].
  subst s. cbn [map List.length repeat]. rewrite IH. reflexivity.
Qed.

Lemma Forall_skipn {A : Type} (P : A -> Prop) (k : nat) (l : list A) :
  Forall P l -> Forall P (skipn k l).
Proof.
  intros H. rewrite Forall_forall in *. intros x Hx. apply H.
  rewrite <- (firstn_skipn k l). apply in_or_app. right. exact Hx.
Qed.

(** X16.  On a buffer that holds only zero samples (of any length)
    [get_audio_level] is exactly 0. *)
Theorem silent_buffer_has_level_zero (audio_buffer : list Z) :
  Forall (fun s => s = 0) audio_buffer ->
  AudioControl.get_audio_level audio_buffer = 0%float.
Proof.
  intros Hz. unfold AudioControl.get_audio_level.
  destruct (Z.eqb_spec (len audio_buffer) 0) as [E | E]; [reflexivity | ].
  rewrite recent_samples_are_the_last.
  assert (Hr : Forall (fun s => s = 0) (lastn 1024 audio_buffer))
    by (apply Forall_skipn; exact Hz).
  assert (Hn : (1 <= List.length (lastn 1024 audio_buffer) <= 1024)%nat).
  { destruct (Nat.le_gt_cases (List.length audio_buffer) 1024) as [L | L].
    - rewrite (lastn_short _ _ L). unfold len in E. lia.
    - rewrite lastn_length by lia. lia. }
  rewrite (silent_samples_as_doubles _ Hr), np_square_zeros.
  unfold np_mean. rewrite np_sum_zeros. unfold len. rewrite repeat_length.
  set (n := List.length (lastn 1024 audio_buffer)) in *.
  assert (Hj : In n (seq 1 1024)) by (apply in_seq; lia).
  pose proof (proj1 (forallb_forall _ _) frame_lengths_positive n Hj) as Hpos.
  cbn beta in Hpos. rewrite (zero_div_positive _ Hpos). reflexivity.
Qed.

Lemma silent_buffer_has_level_zero_witness :
  AudioControl.get_audio_level [0; 0; 0; 0; 0; 0] = 0%float.
Proof.
  apply silent_buffer_has_level_zero. repeat constructor.
Defined.

(** ** Starting and stopping the recording *)

(** X17.  [start_recording] does nothing while the manager is recording.
    Otherwise, when it returns normally the manager is recording, the stream
    and the processing thread exist, the buffer is empty and no error was
    signalled; when it raises, exactly the message raised was sent through
    [error_occurred] and no processing thread was started.  A source name
    handed in is never used: any two names give the same outcome. *)
Theorem start_recording_outcomes (b : AudioControl.backend) (source_name : option string)
    (st : AudioControl.state) (n1 n2 : string) :
  let out := AudioControl.start_recording b source_name st in
  (AudioControl.is_recording st = true -> out = (st, Ok tt))
  /\ (AudioControl.is_recording st = false -> snd out = Ok tt ->
      AudioControl.is_recording (fst out) = true
      /\ AudioControl.stream (fst out) = true
      /\ AudioControl.recording_thread (fst out) = true
      /\ AudioControl.audio_buffer (fst out) = []
      /\ AudioControl.errors (fst out) = AudioControl.errors st)
  /\ (forall e, snd out = Raise e ->
      AudioControl.errors (fst out) = AudioControl.errors st ++ [e]
      /\ AudioControl.recording_thread (fst out) = AudioControl.recording_thread st)
  /\ AudioControl.start_recording b (Some n1) st
     = AudioControl.start_recording b (Some n2) st.
Proof.
  intros out. subst out.
  unfold AudioControl.start_recording, AudioControl.start_recording_body,
    AudioControl.initialize_audio_system, AudioControl.report.
  split; [intros H; rewrite H; reflexivity | ].
  split; [ | split].
  - intros H. rewrite H. outcome_cases; cbn; intros R; try discriminate R; auto.
  - intros e. destruct (AudioControl.is_recording st) eqn:H; [discriminate | ].
    outcome_cases; cbn; intros R; inversion R; subst; auto.
  - reflexivity.
Qed.

Lemma start_recording_signals (b : AudioControl.backend) (source_name : option string)
    (st : AudioControl.state) (e : string) :
  snd (AudioControl.start_recording b source_name st) = Raise e ->
  AudioControl.errors (fst (AudioControl.start_recording b source_name st))
  = AudioControl.errors st ++ [e].
Proof.
  unfold AudioControl.start_recording, AudioControl.start_recording_body,
    AudioControl.initialize_audio_system, AudioControl.report.
  destruct (AudioControl.is_recording st) eqn:H; [discriminate | ].
  outcome_cases; cbn; intros R; inversion R; subst; auto.
Qed.

Lemma stop_recording_lowers (b : AudioControl.backend) (st : AudioControl.state) :
  AudioControl.is_recording (AudioControl.stop_recording b st) = false.
Proof.
  unfold AudioControl.stop_recording, AudioControl.report.
  destruct (AudioControl.is_recording st) eqn:H; cbn [negb]; [ | exact H].
  outcome_cases; reflexivity.
Qed.

(** X18.  With the audio system initialised and a monitor source
    available, a stream that opens but fails to start leaves the manager
    flagged as recording: [start_recording] raises, the buffer was cleared,
    no processing thread was started, and every later [start_recording]
    returns normally without doing anything.  [stop_recording] lowers the
    flag again. *)
Theorem failed_stream_start_leaves_the_flag_up (b b2 : AudioControl.backend)
    (st : AudioControl.state) (p : AudioControl.pulse_t) (n e : string)
    (later : option string) :
  AudioControl.is_recording st = false ->
  AudioControl.pyaudio_instance st = true ->
  AudioControl.pulse st = Some p ->
  AudioControl.get_default_monitor_source (Some p) = Some n ->
  AudioControl.open_stream b = Ok tt ->
  AudioControl.start_stream b = Raise e ->
  let st1 := fst (AudioControl.start_recording b None st) in
  snd (AudioControl.start_recording b None st) = Raise e
  /\ AudioControl.is_recording st1 = true
  /\ AudioControl.recording_thread st1 = AudioControl.recording_thread st
  /\ AudioControl.audio_buffer st1 = []
  /\ AudioControl.start_recording b2 later st1 = (st1, Ok tt)
  /\ AudioControl.is_recording (AudioControl.stop_recording b2 st1) = false.
Proof.
  intros Hrec Hpy Hpulse Hsrc Hopen Hstart st1.
  assert (Hout : AudioControl.start_recording b None st
                 = (AudioControl.report e
                      {| AudioControl.pyaudio_instance := true;
                         AudioControl.pulse := Some p;
                         AudioControl.stream := true;
                         AudioControl.is_recording := true;
                         AudioControl.audio_buffer := [];
                         AudioControl.recording_thread := AudioControl.recording_thread st;
                         AudioControl.errors := AudioControl.errors st |}, Raise e)).
  { unfold AudioControl.start_recording, AudioControl.start_recording_body.
    rewrite Hrec, Hpy, Hpulse. cbn [negb orb AudioControl.is_none].
    cbv beta iota zeta. rewrite Hpulse, Hsrc, Hopen, Hstart, Hpy. reflexivity. }
  subst st1. rewrite Hout. cbn [fst snd].
  split; [reflexivity | ]. split; [reflexivity | ]. split; [reflexivity | ].
  split; [reflexivity | ]. split; [reflexivity | apply stop_recording_lowers].
Qed.

Lemma failed_stream_start_leaves_the_flag_up_witness :
  let listed :=
    [{| AudioControl.name := "auto_null.monitor";
        AudioControl.description := "Monitor of Dummy Output";
        AudioControl.index := 0 |}]%string in
  let p := {| AudioControl.first_listing := Ok listed;
              AudioControl.second_listing := Ok listed |} in
  let b := {| AudioControl.new_pyaudio := Ok tt;
              AudioControl.new_pulse := Ok p;
              AudioControl.open_stream := Ok tt;
              AudioControl.start_stream := Raise "Stream closed";
              AudioControl.stop_stream := Ok tt;
              AudioControl.close_stream := Ok tt |} in
  let st := {| AudioControl.pyaudio_instance := true;
               AudioControl.pulse := Some p;
               AudioControl.stream := false;
               AudioControl.is_recording := false;
               AudioControl.audio_buffer := [7; 8; 9];
               AudioControl.recording_thread := false;
               AudioControl.errors := [] |} in
  let st1 := fst (AudioControl.start_recording b None st) in
  snd (AudioControl.start_recording b None st) = Raise "Stream closed"
  /\ AudioControl.is_recording st1 = true
  /\ AudioControl.recording_thread st1 = AudioControl.recording_thread st
  /\ AudioControl.audio_buffer st1 = []
  /\ AudioControl.start_recording b None st1 = (st1, Ok tt)
  /\ AudioControl.is_recording (AudioControl.stop_recording b st1) = false.
Proof.
  intros listed p b st.
  apply (failed_stream_start_leaves_the_flag_up b b st p "auto_null.monitor"
           "Stream closed" None); reflexivity.
Defined.

(** X19.  [stop_recording] never raises and always leaves the manager not
    recording; it keeps the buffered samples, never opens a stream, and
    signals at most one error.  On a manager that is not recording it
    changes nothing; on a recording manager whose stream stops and closes
    it drops the stream and signals nothing. *)
Theorem stop_recording_outcomes (b : AudioControl.backend) (st : AudioControl.state) :
  let st1 := AudioControl.stop_recording b st in
  AudioControl.is_recording st1 = false
  /\ AudioControl.audio_buffer st1 = AudioControl.audio_buffer st
  /\ (AudioControl.stream st1 = true -> AudioControl.stream st = true)
  /\ (AudioControl.errors st1 = AudioControl.errors st
      \/ exists e, AudioControl.errors st1 = AudioControl.errors st ++ [e])
  /\ (AudioControl.is_recording st = false -> st1 = st)
  /\ (AudioControl.is_recording st = true ->
      AudioControl.stop_stream b = Ok tt -> AudioControl.close_stream b = Ok tt ->
      AudioControl.stream st1 = false
      /\ AudioControl.errors st1 = AudioControl.errors st).
Proof.
  intros st1. split; [apply stop_recording_lowers | ]. subst st1.
  unfold AudioControl.stop_recording, AudioControl.report.
  destruct (AudioControl.is_recording st) eqn:Hrec; cbn [negb].
  - destruct (AudioControl.stream st) eqn:Hs.
    + destruct (AudioControl.stop_stream b) as [[] | e1] eqn:H1.
      * destruct (AudioControl.close_stream b) as [[] | e2] eqn:H2; cbn;
          repeat split; auto; try discriminate; eauto.
      * cbn. repeat split; auto; try discriminate; eauto.
    + cbn. repeat split; auto; discriminate.
  - repeat split; auto. discriminate.
Qed.

(** X20.  A click on the record button whose start fails leaves the widget
    showing that it monitors while the window is not recording, and the
    user is shown the error twice: once as the audio system error the
    manager signalled and once as the failure to start.  The next click
    therefore stops instead of trying again: after it the widget, the
    window and the manager are all not recording. *)
Theorem click_after_failed_start_stops (b b2 : AudioControl.backend)
    (widget : RealTimeWidget.t) (window : MainWindow.t) (e : string) :
  RealTimeWidget.is_recording widget = false ->
  snd (AudioControl.start_recording b None (MainWindow.audio_manager window)) = Raise e ->
  let first := MainWindow.toggle_recording b widget window in
  let second := MainWindow.toggle_recording b2 (fst first) (snd first) in
  RealTimeWidget.is_recording (fst first) = true
  /\ MainWindow.is_recording (snd first) = MainWindow.is_recording window
  /\ MainWindow.shown_errors (snd first)
     = MainWindow.shown_errors window
       ++ [("Audio system error: " ++ e)%string;
           ("Could not start recording: " ++ e)%string]
  /\ RealTimeWidget.is_recording (fst second) = false
  /\ MainWindow.is_recording (snd second) = false
  /\ AudioControl.is_recording (MainWindow.audio_manager (snd second)) = false.
Proof.
  intros Hw Hraise first second.
  pose proof (start_recording_signals b None _ e Hraise) as Hsig.
  assert (Hfirst : first
                   = (fst first,
                      {| MainWindow.is_recording := MainWindow.is_recording window;
                         MainWindow.audio_manager :=
                           fst (AudioControl.start_recording b None
                                  (MainWindow.audio_manager window));
                         MainWindow.shown_errors :=
                           MainWindow.shown_errors window
                           ++ [("Audio system error: " ++ e)%string;
                               ("Could not start recording: " ++ e)%string] |})
                   /\ RealTimeWidget.is_recording (fst first) = true).
  { subst first. unfold MainWindow.toggle_recording. rewrite Hw. cbn [fst snd].
    split; [ | reflexivity]. f_equal.
    unfold MainWindow.start_real_time_analysis.
    destruct (AudioControl.start_recording b None (MainWindow.audio_manager window))
      as [manager r] eqn:Hout.
    cbn [fst snd] in Hraise, Hsig. subst r. f_equal.
    unfold MainWindow.signalled. rewrite Hsig.
    rewrite skipn_app, skipn_all, Nat.sub_diag. reflexivity. }
  destruct Hfirst as [Hfirst Hwidget].
  subst second. rewrite Hfirst. cbn [fst snd].
  split; [exact Hwidget | ]. split; [reflexivity | ]. split; [reflexivity | ].
  unfold MainWindow.toggle_recording. rewrite Hwidget. cbn [fst snd].
  split; [reflexivity | ]. split; [reflexivity | ].
  cbn. apply stop_recording_lowers.
Qed.

Lemma click_after_failed_start_stops_witness :
  let b := {| AudioControl.new_pyaudio := Raise "Invalid device";
              AudioControl.new_pulse := Raise "no server";
              AudioControl.open_stream := Ok tt;
              AudioControl.start_stream := Ok tt;
              AudioControl.stop_stream := Ok tt;
              AudioControl.close_stream := Ok tt |} in
  let widget := {| RealTimeWidget.is_recording := false;
                   RealTimeWidget.overall_score := 0;
                   RealTimeWidget.tone_score := 0;
                   RealTimeWidget.clarity_score := 0;
                   RealTimeWidget.volume_score := 0;
                   RealTimeWidget.fluency_score := 0;
                   RealTimeWidget.transcript := [];
                   RealTimeWidget.feedback := None |} in
  let window := {| MainWindow.is_recording := false;
                   MainWindow.audio_manager :=
                     {| AudioControl.pyaudio_instance := false;
                        AudioControl.pulse := None;
                        AudioControl.stream := false;
                        AudioControl.is_recording := false;
                        AudioControl.audio_buffer := [];
                        AudioControl.recording_thread := false;
                        AudioControl.errors := [] |};
                   MainWindow.shown_errors := [] |} in
  let first := MainWindow.toggle_recording b widget window in
  let second := MainWindow.toggle_recording b (fst first) (snd first) in
  RealTimeWidget.is_recording (fst first) = true
  /\ MainWindow.is_recording (snd first) = MainWindow.is_recording window
  /\ MainWindow.shown_errors (snd first)
     = MainWindow.shown_errors window
       ++ [("Audio system error: " ++ "Invalid device")%string;
           ("Could not start recording: " ++ "Invalid device")%string]
  /\ RealTimeWidget.is_recording (fst second) = false
  /\ MainWindow.is_recording (snd second) = false
  /\ AudioControl.is_recording (MainWindow.audio_manager (snd second)) = false.
Proof.
  intros b widget window.
  apply (click_after_failed_start_stops b b widget window "Invalid device"); reflexivity.
Defined.

(** ** Bounded histories *)

Lemma tl_skipn {A : Type} (n : nat) (l : list A) : tl (skipn n l) = skipn (S n) l.
Proof.
  revert l. induction n as [ | n IH]; intros [ | a l]; try reflexivity.
  cbn [skipn]. rewrite IH. destruct l; reflexivity.
Qed.

(** Appending to a full or filling deque keeps the newest [k] elements. *)
Lemma deque_append_lastn {A : Type} (k : nat) (x : A) (l : list A) :
  (0 < k)%nat ->
  deque_append (Z.of_nat k) x (lastn k l) = lastn k (l ++ [x]).
Proof.
  intros Hk. unfold deque_append, len.
  destruct (Nat.le_gt_cases k (List.length l)) as [L | L].
  - rewrite (lastn_length k l L).
    destruct (Z.leb_spec (Z.of_nat k) (Z.of_nat k)) as [_ | F]; [ | lia].
    unfold lastn. rewrite tl_skipn, length_app. cbn [List.length].
    rewrite skipn_app.
    replace (List.length l + 1 - k)%nat with (S (List.length l - k)) by lia.
    replace (S (List.length l - k) - List.length l)%nat with 0%nat by lia.
    reflexivity.
  - rewrite (lastn_short k l) by lia.
    destruct (Z.leb_spec (Z.of_nat k) (Z.of_nat (List.length l))) as [F | _]; [lia | ].
    symmetry. apply lastn_short. rewrite length_app. cbn [List.length]. lia.
Qed.

Lemma deque_append_ten {A : Type} (x : A) (l : list A) :
  deque_append 10 x (lastn 10 l) = lastn 10 (l ++ [x]).
Proof. apply (deque_append_lastn 10 x l). lia. Qed.

Lemma deque_append_hundred {A : Type} (x : A) (l : list A) :
  deque_append 100 x (lastn 100 l) = lastn 100 (l ++ [x]).
Proof. apply (deque_append_lastn 100 x l). lia. Qed.

Lemma add_alerts_lastn (stamp : string) (new : list SpeechAnalyzer.alert)
    (all : list (string * SpeechAnalyzer.alert)) :
  DashboardWidget.add_alerts stamp new (lastn 10 all)
  = lastn 10 (all ++ map (pair stamp) new).
Proof.
  assert (H : forall l,
             fold_left (fun d a => deque_append 10 (stamp, a) d) new (lastn 10 l)
             = lastn 10 (l ++ map (pair stamp) new)).
  { induction new as [ | a new IH]; intros l; cbn [fold_left map].
    - rewrite app_nil_r. reflexivity.
    - rewrite deque_append_ten, IH, <- app_assoc. reflexivity. }
  unfold DashboardWidget.add_alerts. destruct new as [ | a new].
  - cbn [map]. rewrite app_nil_r. reflexivity.
  - apply H.
Qed.

Lemma session_step (points : list (Z * string * SpeechAnalyzer.results))
    (p : Z * string * SpeechAnalyzer.results) :
  DashboardWidget.session (points ++ [p])
  = DashboardWidget.add_data_point (fst (fst p)) (snd (fst p)) (snd p)
      (DashboardWidget.session points).
Proof. unfold DashboardWidget.session. rewrite fold_left_app. reflexivity. Qed.

(** X21.  After any sequence of results handed to [add_data_point] since
    the last [clear_data], the dashboard holds the newest 100 data points in
    order of arrival, the total of the word counts that are above 0, and the
    overall scores that are above 0 in order of arrival: a window with
    overall score 0 (silence, an analysis error) never enters the average. *)
Theorem session_statistics (points : list (Z * string * SpeechAnalyzer.results)) :
  let d := DashboardWidget.session points in
  let results := map snd points in
  DashboardWidget.data_history d
  = lastn 100 (map (fun p => (fst (fst p), snd p)) points)
  /\ (List.length (DashboardWidget.data_history d) <= 100)%nat
  /\ DashboardWidget.total_words d
     = fold_right Z.add 0
         (filter (fun n => 0 <? n) (map DashboardWidget.word_count_of results))
  /\ DashboardWidget.score_history d
     = filter (fun s => 0 <? s)
         (map (fun r => SpeechAnalyzer.overall (SpeechAnalyzer.scores r)) results)
  /\ ~ In 0 (DashboardWidget.score_history d).
Proof.
  cbv zeta.
  assert (H : DashboardWidget.data_history (DashboardWidget.session points)
              = lastn 100 (map (fun p => (fst (fst p), snd p)) points)
              /\ DashboardWidget.total_words (DashboardWidget.session points)
                 = fold_right Z.add 0
                     (filter (fun n => 0 <? n)
                        (map DashboardWidget.word_count_of (map snd points)))
              /\ DashboardWidget.score_history (DashboardWidget.session points)
                 = filter (fun s => 0 <? s)
                     (map (fun r => SpeechAnalyzer.overall (SpeechAnalyzer.scores r))
                        (map snd points))).
  { induction points as [ | p points IH] using rev_ind.
    - repeat split.
    - destruct IH as [H1 [H2 H3]]. rewrite session_step.
      unfold DashboardWidget.add_data_point, DashboardWidget.update_session_stats.
      cbn [DashboardWidget.data_history DashboardWidget.total_words
           DashboardWidget.score_history DashboardWidget.alerts].
      rewrite H1, H2, H3. rewrite !map_app. cbn [map]. rewrite !filter_app.
      cbn [filter]. split; [ | split].
      + apply deque_append_hundred.
      + rewrite fold_right_app.
        destruct (0 <? DashboardWidget.word_count_of (snd p)); cbn [fold_right].
        * generalize (filter (fun n => 0 <? n)
                        (map DashboardWidget.word_count_of (map snd points))).
          intros l. induction l as [ | a l IHl]; cbn [fold_right]; lia.
        * reflexivity.
      + destruct (0 <? SpeechAnalyzer.overall (SpeechAnalyzer.scores (snd p)));
          [reflexivity | rewrite app_nil_r; reflexivity]. }
  destruct H as [H1 [H2 H3]]. split; [exact H1 | ]. split; [ | split; [exact H2 | ]].
  - rewrite H1. unfold lastn. rewrite length_skipn. lia.
  - split; [exact H3 | ]. rewrite H3. intros Hin. apply filter_In in Hin.
    destruct Hin as [_ Hin]. discriminate.
Qed.

(** X22.  The alerts widget holds the newest ten of all the alerts handed
    to the dashboard since the last [clear_data], each under the time stamp
    of its result, and shows them newest first. *)
Theorem alerts_keep_the_ten_newest (points : list (Z * string * SpeechAnalyzer.results)) :
  let d := DashboardWidget.session points in
  let raised :=
    List.concat (map (fun p => map (pair (snd (fst p))) (SpeechAnalyzer.alerts (snd p)))
                     points) in
  DashboardWidget.alerts d = lastn 10 raised
  /\ DashboardWidget.displayed_alerts d = firstn 10 (rev raised)
  /\ (List.length (DashboardWidget.alerts d) <= 10)%nat.
Proof.
  cbv zeta.
  assert (H : DashboardWidget.alerts (DashboardWidget.session points)
              = lastn 10
                  (List.concat
                     (map (fun p => map (pair (snd (fst p)))
                                        (SpeechAnalyzer.alerts (snd p))) points))).
  { induction points as [ | p points IH] using rev_ind; [reflexivity | ].
    rewrite session_step.
    unfold DashboardWidget.add_data_point, DashboardWidget.update_session_stats.
    cbn [DashboardWidget.alerts]. rewrite IH, add_alerts_lastn.
    rewrite map_app, concat_app. cbn [map List.concat]. rewrite app_nil_r.
    reflexivity. }
  split; [exact H | ]. split.
  - unfold DashboardWidget.displayed_alerts. rewrite H. unfold lastn.
    rewrite firstn_rev. reflexivity.
  - rewrite H. unfold lastn. rewrite length_skipn. lia.
Qed.

(** ** The real-time view *)

Lemma analyzed_transcription_trimmed (self : SpeechAnalyzer.t) (ext : externals)
    (now : Z) (w : world) (audio_data : list Z) (sample_rate : Z) :
  strip (transcription (returned (analyze_audio self ext now w audio_data sample_rate)))
  = transcription (returned (analyze_audio self ext now w audio_data sample_rate)).
Proof.
  unfold analyze_audio.
  destruct (py_truediv_int _ _); [ | reflexivity].
  destruct (_has_speech _ _); [ | reflexivity].
  destruct (_calculate_scores _ _); [ | reflexivity].
  cbn [returned transcription]. apply transcribed_text_trimmed.
Qed.

(** X23.  [update_analysis] appends to the transcription display exactly
    the text the analyzer returned, unchanged, and nothing for a window
    without transcription (silence, no engine, an error); each of the five
    scores is shown as the analyzer returned it whenever that score is
    between 0 and 100. *)
Theorem display_appends_the_transcription (self : SpeechAnalyzer.t) (ext : externals)
    (now : Z) (w : world) (audio_data : list Z) (sample_rate : Z)
    (widget : RealTimeWidget.t) :
  let r := returned (analyze_audio self ext now w audio_data sample_rate) in
  let shown := RealTimeWidget.update_analysis r widget in
  RealTimeWidget.transcript shown
  = (if (transcription r =? "")%string then RealTimeWidget.transcript widget
     else RealTimeWidget.transcript widget ++ [transcription r])
  /\ 0 <= RealTimeWidget.overall_score shown <= 100
  /\ (0 <= overall (scores r) <= 100 ->
      RealTimeWidget.overall_score shown = overall (scores r))
  /\ RealTimeWidget.tone_score shown = s_tone (scores r)
  /\ RealTimeWidget.is_recording shown = RealTimeWidget.is_recording widget.
Proof.
  intros r shown. subst shown. unfold RealTimeWidget.update_analysis.
  cbn [RealTimeWidget.transcript RealTimeWidget.overall_score
       RealTimeWidget.tone_score RealTimeWidget.is_recording].
  split; [ | split; [ | split; [ | split]]].
  - unfold RealTimeWidget.add_transcription. subst r.
    rewrite analyzed_transcription_trimmed.
    destruct (String.eqb_spec
                (transcription
                   (returned (analyze_audio self ext now w audio_data sample_rate)))
                EmptyString); reflexivity.
  - unfold RealTimeWidget.update_score. lia.
  - unfold RealTimeWidget.update_score. lia.
  - unfold RealTimeWidget.update_score.
    pose proof (tone_score_values self ext now w audio_data sample_rate) as H.
    fold r in H. cbn [In] in H. lia.
  - reflexivity.
Qed.




(** ** The session clock *)


(** ** The settings form *)

(** Checked on every percentage: saving and loading gives the value back,
    or the value below it for 29, 57 and 58. *)
Lemma percentages_reloaded :
  forallb (fun v =>
             match py_int (Z2F v / 100 * 100)%float with
             | Ok u => u =? SettingsWidget.reloaded v
             | Raise _ => false
             end)
          (Zrange 101) = true.
Proof. vm_compute. reflexivity. Qed.

Lemma percentage_reloaded (v : Z) :
  0 <= v <= 100 -> py_int (Z2F v / 100 * 100)%float = Ok (SettingsWidget.reloaded v).
Proof.
  intros Hv.
  assert (Hin : In v (Zrange 101))
    by (apply In_Zrange; change (Z.of_nat 101) with 101; lia).
  pose proof (proj1 (forallb_forall _ _) percentages_reloaded v Hin) as H.
  cbn beta in H. destruct (py_int (Z2F v / 100 * 100)%float) as [u | ];
    [ | discriminate].
  apply Z.eqb_eq in H. subst u. reflexivity.
Qed.

Lemma reloaded_percent (v : Z) :
  0 <= v <= 100 -> 0 <= SettingsWidget.reloaded v <= 100.
Proof.
  unfold SettingsWidget.reloaded.
  destruct (Z.eqb_spec v 29), (Z.eqb_spec v 57), (Z.eqb_spec v 58); cbn [orb]; lia.
Qed.

Lemma reloaded_upper_half (v : Z) :
  50 <= v <= 100 -> 50 <= SettingsWidget.reloaded v <= 100.
Proof.
  unfold SettingsWidget.reloaded.
  destruct (Z.eqb_spec v 29), (Z.eqb_spec v 57), (Z.eqb_spec v 58); cbn [orb]; lia.
Qed.

Lemma reloaded_small (v : Z) : v <= 20 -> SettingsWidget.reloaded v = v.
Proof.
  unfold SettingsWidget.reloaded.
  destruct (Z.eqb_spec v 29), (Z.eqb_spec v 57), (Z.eqb_spec v 58); cbn [orb]; lia.
Qed.

Lemma set_value_within (lo hi v : Z) :
  -2147483648 <= lo -> hi <= 2147483647 -> lo <= v <= hi ->
  SettingsWidget.set_value lo hi v = Ok v.
Proof.
  intros Hlo Hhi Hv. unfold SettingsWidget.set_value.
  destruct (Z.ltb_spec v (-2147483648)); [lia | ].
  destruct (Z.ltb_spec 2147483647 v); [lia | ].
  cbn [orb]. f_equal. lia.
Qed.

(** X25.  Saving the form and loading what was saved gives every duration
    and rate back, and every percentage except 29, 57 and 58, which come
    back one lower (28, 56 and 57): [int(x * 100)] truncates the binary64
    product of [v / 100.0] and 100.  The sample rate box is not loaded at
    all. *)
Theorem percentages_reload_except_three (f f0 : SettingsWidget.form) :
  SettingsWidget.in_ranges f ->
  let g := SettingsWidget.load_settings (SettingsWidget.save_settings f) f0 in
  SettingsWidget.chunk_duration_spin g = SettingsWidget.chunk_duration_spin f
  /\ SettingsWidget.overlap_duration_spin g = SettingsWidget.overlap_duration_spin f
  /\ SettingsWidget.min_rate_spin g = SettingsWidget.min_rate_spin f
  /\ SettingsWidget.max_rate_spin g = SettingsWidget.max_rate_spin f
  /\ SettingsWidget.filler_threshold_spin g = SettingsWidget.filler_threshold_spin f
  /\ SettingsWidget.min_level_slider g
     = SettingsWidget.reloaded (SettingsWidget.min_level_slider f)
  /\ SettingsWidget.volume_consistency_spin g
     = SettingsWidget.reloaded (SettingsWidget.volume_consistency_spin f)
  /\ SettingsWidget.tone_weight_spin g
     = SettingsWidget.reloaded (SettingsWidget.tone_weight_spin f)
  /\ SettingsWidget.clarity_weight_spin g
     = SettingsWidget.reloaded (SettingsWidget.clarity_weight_spin f)
  /\ SettingsWidget.volume_weight_spin g
     = SettingsWidget.reloaded (SettingsWidget.volume_weight_spin f)
  /\ SettingsWidget.fluency_weight_spin g
     = SettingsWidget.reloaded (SettingsWidget.fluency_weight_spin f)
  /\ SettingsWidget.sample_rate_combo g = SettingsWidget.sample_rate_combo f0.
Proof.
  intros [R1 [R2 [R3 [R4 [R5 [R6 [R7 [R8 [R9 [R10 R11]]]]]]]]]] g. subst g.
  unfold SettingsWidget.load_settings, SettingsWidget.load_steps,
    SettingsWidget.save_settings.
  cbn [SettingsWidget.audio SettingsWidget.analysis SettingsWidget.chunk_duration
       SettingsWidget.overlap_duration SettingsWidget.min_level_threshold
       SettingsWidget.speaking_rate_range SettingsWidget.filler_threshold
       SettingsWidget.volume_consistency SettingsWidget.filler_words
       SettingsWidget.weights SettingsWidget.tone SettingsWidget.clarity
       SettingsWidget.volume SettingsWidget.fluency fst snd
       SettingsWidget.run_steps SettingsWidget.int_of bind].
  rewrite !percentage_reloaded by lia.
  cbn [bind].
  rewrite (reloaded_small (SettingsWidget.filler_threshold_spin f)) by lia.
  rewrite (set_value_within 1 10 (SettingsWidget.chunk_duration_spin f)) by lia.
  rewrite (set_value_within 0 2 (SettingsWidget.overlap_duration_spin f)) by lia.
  rewrite (set_value_within 0 100
             (SettingsWidget.reloaded (SettingsWidget.min_level_slider f)))
    by (try apply reloaded_percent; lia).
  rewrite (set_value_within 50 300 (SettingsWidget.min_rate_spin f)) by lia.
  rewrite (set_value_within 50 300 (SettingsWidget.max_rate_spin f)) by lia.
  rewrite (set_value_within 1 20 (SettingsWidget.filler_threshold_spin f)) by lia.
  rewrite (set_value_within 50 100
             (SettingsWidget.reloaded (SettingsWidget.volume_consistency_spin f)))
    by (try apply reloaded_upper_half; lia).
  rewrite (set_value_within 0 100
             (SettingsWidget.reloaded (SettingsWidget.tone_weight_spin f)))
    by (try apply reloaded_percent; lia).
  rewrite (set_value_within 0 100
             (SettingsWidget.reloaded (SettingsWidget.clarity_weight_spin f)))
    by (try apply reloaded_percent; lia).
  rewrite (set_value_within 0 100
             (SettingsWidget.reloaded (SettingsWidget.volume_weight_spin f)))
    by (try apply reloaded_percent; lia).
  rewrite (set_value_within 0 100
             (SettingsWidget.reloaded (SettingsWidget.fluency_weight_spin f)))
    by (try apply reloaded_percent; lia).
  cbn. repeat split; reflexivity.
Qed.

Lemma percentages_reload_except_three_witness :
  let g := SettingsWidget.load_settings (SettingsWidget.save_settings SampleForms.edited)
             SettingsWidget.setup_ui in
  SettingsWidget.chunk_duration_spin g = 2
  /\ SettingsWidget.overlap_duration_spin g = 1
  /\ SettingsWidget.min_rate_spin g = 120
  /\ SettingsWidget.max_rate_spin g = 180
  /\ SettingsWidget.filler_threshold_spin g = 5
  /\ SettingsWidget.min_level_slider g = SettingsWidget.reloaded 10
  /\ SettingsWidget.volume_consistency_spin g = SettingsWidget.reloaded 80
  /\ SettingsWidget.tone_weight_spin g = SettingsWidget.reloaded 29
  /\ SettingsWidget.clarity_weight_spin g = SettingsWidget.reloaded 57
  /\ SettingsWidget.volume_weight_spin g = SettingsWidget.reloaded 58
  /\ SettingsWidget.fluency_weight_spin g = SettingsWidget.reloaded 30
  /\ SettingsWidget.sample_rate_combo g = SettingsWidget.Hz16000.
Proof.
  apply (percentages_reload_except_three SampleForms.edited SettingsWidget.setup_ui).
  unfold SettingsWidget.in_ranges. simpl. lia.
Defined.

(** Checked on every window length of the form and every rate of the rate
    box: the binary64 product is the product of the integers. *)
Lemma whole_second_products :
  forallb (fun rate =>
             forallb (fun c =>
                        match py_int (Z2F c * Z2F rate)%float with
                        | Ok u => u =? c * rate
                        | Raise _ => false
                        end)
                     (Zrange 11))
          [16000; 22050; 44100; 48000] = true.
Proof. vm_compute. reflexivity. Qed.

Lemma whole_second_product (c : Z) (item : SettingsWidget.rate_item) :
  0 <= c <= 10 ->
  py_int (Z2F c * Z2F (SettingsWidget.rate_of item))%float
  = Ok (c * SettingsWidget.rate_of item).
Proof.
  intros Hc.
  assert (Hr : In (SettingsWidget.rate_of item) [16000; 22050; 44100; 48000])
    by (destruct item; cbn; auto).
  assert (Hin : In c (Zrange 11))
    by (apply In_Zrange; change (Z.of_nat 11) with 11; lia).
  pose proof (proj1 (forallb_forall _ _) whole_second_products _ Hr) as H.
  cbn beta in H.
  pose proof (proj1 (forallb_forall _ _) H c Hin) as H1. cbn beta in H1.
  destruct (py_int _) as [u | ]; [ | discriminate].
  apply Z.eqb_eq in H1. subst u. reflexivity.
Qed.

(** X26.  Whatever is saved from the form, the audio manager then slices
    windows of a whole number of seconds: with [c] seconds of window, [k] of
    overlap and the rate of the rate box, the next recording uses windows of
    [c * rate] samples overlapping by [k * rate] and advancing by
    [(c - k) * rate], so it advances exactly when the overlap is shorter
    than the window.  The overlap of half a second the manager starts with
    cannot be saved: the form loaded with the defaults shows an overlap of 0
    and a window of 3. *)
Theorem saved_windows_are_whole_seconds (f : SettingsWidget.form)
    (manager : AudioManager.t) (analyzer : SpeechAnalyzer.t) :
  SettingsWidget.in_ranges f ->
  let c := SettingsWidget.chunk_duration_spin f in
  let k := SettingsWidget.overlap_duration_spin f in
  let rate := SettingsWidget.rate_of (SettingsWidget.sample_rate_combo f) in
  let updated :=
    fst (MainWindow.update_settings (SettingsWidget.save_settings f) manager analyzer) in
  chunking_of updated
  = Ok {| analysis_chunk_samples := c * rate;
          overlap_samples := k * rate;
          step_samples := c * rate - k * rate |}
  /\ (0 < c * rate - k * rate <-> k < c)
  /\ SettingsWidget.overlap_duration_spin
       (SettingsWidget.load_settings SettingsWidget.load_default_settings
          SettingsWidget.setup_ui) = 0
  /\ SettingsWidget.chunk_duration_spin
       (SettingsWidget.load_settings SettingsWidget.load_default_settings
          SettingsWidget.setup_ui) = 3.
Proof.
  intros [R1 [R2 _]] c k rate updated.
  split; [ | split; [ | split; vm_compute; reflexivity]].
  - subst updated. unfold MainWindow.update_settings, AudioControl.update_settings,
      SettingsWidget.audio_payload, SettingsWidget.save_settings, chunking_of.
    cbn [fst SettingsWidget.audio SettingsWidget.sample_rate
         SettingsWidget.chunk_duration SettingsWidget.overlap_duration
         SettingsWidget.as_attribute AudioControl.set_sample_rate
         AudioControl.set_chunk_duration AudioControl.set_overlap_duration
         sample_rate analysis_chunk_duration overlap_duration].
    rewrite !whole_second_product by lia. reflexivity.
  - assert (Hrate : 0 < rate) by (subst rate; destruct (SettingsWidget.sample_rate_combo f); cbn; lia).
    subst c k. split; intros H; nia.
Qed.

Lemma saved_windows_are_whole_seconds_witness :
  let updated :=
    fst (MainWindow.update_settings (SettingsWidget.save_settings SampleForms.edited)
           AudioManager.init Samples.analyzer) in
  chunking_of updated
  = Ok {| analysis_chunk_samples := 2 * 44100;
          overlap_samples := 1 * 44100;
          step_samples := 2 * 44100 - 1 * 44100 |}
  /\ (0 < 2 * 44100 - 1 * 44100 <-> 1 < 2)
  /\ SettingsWidget.overlap_duration_spin
       (SettingsWidget.load_settings SettingsWidget.load_default_settings
          SettingsWidget.setup_ui) = 0
  /\ SettingsWidget.chunk_duration_spin
       (SettingsWidget.load_settings SettingsWidget.load_default_settings
          SettingsWidget.setup_ui) = 3.
Proof.
  apply (saved_windows_are_whole_seconds SampleForms.edited AudioManager.init
           Samples.analyzer).
  unfold SettingsWidget.in_ranges. simpl. lia.
Defined.

(** X27.  No setting of the form reaches the thresholds of the analyzer:
    the dictionary [MainWindow.update_settings] hands to the analyzer has no
    ['thresholds'] key, so after any settings change the analyzer has the
    thresholds and engine paths it had, and only its filler list is
    replaced.  The speaking rate range, the filler threshold and the volume
    consistency entered in the form change neither the rate metrics, nor the
    tone metrics, nor the alerts. *)
Theorem form_never_changes_the_thresholds (settings : SettingsWidget.settings_t)
    (manager : AudioManager.t) (analyzer : SpeechAnalyzer.t) (ext : externals)
    (text : string) (duration : float) (audio : list float) (sample_rate : Z)
    (m : metrics_t) (s : scores_t) :
  let updated := snd (MainWindow.update_settings settings manager analyzer) in
  thresholds updated = thresholds analyzer
  /\ whisper_cli_path updated = whisper_cli_path analyzer
  /\ whisper_model_path updated = whisper_model_path analyzer
  /\ filler_words updated
     = SettingsWidget.filler_words (SettingsWidget.analysis settings)
  /\ _analyze_speaking_rate updated text duration
     = _analyze_speaking_rate analyzer text duration
  /\ _analyze_tone updated ext audio sample_rate
     = _analyze_tone analyzer ext audio sample_rate
  /\ _generate_alerts updated m s = _generate_alerts analyzer m s.
Proof.
  intros updated. subst updated.
  unfold MainWindow.update_settings, update_settings, SettingsWidget.analysis_payload.
  cbn [fst snd set_thresholds set_filler_words override].
  repeat split.
Qed.

(** ** The filler list of the form *)

Lemma filler_lines_clean (text w : string) :
  In w (SettingsWidget.filler_lines text) ->
  w <> EmptyString /\ has_newline w = false /\ strip w = w.
Proof.
  unfold SettingsWidget.filler_lines. intros H.
  apply in_map_iff in H. destruct H as [line [E H]]. subst w.
  apply filter_In in H. destruct H as [Hin Hne].
  split; [ | split].
  - intros E. rewrite E in Hne. discriminate.
  - apply has_newline_strip.
    pose proof (split_lines_from_single text EmptyString eq_refl) as Hall.
    rewrite Forall_forall in Hall. apply Hall. exact Hin.
  - apply strip_idempotent.
Qed.

(** X28.  Every filler word [save_settings] collects from the text box is a
    non-empty single line without surrounding whitespace; blank lines are
    dropped.  The words are not lower-cased: a word typed with a capital
    letter is stored as typed, and the analyzer updated with the saved
    settings returns the same filler metrics as without that word. *)
Theorem saved_filler_words_are_trimmed_lines (f : SettingsWidget.form)
    (manager : AudioManager.t) (analyzer : SpeechAnalyzer.t) (text : string) :
  let saved := SettingsWidget.save_settings f in
  let words := SettingsWidget.filler_words (SettingsWidget.analysis saved) in
  let updated := snd (MainWindow.update_settings saved manager analyzer) in
  Forall (fun w => w <> EmptyString /\ has_newline w = false /\ strip w = w) words
  /\ filler_words updated = words
  /\ _analyze_fillers updated text
     = _analyze_fillers
         (with_filler_words updated (filter (fun w => negb (has_upper w)) words))
         text.
Proof.
  intros saved words updated.
  split; [ | split].
  - apply Forall_forall. intros w Hw. apply (filler_lines_clean _ _ Hw).
  - reflexivity.
  - unfold _analyze_fillers, with_filler_words, update_settings, override.
    cbn [fst filler_words thresholds set_filler_words set_thresholds].
    change (filler_words updated) with words.
    rewrite (count_fillers_lower_only words). reflexivity.
Qed.

(** ** A transcription without words *)

(** X30.  A transcription that is not empty but holds no word character
    (dots, a music note sign) counts as fluent in one half only: for a
    positive duration and a positive lower bound of the good rate,
    [_analyze_fillers] returns no filler and score 100,
    [_analyze_speaking_rate] returns 0 words per minute, 0 words and score
    0, their fluency average is 50, and no rate alert is raised. *)
Theorem wordless_transcription_scores_half (self : SpeechAnalyzer.t) (text : string)
    (duration : float) (m : metrics_t) (s : scores_t) :
  text <> EmptyString ->
  findall_words text = [] ->
  (0 <? duration)%float = true ->
  (0 <? fst (speaking_rate_good (thresholds self)))%float = true ->
  m_rate m = Some (_analyze_speaking_rate self text duration) ->
  _analyze_fillers self text = {| count := 0; ratio := 0; types := []; f_score := 100 |}
  /\ _analyze_speaking_rate self text duration
     = {| words_per_minute := 0; word_count := 0; r_score := 0 |}
  /\ (f_score (_analyze_fillers self text)
      + r_score (_analyze_speaking_rate self text duration)) / 2 = 50
  /\ ~ In SpeakFaster (_generate_alerts self m s)
  /\ ~ In SlowDown (_generate_alerts self m s).
Proof.
  intros Htext Hwords Hd Hlo Hm.
  assert (Hf : _analyze_fillers self text
               = {| count := 0; ratio := 0; types := []; f_score := 100 |}).
  { unfold _analyze_fillers. rewrite findall_words_lower, Hwords.
    destruct ((text =? "")%string); reflexivity. }
  assert (Hr : _analyze_speaking_rate self text duration
               = {| words_per_minute := 0; word_count := 0; r_score := 0 |}).
  { destruct (speaking_rate_good (thresholds self)) as [lo hi] eqn:Hth.
    cbn [fst] in Hlo.
    rewrite (analyze_speaking_rate_past_guard self text duration lo hi Hth Htext
               (ltb_not_leb _ _ Hd)).
    rewrite Hwords. change (Z2F (len (@nil string))) with 0%float.
    rewrite (zero_div_positive duration Hd). change (0 * 60)%float with 0%float.
    rewrite (ltb_not_leb _ _ Hlo). cbn [andb]. rewrite Hlo.
    unfold py_truediv. rewrite (positive_not_zero lo Hlo). cbn [bind].
    rewrite (zero_div_positive lo Hlo). reflexivity. }
  rewrite Hf, Hr. split; [reflexivity | ]. split; [reflexivity | ].
  split; [reflexivity | ].
  split; intros Hin.
  - pose proof (rate_alerts_need_a_rate _ _ _ (or_introl Hin)) as R.
    rewrite Hm, Hr in R. vm_compute in R. discriminate.
  - pose proof (rate_alerts_need_a_rate _ _ _ (or_intror Hin)) as R.
    rewrite Hm, Hr in R. vm_compute in R. discriminate.
Qed.

Lemma wordless_transcription_scores_half_witness :
  _analyze_fillers Samples.analyzer "..."
  = {| count := 0; ratio := 0; types := []; f_score := 100 |}
  /\ _analyze_speaking_rate Samples.analyzer "..." 3
     = {| words_per_minute := 0; word_count := 0; r_score := 0 |}
  /\ (f_score (_analyze_fillers Samples.analyzer "...")
      + r_score (_analyze_speaking_rate Samples.analyzer "..." 3)) / 2 = 50
  /\ ~ In SpeakFaster
         (_generate_alerts Samples.analyzer
            {| m_tone := None; m_clarity := None; m_volume := None;
               m_fillers := Some (_analyze_fillers Samples.analyzer "...");
               m_rate := Some (_analyze_speaking_rate Samples.analyzer "..." 3) |}
            zero_scores)
  /\ ~ In SlowDown
         (_generate_alerts Samples.analyzer
            {| m_tone := None; m_clarity := None; m_volume := None;
               m_fillers := Some (_analyze_fillers Samples.analyzer "...");
               m_rate := Some (_analyze_speaking_rate Samples.analyzer "..." 3) |}
            zero_scores).
Proof.
  apply (wordless_transcription_scores_half Samples.analyzer "..." 3
           {| m_tone := None; m_clarity := None; m_volume := None;
              m_fillers := Some (_analyze_fillers Samples.analyzer "...");
              m_rate := Some (_analyze_speaking_rate Samples.analyzer "..." 3) |}
           zero_scores); try reflexivity.
  discriminate.
Defined.
